(** * Corporate Jira MCP server: request helper and operation handlers

    A shallow embedding of the TypeScript sources of the Jira tool server
    (common/utils.ts, common/errors.ts, common/config.ts and the handlers
    under operations/), followed by the properties proved about them.

    Conventions of the embedding.
    - JavaScript strings are byte strings ([string]); text is taken to be
      UTF-8.  The case of the letters A to Z is mapped here; what
      [toLowerCase] makes of other characters is the platform's.
    - JSON numbers are integers ([Z]); fractional numbers are outside the
      model.
    - A JavaScript object is the list of its entries, in the order
      [Object.entries] and [JSON.stringify] walk them.
    - Promises that are awaited one after the other are sequenced in a
      state-and-exception monad whose state survives a throw; the one
      [Promise.all] fan-out is modelled with an explicit settle order. *)

From Stdlib Require Import String Ascii List ZArith Lia Bool Arith.
From Stdlib Require Import DecimalString Sorted Permutation ZifyNat.
Import ListNotations.
Local Open Scope list_scope.
Local Open Scope string_scope.
Set Warnings "-register-all".

(* ===================================================================== *)
(** ** String helpers (the String.prototype methods the sources call)    *)
(* ===================================================================== *)

Module Str.

(** [s.startsWith(p)] *)
Definition startsWith (s p : string) : bool := String.prefix p s.

(** [s.includes(p)] *)
Fixpoint includes (s p : string) : bool :=
  String.prefix p s ||
  match s with
  | EmptyString => false
  | String _ s' => includes s' p
  end.

Definition between (lo hi n : nat) : bool := Nat.leb lo n && Nat.leb n hi.

Definition lower_ascii (c : ascii) : ascii :=
  let n := nat_of_ascii c in
  if between 65 90 n then ascii_of_nat (n + 32) else c.

(** The letters A to Z lowered, every other byte as it is: what
    [Headers] does to a name, and the whole of [s.toLowerCase()] when [s]
    is made of ASCII characters. *)
Fixpoint lowerASCII (s : string) : string :=
  match s with
  | EmptyString => EmptyString
  | String c s' => String (lower_ascii c) (lowerASCII s')
  end.

(** [xs.join(sep)] on an array of strings *)
Definition join (sep : string) (xs : list string) : string :=
  String.concat sep xs.

(** [String(n)] for an integer *)
Definition of_Z (n : Z) : string := NilEmpty.string_of_int (Z.to_int n).

Definition of_nat (n : nat) : string := of_Z (Z.of_nat n).

(** [path.replace(/^\//, '')]: drops one leading slash, if there is one *)
Definition stripLeadingSlash (path : string) : string :=
  match path with
  | String "/"%char rest => rest
  | _ => path
  end.

Definition is_upper (c : ascii) : bool :=
  between 65 90 (nat_of_ascii c).

Definition is_digit (c : ascii) : bool :=
  between 48 57 (nat_of_ascii c).

Fixpoint all_chars (p : ascii -> bool) (s : string) : bool :=
  match s with
  | EmptyString => true
  | String c s' => p c && all_chars p s'
  end.

(** A string of ASCII characters: no byte of a longer UTF-8 sequence. *)
Definition is_ascii (s : string) : bool :=
  all_chars (fun c => Nat.ltb (nat_of_ascii c) 128) s.

Fixpoint chars (s : string) : list ascii :=
  match s with
  | EmptyString => []
  | String c s' => c :: chars s'
  end.

Fixpoint of_chars (l : list ascii) : string :=
  match l with
  | [] => EmptyString
  | c :: l' => String c (of_chars l')
  end.

(** [s[0]] for a string that is not empty: its first UTF-16 code unit.
    A character of one to three bytes is one code unit; of a character of
    four bytes the first unit is the high surrogate (0xD800 plus the ten
    high bits of the code point less 0x10000), written here as the three
    bytes the same encoding gives it. *)
Definition first_unit (s : string) : string :=
  match s with
  | EmptyString => EmptyString
  | String c rest =>
      let b0 := nat_of_ascii c in
      if Nat.ltb b0 192 then String c EmptyString
      else if Nat.ltb b0 224 then
        String c (match rest with
                  | String c1 _ => String c1 EmptyString
                  | EmptyString => EmptyString
                  end)
      else if Nat.ltb b0 240 then
        String c (match rest with
                  | String c1 (String c2 _) => String c1 (String c2 EmptyString)
                  | _ => rest
                  end)
      else
        match rest with
        | String c1 (String c2 _) =>
            let b1 := nat_of_ascii c1 in
            let b2 := nat_of_ascii c2 in
            let top := (b0 mod 8) * 256 + (b1 mod 64) * 4 + (b2 mod 64) / 16 in
            let high := top - 64 in
            String (ascii_of_nat 237)
              (String (ascii_of_nat (160 + high / 64))
                 (String (ascii_of_nat (128 + high mod 64)) EmptyString))
        | _ => s
        end
  end.

(** The one-character string holding a double quote. *)
Definition dquote : string := String (ascii_of_nat 34) EmptyString.

Definition nonempty (s : string) : bool :=
  match s with EmptyString => false | _ => true end.

End Str.

(* ===================================================================== *)
(** ** JSON values and the JavaScript coercions applied to them          *)
(* ===================================================================== *)

Inductive JSON : Type :=
| JNull
| JBool (b : bool)
| JNum (n : Z)
| JStr (s : string)
| JArr (items : list JSON)
| JObj (entries : list (string * JSON)).

Module Js.

(** Own-property lookup in an entry list; [None] is [undefined]. *)
Fixpoint lookup {A : Type} (k : string) (entries : list (string * A)) : option A :=
  match entries with
  | [] => None
  | (k', v) :: rest => if String.eqb k k' then Some v else lookup k rest
  end.

(** [obj[k] = v]: replaces the value in place, or adds the key last. *)
Fixpoint set {A : Type} (k : string) (v : A) (entries : list (string * A))
  : list (string * A) :=
  match entries with
  | [] => [(k, v)]
  | (k', v') :: rest =>
      if String.eqb k k' then (k', v) :: rest else (k', v') :: set k v rest
  end.

(** [delete obj[k]] *)
Definition delete {A : Type} (k : string) (entries : list (string * A))
  : list (string * A) :=
  filter (fun e => negb (String.eqb k (fst e))) entries.

(** [{ ...a, ...b }] *)
Definition spread {A : Type} (a b : list (string * A)) : list (string * A) :=
  fold_left (fun acc e => set (fst e) (snd e) acc) b a.

(** [v.k] on a value that is neither [null] nor [undefined], for a key
    [k] that is not a built-in of strings or arrays. *)
Definition prop (v : JSON) (k : string) : option JSON :=
  match v with
  | JObj entries => lookup k entries
  | _ => None
  end.

(** ToBoolean *)
Definition truthy (v : JSON) : bool :=
  match v with
  | JNull => false
  | JBool b => b
  | JNum n => negb (Z.eqb n 0)
  | JStr s => Str.nonempty s
  | JArr _ | JObj _ => true
  end.

Definition truthy_opt (o : option JSON) : bool :=
  match o with Some v => truthy v | None => false end.

(** [typeof v === 'object'] (true of [null] as well) *)
Definition typeof_object (v : JSON) : bool :=
  match v with
  | JNull | JArr _ | JObj _ => true
  | _ => false
  end.

(** ToString, as applied by template literals and [Array.prototype.join];
    [joinWith] is [items.join(sep)], where [null] elements print as the
    empty string. *)
Fixpoint toString (v : JSON) : string :=
  match v with
  | JNull => "null"
  | JBool true => "true"
  | JBool false => "false"
  | JNum n => Str.of_Z n
  | JStr s => s
  | JArr items =>
      (fix go (l : list JSON) : string :=
         match l with
         | [] => EmptyString
         | x :: r =>
             let e := match x with JNull => EmptyString | _ => toString x end in
             match r with
             | [] => e
             | _ => e ++ "," ++ go r
             end
         end) items
  | JObj _ => "[object Object]"
  end.

Definition elemString (x : JSON) : string :=
  match x with JNull => EmptyString | _ => toString x end.

Definition joinWith (sep : string) (items : list JSON) : string :=
  Str.join sep (map elemString items).

(** [Object.entries(v)] of a truthy value: own enumerable string keys. *)
Fixpoint indexed {A : Type} (i : nat) (l : list A) : list (string * A) :=
  match l with
  | [] => []
  | x :: r => (Str.of_nat i, x) :: indexed (S i) r
  end.

Definition entries (v : JSON) : list (string * JSON) :=
  match v with
  | JObj es => es
  | JArr items => indexed 0 items
  | JStr s => indexed 0 (map (fun c => JStr (String c EmptyString)) (Str.chars s))
  | _ => []
  end.

(** SameValueZero, the equality of [Set]: primitives by value; two
    objects or arrays met at different places of a parsed tree are
    different objects. *)
Definition sameValueZero (a b : JSON) : bool :=
  match a, b with
  | JNull, JNull => true
  | JBool x, JBool y => Bool.eqb x y
  | JNum x, JNum y => Z.eqb x y
  | JStr x, JStr y => String.eqb x y
  | _, _ => false
  end.

(** [[...new Set(xs)]]: keeps the first occurrence of every value. *)
Fixpoint uniq_acc (seen : list JSON) (xs : list JSON) : list JSON :=
  match xs with
  | [] => []
  | x :: r =>
      if existsb (sameValueZero x) seen then uniq_acc seen r
      else x :: uniq_acc (x :: seen) r
  end.

Definition setOf (xs : list JSON) : list JSON := uniq_acc [] xs.

End Js.

(* ===================================================================== *)
(** ** Buffer: base64 in both directions                                 *)
(* ===================================================================== *)

Module Buffer.

Definition alphabet : list ascii :=
  Str.chars "ABCDEFGHIJKLMNOPQRSTUVWXYZabcdefghijklmnopqrstuvwxyz0123456789+/".

Definition sextet_char (n : nat) : ascii := nth n alphabet "A"%char.

(** [buf.toString('base64')] *)
Fixpoint encode_bytes (bs : list nat) : list ascii :=
  match bs with
  | [] => []
  | [a] =>
      [sextet_char (a / 4); sextet_char ((a mod 4) * 16); "="%char; "="%char]
  | [a; b] =>
      [sextet_char (a / 4); sextet_char ((a mod 4) * 16 + b / 16);
       sextet_char ((b mod 16) * 4); "="%char]
  | a :: b :: c :: rest =>
      sextet_char (a / 4) :: sextet_char ((a mod 4) * 16 + b / 16)
      :: sextet_char ((b mod 16) * 4 + c / 64) :: sextet_char (c mod 64)
      :: encode_bytes rest
  end.

Definition toBase64 (s : string) : string :=
  Str.of_chars (encode_bytes (map nat_of_ascii (Str.chars s))).

(** The value of a base64 digit; both the standard and the URL-safe
    alphabet are accepted. *)
Definition unbase64 (c : ascii) : option nat :=
  let n := nat_of_ascii c in
  if Str.between 65 90 n then Some (n - 65)
  else if Str.between 97 122 n then Some (n - 71)
  else if Str.between 48 57 n then Some (n + 4)
  else if Nat.eqb n 43 || Nat.eqb n 45 then Some 62
  else if Nat.eqb n 47 || Nat.eqb n 95 then Some 63
  else None.

(** Digits of the input up to the first [=]; other characters are
    skipped, as the lenient decoder does. *)
Fixpoint sextets (cs : list ascii) : list nat :=
  match cs with
  | [] => []
  | c :: r =>
      if Ascii.eqb c "="%char then []
      else match unbase64 c with
           | Some v => v :: sextets r
           | None => sextets r
           end
  end.

Fixpoint decode_sextets (vs : list nat) : list nat :=
  match vs with
  | a :: b :: c :: d :: rest =>
      (a * 4 + b / 16) :: ((b mod 16) * 16 + c / 4) :: ((c mod 4) * 64 + d)
      :: decode_sextets rest
  | [a; b; c] => [a * 4 + b / 16; (b mod 16) * 16 + c / 4]
  | [a; b] => [a * 4 + b / 16]
  | _ => []
  end.

(** [Buffer.from(s, 'base64').toString()]; never throws.  The decoded
    bytes are kept as they are: reading them as UTF-8 neither adds nor
    removes a colon, which is all the caller looks for. *)
Definition fromBase64 (s : string) : string :=
  Str.of_chars (map ascii_of_nat (decode_sextets (sextets (Str.chars s)))).

End Buffer.

(* ===================================================================== *)
(** ** common/errors.ts: the error taxonomy                              *)
(* ===================================================================== *)

(** The [name] of a thrown error: the built-in classes the code can meet
    and the classes of errors.ts. *)
Inductive ErrorName : Type :=
| NError
| NTypeError
| NRangeError
| NSyntaxError
| NJiraError
| NJiraValidationError
| NJiraResourceNotFoundError
| NJiraAuthenticationError
| NJiraPermissionError
| NJiraRateLimitError
| NJiraConflictError.

Record JsError : Type := mkJsError {
  err_name : ErrorName;
  err_message : string;
  err_status : option Z;
  err_response : option JSON;
  err_resetAt : option Z
}.

(** A computation that returns or throws. *)
Inductive Exn (A : Type) : Type :=
| Ok (a : A)
| Throw (e : JsError).
Arguments Ok {A} a.
Arguments Throw {A} e.

Definition plainError (name : ErrorName) (message : string) : JsError :=
  mkJsError name message None None None.

(** What the platform supplies and the repository only calls: [JSON.parse],
    the serialisation of a [URL] object, [Date.parse] and
    [Date.prototype.toISOString], the sign of [ToNumber] on a string,
    [String.prototype.toLowerCase] with its Unicode case mapping, and the
    user-agent string built from version.ts and universal-user-agent. *)
Class Platform : Type := {
  JSON_parse : string -> Exn JSON;
  URL_href : string -> list (string * string) -> string;
  Date_parse : string -> option Z;
  Date_toISOString : Z -> string;
  ToNumber_positive : string -> bool;
  String_toLowerCase : string -> string;
  USER_AGENT : string
}.

(** [s.toLowerCase()].  On a string of ASCII characters it lowers the
    letters A to Z and nothing else.  On any other string the result is
    the platform's; the letters A to Z are lowered there as well and their
    case has no bearing on what becomes of the other characters, so the
    platform's mapping is taken of the string with those letters lowered. *)
Definition toLowerCase `{Platform} (s : string) : string :=
  if Str.is_ascii s then Str.lowerASCII s
  else String_toLowerCase (Str.lowerASCII s).

Module Errors.

Definition is_jira_name (n : ErrorName) : bool :=
  match n with
  | NJiraError | NJiraValidationError | NJiraResourceNotFoundError
  | NJiraAuthenticationError | NJiraPermissionError | NJiraRateLimitError
  | NJiraConflictError => true
  | _ => false
  end.

(** [error instanceof JiraError] *)
Definition isJiraError (e : JsError) : bool := is_jira_name (err_name e).

(** [`${error}`]: the class name, a colon and the message. *)
Definition name_string (n : ErrorName) : string :=
  match n with
  | NError => "Error"
  | NTypeError => "TypeError"
  | NRangeError => "RangeError"
  | NSyntaxError => "SyntaxError"
  | NJiraError => "JiraError"
  | NJiraValidationError => "JiraValidationError"
  | NJiraResourceNotFoundError => "JiraResourceNotFoundError"
  | NJiraAuthenticationError => "JiraAuthenticationError"
  | NJiraPermissionError => "JiraPermissionError"
  | NJiraRateLimitError => "JiraRateLimitError"
  | NJiraConflictError => "JiraConflictError"
  end.

Definition error_string (e : JsError) : string :=
  name_string (err_name e) ++ ": " ++ err_message e.

(** The constructors.  [message] is whatever value the caller computed;
    [Error] stores its ToString. *)
Definition JiraError (message : JSON) (status : Z) (response : JSON) : JsError :=
  mkJsError NJiraError (Js.toString message) (Some status) (Some response) None.

Definition JiraValidationError (message : JSON) (status : Z) (response : JSON)
  : JsError :=
  mkJsError NJiraValidationError (Js.toString message) (Some status)
    (Some response) None.

Definition JiraResourceNotFoundError (resource : JSON) : JsError :=
  mkJsError NJiraResourceNotFoundError
    ("Resource not found: " ++ Js.toString resource) (Some 404%Z)
    (Some (JObj [("message", JStr (Js.toString resource ++ " not found"))]))
    None.

Definition JiraAuthenticationError (message : JSON) : JsError :=
  mkJsError NJiraAuthenticationError (Js.toString message) (Some 401%Z)
    (Some (JObj [("message", message)])) None.

Definition JiraPermissionError (message : JSON) : JsError :=
  mkJsError NJiraPermissionError (Js.toString message) (Some 403%Z)
    (Some (JObj [("message", message)])) None.

Definition JiraConflictError (message : JSON) : JsError :=
  mkJsError NJiraConflictError (Js.toString message) (Some 409%Z)
    (Some (JObj [("message", message)])) None.

(** [resetAt] is the time value of the [Date]; [None] is an invalid
    date, on which [toISOString] throws a [RangeError]. *)
Definition JiraRateLimitError `{Platform} (message : JSON) (resetAt : option Z)
  : Exn JsError :=
  match resetAt with
  | None => Throw (plainError NRangeError "Invalid time value")
  | Some t =>
      Ok (mkJsError NJiraRateLimitError (Js.toString message) (Some 429%Z)
            (Some (JObj [("message", message);
                         ("reset_at", JStr (Date_toISOString t))]))
            (Some t))
  end.

(** [x > 0] for a JSON value [x] *)
Definition gt_zero `{Platform} (x : JSON) : bool :=
  match x with
  | JNull => false
  | JBool b => b
  | JNum n => Z.ltb 0 n
  | JStr s => ToNumber_positive s
  | JArr _ => ToNumber_positive (Js.toString x)
  | JObj _ => false
  end.

(** [v.length > 0] for a truthy value [v] *)
Definition length_positive `{Platform} (v : JSON) : bool :=
  match v with
  | JArr items => match items with [] => false | _ => true end
  | JStr s => Str.nonempty s
  | JObj es => match Js.lookup "length" es with
               | Some x => gt_zero x
               | None => false
               end
  | _ => false
  end.

(** [new Date(v)] for a truthy value [v]: its time value, if valid. *)
Definition timeClip (n : Z) : option Z :=
  if Z.leb (Z.abs n) 8640000000000000 then Some n else None.

Definition new_Date `{Platform} (v : JSON) : option Z :=
  match v with
  | JNull => Some 0%Z
  | JBool b => Some (if b then 1%Z else 0%Z)
  | JNum n => timeClip n
  | JStr s => Date_parse s
  | JArr _ | JObj _ => Date_parse (Js.toString v)
  end.

(** [x || d] *)
Definition or_else (x : option JSON) (d : JSON) : JSON :=
  match x with
  | Some v => if Js.truthy v then v else d
  | None => d
  end.

(** The [message] computed at the head of [createJiraError]. *)
Definition deriveMessage `{Platform} (response : JSON) : Exn JSON :=
  let errorMessages := or_else (Js.prop response "errorMessages") (JArr []) in
  let errors := or_else (Js.prop response "errors") (JObj []) in
  if length_positive errorMessages then
    match errorMessages with
    | JArr items => Ok (JStr (Js.joinWith ", " items))
    | _ => Throw (plainError NTypeError "errorMessages.join is not a function")
    end
  else
    let listed :=
      Str.join ", "
        (map (fun e => fst e ++ ": " ++ Js.toString (snd e)) (Js.entries errors)) in
    Ok (or_else (Some (JStr listed))
          (or_else (Js.prop response "message") (JStr "Unknown error"))).

(** [createJiraError(status, response)]; [now] is [Date.now()]. *)
Definition createJiraError `{Platform} (now : Z) (status : Z) (response : JSON)
  : Exn JsError :=
  if Js.truthy response && Js.typeof_object response then
    match deriveMessage response with
    | Throw e => Throw e
    | Ok message =>
        if Z.eqb status 401 then Ok (JiraAuthenticationError message)
        else if Z.eqb status 403 then Ok (JiraPermissionError message)
        else if Z.eqb status 404 then Ok (JiraResourceNotFoundError message)
        else if Z.eqb status 409 then Ok (JiraConflictError message)
        else if Z.eqb status 400 || Z.eqb status 422 then
          Ok (JiraValidationError message status response)
        else if Z.eqb status 429 then
          JiraRateLimitError message
            (match Js.prop response "resetAt" with
             | Some v =>
                 if Js.truthy v then new_Date v else Some (now + 60000)%Z
             | None => Some (now + 60000)%Z
             end)
        else Ok (JiraError message status response)
    end
  else
    Ok (JiraError (JStr "Unknown Jira API error") status response).

End Errors.

(* ===================================================================== *)
(** ** common/config.ts                                                  *)
(* ===================================================================== *)

Record Config : Type := mkConfig {
  apiBaseUrl : string;
  logFile : string;
  auth_email : string;
  auth_token : string
}.

(** [createConfig] throws unless both credentials are non-empty, so every
    configuration a handler runs under satisfies this. *)
Definition config_loaded (cfg : Config) : Prop :=
  auth_email cfg <> EmptyString /\ auth_token cfg <> EmptyString.

(* ===================================================================== *)
(** ** The network, the log file and the monad of handlers               *)
(* ===================================================================== *)

(** An outgoing [fetch].  [req_body] is the value handed to
    [JSON.stringify]; the wire body is its serialisation. *)
Record Request : Type := mkRequest {
  req_url : string;
  req_method : string;
  req_headers : list (string * string);
  req_body : option JSON
}.

(** A response; header names are lower-case, as [Headers] keeps them. *)
Record Response : Type := mkResponse {
  resp_status : Z;
  resp_statusText : string;
  resp_headers : list (string * string);
  resp_text : string
}.

Inductive FetchOutcome : Type :=
| Responds (r : Response)
| Rejects (e : JsError).

(** The environment of a run: what the [n]-th fetch (counting from 0)
    meets, the clock, and the instant at which the [n]-th fetch settles
    (used only to order the settlements of concurrent requests). *)
Record World : Type := mkWorld {
  fetch : nat -> Request -> FetchOutcome;
  now : Z;
  settles : nat -> nat
}.

(** A message handed to [logToFile].  [LineJSON p v] is the message made
    of [p] and the [JSON.stringify] of [v] (indented by two spaces in the
    request helper).  The ISO timestamp that [logToFile] puts in front of
    every message is left out. *)
Inductive LogLine : Type :=
| Line (text : string)
| LineJSON (prefix : string) (value : JSON).

Record State : Type := mkState {
  requests : list Request;
  logged : list LogLine
}.

Definition initial : State := mkState [] [].

Definition M (A : Type) : Type := State -> Exn A * State.

Definition ret {A : Type} (a : A) : M A := fun st => (Ok a, st).

Definition bind {A B : Type} (m : M A) (k : A -> M B) : M B :=
  fun st =>
    match m st with
    | (Ok a, st') => k a st'
    | (Throw e, st') => (Throw e, st')
    end.

Definition throw {A : Type} (e : JsError) : M A := fun st => (Throw e, st).

(** [try { m } catch (error) { handler error }] *)
Definition try_catch {A : Type} (m : M A) (handler : JsError -> M A) : M A :=
  fun st =>
    match m st with
    | (Ok a, st') => (Ok a, st')
    | (Throw e, st') => handler e st'
    end.

Definition lift {A : Type} (x : Exn A) : M A := fun st => (x, st).

Declare Scope js_scope.
Delimit Scope js_scope with js.
Notation "x <- m ;; k" := (bind m (fun x => k))
  (at level 61, m at next level, right associativity) : js_scope.
Notation "m ;; k" := (bind m (fun _ => k))
  (at level 61, right associativity) : js_scope.
Local Open Scope js_scope.

Definition success_true : JSON := JObj [("success", JBool true)].

Definition json_of_headers (hs : list (string * string)) : JSON :=
  JObj (map (fun e => (fst e, JStr (snd e))) hs).

(* ===================================================================== *)
(** ** common/utils.ts: the request helper                               *)
(* ===================================================================== *)

Module Utils.
Section WithPlatform.
Context `{Platform}.
Variable cfg : Config.
Variable w : World.

Record RequestOptions : Type := mkOptions {
  opt_method : option string;
  opt_body : option JSON;
  opt_headers : list (string * string)
}.

(** [jiraRequest(path)] with the default [options = {}] *)
Definition noOptions : RequestOptions := mkOptions None None [].

(** [logToFile(message)]: appends to the log file.  (When the write
    fails the message goes to the console and nothing is appended.) *)
Definition logToFile (line : LogLine) : M unit :=
  fun st => (Ok tt, mkState (requests st) (logged st ++ [line])%list).

(** [response.headers.get(name)] *)
Definition headers_get (name : string) (hs : list (string * string))
  : option string :=
  Js.lookup (Str.lowerASCII name)
    (map (fun e => (Str.lowerASCII (fst e), snd e)) hs).

(** [contentType?.includes(s)] *)
Definition contentType_includes (r : Response) (s : string) : bool :=
  match headers_get "content-type" (resp_headers r) with
  | Some ct => Str.includes ct s
  | None => false
  end.

Definition xml_error : JsError :=
  plainError NError
    "Received XML response instead of JSON. This usually indicates an authentication or API endpoint issue.".

Definition parseResponseBody (response : Response) : M JSON :=
  if Z.eqb (resp_status response) 204 then ret success_true
  else if contentType_includes response "application/json" then
    let text := resp_text response in
    if negb (Str.nonempty text) then ret success_true
    else match JSON_parse text with
         | Ok v => ret v
         | Throw error =>
             logToFile (Line ("Failed to parse JSON response: "
                              ++ Errors.error_string error)) ;;
             ret success_true
         end
  else if contentType_includes response "application/xml" then
    logToFile (Line ("Received XML response: " ++ resp_text response)) ;;
    throw xml_error
  else ret (JStr (resp_text response)).

(** The state of a [URL] object: the string it was constructed from and
    the pairs appended to its [searchParams] since. *)
Record URL : Type := mkURL {
  url_input : string;
  url_appended : list (string * string)
}.

Definition new_URL (input : string) : URL := mkURL input [].

Definition searchParams_append (u : URL) (key value : string) : URL :=
  mkURL (url_input u) (url_appended u ++ [(key, value)])%list.

Definition URL_toString (u : URL) : string :=
  URL_href (url_input u) (url_appended u).

(** A value of type [string | number | undefined] *)
Inductive ParamValue : Type :=
| PString (s : string)
| PNumber (n : Z)
| PUndefined.

Definition param_of (o : option string) : ParamValue :=
  match o with Some s => PString s | None => PUndefined end.

Definition buildUrl (path : string) (params : list (string * ParamValue))
  : string :=
  let cleanPath := Str.stripLeadingSlash path in
  let url := new_URL (apiBaseUrl cfg ++ "/" ++ cleanPath) in
  URL_toString
    (fold_left
       (fun url entry =>
          match snd entry with
          | PUndefined => url
          | PString s => searchParams_append url (fst entry) s
          | PNumber n => searchParams_append url (fst entry) (Str.of_Z n)
          end)
       params url).

Definition constructAuthHeader (email token : string) : M string :=
  let decodedToken := Buffer.fromBase64 token in
  if Str.includes decodedToken ":" then
    logToFile (Line "Using pre-encoded token") ;;
    ret ("Basic " ++ token)
  else
    let authString := email ++ ":" ++ token in
    logToFile (Line "Constructing new auth header with email:token format") ;;
    ret ("Basic " ++ Buffer.toBase64 authString).

Definition defaultHeaders : list (string * string) :=
  [("Content-Type", "application/json");
   ("Accept", "application/json");
   ("X-Atlassian-Token", "no-check");
   ("User-Agent", USER_AGENT)].

(** [options.method || "GET"] *)
Definition method_of (options : RequestOptions) : string :=
  match opt_method options with
  | Some m => if Str.nonempty m then m else "GET"
  | None => "GET"
  end.

(** [options.body], when truthy *)
Definition body_of (options : RequestOptions) : option JSON :=
  match opt_body options with
  | Some b => if Js.truthy b then Some b else None
  | None => None
  end.

(** The object whose serialisation is the logged "Headers:" line. *)
Definition loggedHeaders (headers : list (string * string)) : JSON :=
  json_of_headers (Js.spread headers [("Authorization", "[REDACTED]")]).

(** [sensitiveKeys.includes(key.toLowerCase())] *)
Definition sensitive (key : string) : bool :=
  existsb (String.eqb (toLowerCase key)) ["token"; "password"; "secret"].

(** [JSON.stringify(value, replacer, 2)] visits every property with its
    key (the empty key at the root, the index inside an array) and
    serialises what
    the replacer returns; [sanitize key value] is the tree it serialises. *)
Fixpoint sanitize (key : string) (value : JSON) : JSON :=
  if sensitive key then JStr "[REDACTED]"
  else match value with
       | JObj es => JObj (map (fun e => (fst e, sanitize (fst e) (snd e))) es)
       | JArr items =>
           JArr ((fix over (i : nat) (l : list JSON) : list JSON :=
                    match l with
                    | [] => []
                    | x :: r => sanitize (Str.of_nat i) x :: over (S i) r
                    end) 0 items)
       | _ => value
       end.

(** The message of the "Response body:" log line. *)
Definition loggedBody (responseBody : JSON) : LogLine :=
  if Js.typeof_object responseBody
  then LineJSON "Response body: " (sanitize EmptyString responseBody)
  else Line ("Response body: " ++ Js.toString responseBody).

(** A fetch in flight: its sequence number and what it will settle to. *)
Record Pending : Type := mkPending {
  pend_seq : nat;
  pend_outcome : FetchOutcome
}.

(** [fetch(url, { method, headers, body })] *)
Definition do_fetch (req : Request) : M Pending :=
  fun st =>
    let n := List.length (requests st) in
    (Ok (mkPending n (fetch w n req)),
     mkState (requests st ++ [req])%list (logged st)).

(** [jiraRequest] up to the point where it awaits the fetch. *)
Definition jiraRequest_begin (path : string) (options : RequestOptions)
  : M Pending :=
  let headers := Js.spread defaultHeaders (opt_headers options) in
  let email := auth_email cfg in
  let token := auth_token cfg in
  if negb (Str.nonempty email) || negb (Str.nonempty token) then
    throw (plainError NError "Email and token are required for authentication")
  else
    authorization <- constructAuthHeader email token ;;
    let headers := Js.set "Authorization" authorization headers in
    let url := if Str.startsWith path "http" then path else buildUrl path [] in
    logToFile (Line ("Making request to: " ++ url)) ;;
    logToFile (Line ("Method: " ++ method_of options)) ;;
    logToFile (LineJSON "Headers: " (loggedHeaders headers)) ;;
    match body_of options with
    | Some b => logToFile (LineJSON "Request body: " b)
    | None => ret tt
    end ;;
    do_fetch (mkRequest url (method_of options) headers (body_of options)).

Definition response_ok (r : Response) : bool :=
  Z.leb 200 (resp_status r) && Z.leb (resp_status r) 299.

(** [jiraRequest] from the moment the fetch settles: the body of the
    [try] and its [catch]. *)
Definition jiraRequest_settle (p : Pending) : M JSON :=
  try_catch
    (match pend_outcome p with
     | Rejects e => throw e
     | Responds response =>
         logToFile (Line ("Response status: " ++ Str.of_Z (resp_status response)
                          ++ " " ++ resp_statusText response)) ;;
         logToFile (LineJSON "Response headers: "
                      (json_of_headers (resp_headers response))) ;;
         if Z.eqb (resp_status response) 204 then ret success_true
         else
           responseBody <- parseResponseBody response ;;
           logToFile (loggedBody responseBody) ;;
           if negb (response_ok response) then
             error <- lift (Errors.createJiraError (now w)
                              (resp_status response) responseBody) ;;
             throw error
           else ret responseBody
     end)
    (fun error =>
       logToFile (Line ("Request failed: " ++ err_message error)) ;;
       throw error).

Definition jiraRequest (path : string) (options : RequestOptions) : M JSON :=
  p <- jiraRequest_begin path options ;;
  jiraRequest_settle p.

(** *** [Promise.all] over a list of [jiraRequest] calls

    Every call runs up to its fetch when the promise is created, in list
    order; the fetches then settle in the order the world gives, and the
    rest of each call runs at that moment. *)

Inductive Promise : Type :=
| Rejected (e : JsError)
| InFlight (p : Pending).

Definition start (call : string * RequestOptions) : M Promise :=
  try_catch
    (p <- jiraRequest_begin (fst call) (snd call) ;; ret (InFlight p))
    (fun e => ret (Rejected e)).

Fixpoint start_all (calls : list (string * RequestOptions)) : M (list Promise) :=
  match calls with
  | [] => ret []
  | c :: rest =>
      p <- start c ;;
      ps <- start_all rest ;;
      ret (p :: ps)
  end.

Definition settles_before (a b : Pending) : bool :=
  Nat.leb (settles w (pend_seq a)) (settles w (pend_seq b)).

(** Stable insertion sort of the fetches in flight by settle instant. *)
Fixpoint insert_by_settle (x : nat * Pending) (l : list (nat * Pending))
  : list (nat * Pending) :=
  match l with
  | [] => [x]
  | y :: r =>
      if settles_before (snd y) (snd x) then y :: insert_by_settle x r
      else x :: y :: r
  end.

Definition settle_order (l : list (nat * Pending)) : list (nat * Pending) :=
  fold_left (fun acc x => insert_by_settle x acc) l [].

Fixpoint in_flight (i : nat) (ps : list Promise) : list (nat * Pending) :=
  match ps with
  | [] => []
  | InFlight p :: r => (i, p) :: in_flight (S i) r
  | Rejected _ :: r => in_flight (S i) r
  end.

Fixpoint rejected_at_once (i : nat) (ps : list Promise) : list (nat * Exn JSON) :=
  match ps with
  | [] => []
  | Rejected e :: r => (i, Throw e) :: rejected_at_once (S i) r
  | InFlight _ :: r => rejected_at_once (S i) r
  end.

(** Runs the remainder of every call in settle order, recording what
    each promise settles to. *)
Fixpoint settle_all (ps : list (nat * Pending)) : M (list (nat * Exn JSON)) :=
  match ps with
  | [] => ret []
  | (i, p) :: rest =>
      fun st =>
        let (r, st') := jiraRequest_settle p st in
        bind (settle_all rest) (fun rs => ret ((i, r) :: rs)) st'
  end.

Fixpoint first_rejection (rs : list (nat * Exn JSON)) : option JsError :=
  match rs with
  | [] => None
  | (_, Throw e) :: _ => Some e
  | (_, Ok _) :: rest => first_rejection rest
  end.

Definition value_at (rs : list (nat * Exn JSON)) (i : nat) : JSON :=
  match find (fun r => Nat.eqb (fst r) i) rs with
  | Some (_, Ok v) => v
  | _ => JNull
  end.

(** [await Promise.all(calls.map(c => jiraRequest(...c)))]: rejects with
    the rejection that happens first; otherwise the values, in list
    order.  The state returned is the one reached when every call has
    settled (after a rejection the calls still in flight run to their end
    and write their log lines). *)
Definition jiraRequest_all (calls : list (string * RequestOptions))
  : M (list JSON) :=
  promises <- start_all calls ;;
  settled <- settle_all (settle_order (in_flight 0 promises)) ;;
  let timeline := (rejected_at_once 0 promises ++ settled)%list in
  match first_rejection timeline with
  | Some e => throw e
  | None => ret (map (value_at timeline) (seq 0 (List.length calls)))
  end.

End WithPlatform.
End Utils.

(* ===================================================================== *)
(** ** operations/: the handlers                                         *)
(* ===================================================================== *)

Module Ops.
Import Utils.
Section WithPlatform.
Context `{Platform}.
Variable cfg : Config.
Variable w : World.

(** The object returned by [addJiraComment] and [getJiraComments]. *)
Record Reply : Type := mkReply {
  success : bool;
  message : option string;
  data : option JSON;
  error : option JsError
}.

(** [error instanceof Error ? error.message : 'Unknown error occurred'];
    everything thrown in this model is an [Error]. *)
Definition message_of (e : JsError) : string := err_message e.

(** *** addComment.ts *)

Record CommentBody : Type := mkCommentBody {
  body : string;
  visibility : option (string * string)
}.

Definition json_of_comment (c : CommentBody) : JSON :=
  JObj (("body", JStr (body c))
        :: match visibility c with
           | Some (t, v) =>
               [("visibility", JObj [("type", JStr t); ("value", JStr v)])]
           | None => []
           end).

Definition addJiraComment (issueIdOrKey : string) (comment : CommentBody)
  : M Reply :=
  try_catch
    (response <- jiraRequest cfg w ("issue/" ++ issueIdOrKey ++ "/comment")
                   (mkOptions (Some "POST") (Some (json_of_comment comment)) []) ;;
     ret (mkReply true (Some "Comment added successfully") (Some response) None))
    (fun error =>
       ret (mkReply false (Some (message_of error)) None (Some error))).

(** *** getComments.ts *)

Definition getJiraComments (issueIdOrKey : string) : M Reply :=
  try_catch
    (let endpoint := "issue/" ++ issueIdOrKey ++ "/comment" in
     response <- jiraRequest cfg w endpoint (mkOptions (Some "GET") None []) ;;
     ret (mkReply true None (Some response) None))
    (fun error =>
       ret (mkReply false (Some (message_of error)) None (Some error))).

(** *** update.ts: the response helpers *)

(** The [data] of a formatted response: a JSON value, or the pair built
    by [transitionJiraStatus]. *)
Inductive Data : Type :=
| DataJSON (value : JSON)
| DataTransition (transition : JSON) (comment : option Reply).

Record OpResult : Type := mkOpResult {
  op_success : bool;
  op_message : string;
  op_data : option Data
}.

Definition formatResponse (success : bool) (message : string)
  (data : option Data) : OpResult :=
  mkOpResult success message data.

(** (The [console.error] of the original is not part of the state.) *)
Definition handleOperationError (error : JsError) (operation : string)
  : OpResult :=
  let errorDetails := message_of error in
  formatResponse false ("Error " ++ operation ++ ": " ++ errorDetails) None.

(** *** status.ts *)

Record TransitionJiraStatusRequest : Type := mkTransitionRequest {
  t_issueIdOrKey : string;
  t_transitionId : JSON;
  t_comment : option string;
  t_resolution : option string;
  t_fields : option (list (string * JSON))
}.

Definition json_of_resolution (name : string) : JSON :=
  JObj [("name", JStr name)].

Definition getJiraTransitions (issueIdOrKey : string) : M OpResult :=
  try_catch
    (response <- jiraRequest cfg w ("issue/" ++ issueIdOrKey ++ "/transitions")
                   noOptions ;;
     ret (formatResponse true
            ("Successfully retrieved transitions for issue " ++ issueIdOrKey)
            (Some (DataJSON response))))
    (fun error => ret (handleOperationError error "retrieving transitions")).

Definition typeError (message : string) : JsError :=
  plainError NTypeError message.

(** [transition.to.name] *)
Definition to_name (transition : JSON) : Exn (option JSON) :=
  match transition with
  | JNull => Throw (typeError "Cannot read properties of null (reading 'to')")
  | _ =>
      match Js.prop transition "to" with
      | None => Throw (typeError "Cannot read properties of undefined (reading 'name')")
      | Some JNull => Throw (typeError "Cannot read properties of null (reading 'name')")
      | Some target => Ok (Js.prop target "name")
      end
  end.

(** [transition.to.name.toLowerCase() === targetStatusName.toLowerCase()] *)
Definition leads_to (targetStatusName : string) (transition : JSON) : Exn bool :=
  match to_name transition with
  | Throw e => Throw e
  | Ok (Some (JStr name)) =>
      Ok (String.eqb (toLowerCase name) (toLowerCase targetStatusName))
  | Ok (Some JNull) =>
      Throw (typeError "Cannot read properties of null (reading 'toLowerCase')")
  | Ok None =>
      Throw (typeError "Cannot read properties of undefined (reading 'toLowerCase')")
  | Ok (Some _) =>
      Throw (typeError "transition.to.name.toLowerCase is not a function")
  end.

(** [transitions.find(predicate)] *)
Fixpoint find_transition (targetStatusName : string) (transitions : list JSON)
  : Exn (option JSON) :=
  match transitions with
  | [] => Ok None
  | t :: rest =>
      match leads_to targetStatusName t with
      | Throw e => Throw e
      | Ok true => Ok (Some t)
      | Ok false => find_transition targetStatusName rest
      end
  end.

(** The [transitions] of a response, as an array. *)
Definition transitions_of (transitionsResponse : JSON) : Exn (list JSON) :=
  match transitionsResponse with
  | JNull =>
      Throw (typeError "Cannot read properties of null (reading 'transitions')")
  | _ =>
      match Js.prop transitionsResponse "transitions" with
      | Some (JArr ts) => Ok ts
      | Some JNull =>
          Throw (typeError "Cannot read properties of null (reading 'find')")
      | None =>
          Throw (typeError "Cannot read properties of undefined (reading 'find')")
      | Some _ => Throw (typeError "transitions.find is not a function")
      end
  end.

(** [findTransitionIdByStatusName]: the [id] of the first transition that
    leads to the status, [null] if there is none. *)
Definition findTransitionIdByStatusName (transitions : list JSON)
  (targetStatusName : string) : Exn (option JSON) :=
  match find_transition targetStatusName transitions with
  | Throw e => Throw e
  | Ok (Some targetTransition) => Ok (Js.prop targetTransition "id")
  | Ok None => Ok (Some JNull)
  end.

Definition createTransitionRequestBody (transitionId : JSON)
  (resolution : option string) (additionalFields : option (list (string * JSON)))
  : JSON :=
  let body := [("transition", JObj [("id", transitionId)])] in
  let body :=
    match resolution with
    | Some r =>
        Js.set "fields" (JObj (Js.set "resolution" (json_of_resolution r) [])) body
    | None => body
    end in
  let body :=
    match additionalFields with
    | Some extra =>
        let current := match Js.lookup "fields" body with
                       | Some (JObj fs) => fs
                       | _ => []
                       end in
        Js.set "fields" (JObj (Js.spread current extra)) body
    | None => body
    end in
  JObj body.

Definition transitionJiraStatus (params : TransitionJiraStatusRequest)
  : M OpResult :=
  let issueIdOrKey := t_issueIdOrKey params in
  try_catch
    (let body := createTransitionRequestBody (t_transitionId params)
                   (t_resolution params) (t_fields params) in
     response <- jiraRequest cfg w ("issue/" ++ issueIdOrKey ++ "/transitions")
                   (mkOptions (Some "POST") (Some body) []) ;;
     let text := "Successfully transitioned status of issue " ++ issueIdOrKey in
     outcome <-
       match t_comment params with
       | Some comment =>
           if Str.nonempty comment then
             try_catch
               (commentResult <- addJiraComment issueIdOrKey
                                   (mkCommentBody comment None) ;;
                if success commentResult
                then ret (text ++ " and added comment", Some commentResult)
                else ret (text ++ " but failed to add comment: "
                          ++ match message commentResult with
                             | Some m => m
                             | None => "undefined"
                             end,
                          Some commentResult))
               (fun commentError =>
                  ret (text ++ " but failed to add comment: "
                       ++ message_of commentError, None))
           else ret (text, None)
       | None => ret (text, None)
       end ;;
     ret (formatResponse true (fst outcome)
            (Some (DataTransition response (snd outcome)))))
    (fun error => ret (handleOperationError error "transitioning status")).

(** [transitions.map(t => t.to.name).join(', ')] *)
Fixpoint target_names (transitions : list JSON) : Exn (list string) :=
  match transitions with
  | [] => Ok []
  | t :: rest =>
      match to_name t with
      | Throw e => Throw e
      | Ok name =>
          match target_names rest with
          | Throw e => Throw e
          | Ok names =>
              Ok (match name with
                  | Some v => Js.elemString v
                  | None => EmptyString
                  end :: names)
          end
      end
  end.

Definition transitionJiraStatusByName (issueIdOrKey statusName : string)
  (comment : option string) (resolution : option string)
  (additionalFields : option (list (string * JSON))) : M OpResult :=
  try_catch
    (transitionsResponse <- jiraRequest cfg w
                              ("issue/" ++ issueIdOrKey ++ "/transitions")
                              noOptions ;;
     transitions <- lift (transitions_of transitionsResponse) ;;
     transitionId <- lift (findTransitionIdByStatusName transitions statusName) ;;
     if negb (Js.truthy_opt transitionId) then
       names <- lift (target_names transitions) ;;
       ret (formatResponse false
              ("Could not find a transition to status " ++ Str.dquote
               ++ statusName ++ Str.dquote
               ++ ". Available transitions are: " ++ Str.join ", " names)
              None)
     else
       transitionJiraStatus
         (mkTransitionRequest issueIdOrKey
            (match transitionId with Some id => id | None => JNull end)
            comment resolution additionalFields))
    (fun error =>
       ret (handleOperationError error "transitioning status by name")).

(** *** update.ts *)

Record StatusField : Type := mkStatusField {
  status_name : string;
  status_comment : option string;
  status_resolution : option string
}.

(** The fields accepted by [UpdateFieldsSchema], in schema order. *)
Record UpdateFields : Type := mkUpdateFields {
  summary : option string;
  description : option string;
  assignee : option string;
  priority : option string;
  labels : option (list string);
  components : option (list string);
  versions : option (list string);
  customfield_10000 : option (list (string * JSON));
  status : option StatusField;
  customfield_11800 : option string
}.

Record LinkedIssue : Type := mkLinkedIssue {
  fromIssueKey : string;
  toIssueKey : string;
  link_type : string
}.

Record UpdateJiraIssueRequest : Type := mkUpdateRequest {
  u_issueIdOrKey : string;
  u_fields : option UpdateFields;
  u_update : option (list (string * JSON));
  u_linkedIssues : option (list LinkedIssue)
}.

Definition named (name : string) : JSON := JObj [("name", JStr name)].

Definition json_of_status (s : StatusField) : JSON :=
  JObj (("name", JStr (status_name s))
        :: (match status_comment s with
            | Some c => [("comment", JStr c)]
            | None => []
            end
            ++ match status_resolution s with
               | Some r => [("resolution", named r)]
               | None => []
               end)%list).

Definition entry {A : Type} (key : string) (to_json : A -> JSON) (o : option A)
  : list (string * JSON) :=
  match o with
  | Some v => [(key, to_json v)]
  | None => []
  end.

(** The own properties of a parsed [fields] object. *)
Definition entries_of_fields (f : UpdateFields) : list (string * JSON) :=
  (entry "summary" JStr (summary f)
   ++ entry "description" JStr (description f)
   ++ entry "assignee" named (assignee f)
   ++ entry "priority" named (priority f)
   ++ entry "labels" (fun l => JArr (map JStr l)) (labels f)
   ++ entry "components" (fun l => JArr (map named l)) (components f)
   ++ entry "versions" (fun l => JArr (map named l)) (versions f)
   ++ entry "customfield_10000" JObj (customfield_10000 f)
   ++ entry "status" json_of_status (status f)
   ++ entry "customfield_11800" JStr (customfield_11800 f))%list.

(** [typeof label === "string" ? label : label.name || ""] *)
Definition label_name (label : JSON) : Exn JSON :=
  match label with
  | JStr s => Ok (JStr s)
  | JNull => Throw (typeError "Cannot read properties of null (reading 'name')")
  | _ => Ok (Errors.or_else (Js.prop label "name") (JStr EmptyString))
  end.

Fixpoint label_names (existingLabels : list JSON) : Exn (list JSON) :=
  match existingLabels with
  | [] => Ok []
  | label :: rest =>
      match label_name label with
      | Throw e => Throw e
      | Ok name =>
          match label_names rest with
          | Throw e => Throw e
          | Ok names => Ok (name :: names)
          end
      end
  end.

(** [currentIssue.fields?.labels || []] *)
Definition existingLabels_of (currentIssue : JSON) : Exn JSON :=
  match currentIssue with
  | JNull => Throw (typeError "Cannot read properties of null (reading 'fields')")
  | _ =>
      let labels := match Js.prop currentIssue "fields" with
                    | None | Some JNull => None
                    | Some fields => Js.prop fields "labels"
                    end in
      Ok (Errors.or_else labels (JArr []))
  end.

(** [existingLabels.map(...)] *)
Definition existingLabelNames_of (currentIssue : JSON) : Exn (list JSON) :=
  match existingLabels_of currentIssue with
  | Throw e => Throw e
  | Ok (JArr existingLabels) => label_names existingLabels
  | Ok _ => Throw (typeError "existingLabels.map is not a function")
  end.

(** [fieldsWithoutStatus.labels || []] on the copy of the caller's fields *)
Definition newLabels_of (fields : option UpdateFields) : list JSON :=
  match fields with
  | Some f => match labels f with
              | Some l => map JStr l
              | None => []
              end
  | None => []
  end.

Definition statusField_of (fields : option UpdateFields) : option StatusField :=
  match fields with
  | Some f => status f
  | None => None
  end.

(** The [fieldsWithoutStatus] object once the labels are merged and the
    status removed. *)
Definition fieldsWithoutStatus_of (fields : option UpdateFields)
  (existingLabelNames : list JSON) : list (string * JSON) :=
  let fieldsWithoutStatus := match fields with
                             | Some f => entries_of_fields f
                             | None => []
                             end in
  let newLabels := newLabels_of fields in
  let allLabels := Js.setOf (existingLabelNames ++ newLabels)%list in
  let fieldsWithoutStatus := Js.set "labels" (JArr allLabels) fieldsWithoutStatus in
  match statusField_of fields with
  | Some _ => Js.delete "status" fieldsWithoutStatus
  | None => fieldsWithoutStatus
  end.

Definition has_keys (o : list (string * JSON)) : bool :=
  Nat.ltb 0 (List.length o).

Definition linkBody (link : LinkedIssue) : JSON :=
  JObj [("type", JObj [("name", JStr (link_type link))]);
        ("outwardIssue", JObj [("key", JStr (fromIssueKey link))]);
        ("inwardIssue", JObj [("key", JStr (toIssueKey link))])].

Definition linkCall (link : LinkedIssue) : string * RequestOptions :=
  ("issueLink", mkOptions (Some "POST") (Some (linkBody link)) []).

Definition updateJiraIssue (params : UpdateJiraIssueRequest) : M OpResult :=
  let issueIdOrKey := u_issueIdOrKey params in
  let fields := u_fields params in
  let update := u_update params in
  let linkedIssues := u_linkedIssues params in
  try_catch
    (currentIssue <- jiraRequest cfg w ("issue/" ++ issueIdOrKey ++ "?fields=labels")
                       (mkOptions (Some "GET") None []) ;;
     existingLabelNames <- lift (existingLabelNames_of currentIssue) ;;
     let fieldsWithoutStatus := fieldsWithoutStatus_of fields existingLabelNames in
     let statusField := statusField_of fields in
     (if has_keys fieldsWithoutStatus
         || match update with Some u => has_keys u | None => false end
      then
        jiraRequest cfg w ("issue/" ++ issueIdOrKey)
          (mkOptions (Some "PUT")
             (Some (JObj [("fields", JObj fieldsWithoutStatus);
                          ("update", JObj match update with
                                          | Some u => u
                                          | None => []
                                          end)]))
             []) ;;
        ret tt
      else ret tt) ;;
     match linkedIssues with
     | Some (link :: links) =>
         jiraRequest_all cfg w (map linkCall (link :: links)) ;; ret tt
     | _ => ret tt
     end ;;
     match statusField with
     | Some statusField =>
         transitionResult <- transitionJiraStatusByName issueIdOrKey
                               (status_name statusField)
                               (status_comment statusField)
                               (status_resolution statusField) None ;;
         if negb (op_success transitionResult) then ret transitionResult
         else ret (formatResponse true
                     ("Successfully updated issue " ++ issueIdOrKey
                      ++ " and transitioned to status " ++ Str.dquote
                      ++ status_name statusField ++ Str.dquote)
                     (op_data transitionResult))
     | None =>
         ret (formatResponse true ("Successfully updated issue " ++ issueIdOrKey)
                None)
     end)
    (fun error => ret (handleOperationError error "updating issue")).

(** *** search.ts *)

Record JiraSearchRequest : Type := mkSearch {
  jql : string;
  startAt : option Z;
  maxResults : option Z;
  s_fields : option (list string);
  expand : option (list string);
  properties : option (list string);
  fieldsByKeys : option bool
}.

(** Drops the longest prefix of characters satisfying [p]. *)
Fixpoint drop_while (p : ascii -> bool) (s : string) : string :=
  match s with
  | EmptyString => EmptyString
  | String c rest => if p c then drop_while p rest else s
  end.

(** [/^[A-Z]+-\d+$/.test(s)] *)
Definition looksLikeIssueKey (s : string) : bool :=
  match s with
  | String c _ =>
      Str.is_upper c &&
      match drop_while Str.is_upper s with
      | String "-"%char digits =>
          Str.nonempty digits && Str.all_chars Str.is_digit digits
      | _ => false
      end
  | EmptyString => false
  end.

Definition bool_string (b : bool) : string := if b then "true" else "false".

Definition searchUrl (params : JiraSearchRequest) : string :=
  buildUrl cfg "search"
    [("jql", PString (jql params));
     ("startAt", param_of (option_map Str.of_Z (startAt params)));
     ("maxResults", param_of (option_map Str.of_Z (maxResults params)));
     ("fields", param_of (option_map (Str.join ",") (s_fields params)));
     ("expand", param_of (option_map (Str.join ",") (expand params)));
     ("properties", param_of (option_map (Str.join ",") (properties params)));
     ("fieldsByKeys", param_of (option_map bool_string (fieldsByKeys params)))].

Definition directHit (issue : JSON) : JSON :=
  JObj [("issues", JArr [issue]); ("total", JNum 1); ("maxResults", JNum 1)].

Definition searchJiraIssues (params : JiraSearchRequest) : M JSON :=
  let regular := jiraRequest cfg w (searchUrl params) noOptions in
  if looksLikeIssueKey (jql params) then
    try_catch
      (issue <- jiraRequest cfg w ("issue/" ++ jql params)
                  (mkOptions None None [("Accept", "application/json")]) ;;
       ret (directHit issue))
      (fun error => regular)
  else regular.

(** *** getProjectComponents.ts *)

Record TransformedComponent : Type := mkComponent {
  component_id : option JSON;
  component_name : option JSON;
  ownership : JSON
}.

Record ComponentsResult : Type := mkComponents {
  cr_success : bool;
  cr_projectIdOrKey : string;
  cr_components : list TransformedComponent;
  cr_count : nat
}.

(** [component.lead?.name || 'unassigned'] *)
Definition ownership_of (component : JSON) : JSON :=
  Errors.or_else
    (match Js.prop component "lead" with
     | None | Some JNull => None
     | Some lead => Js.prop lead "name"
     end)
    (JStr "unassigned").

(** The [forEach] over the raw components: archived ones are skipped. *)
Fixpoint transformComponents (rawComponents : list JSON)
  : Exn (list TransformedComponent) :=
  match rawComponents with
  | [] => Ok []
  | component :: rest =>
      match component with
      | JNull =>
          Throw (typeError "Cannot read properties of null (reading 'archived')")
      | _ =>
          match transformComponents rest with
          | Throw e => Throw e
          | Ok others =>
              match Js.prop component "archived" with
              | Some (JBool false) =>
                  Ok (mkComponent (Js.prop component "id")
                        (Js.prop component "name") (ownership_of component)
                      :: others)
              | _ => Ok others
              end
          end
      end
  end.

Definition json_of_component (c : TransformedComponent) : JSON :=
  JObj (entry "component_id" (fun v => v) (component_id c)
        ++ entry "component_name" (fun v => v) (component_name c)
        ++ [("ownership", ownership c)])%list.

Definition getProjectComponents (projectIdOrKey : string) : M ComponentsResult :=
  try_catch
    (rawComponents <- jiraRequest cfg w
                        ("project/" ++ projectIdOrKey ++ "/components")
                        (mkOptions None None [("Accept", "application/json")]) ;;
     filteredAndTransformedComponents <-
       match rawComponents with
       | JArr items => lift (transformComponents items)
       | _ => ret []
       end ;;
     logToFile (LineJSON "getProjectComponents: "
                  (JArr (map json_of_component filteredAndTransformedComponents))) ;;
     ret (mkComponents true projectIdOrKey filteredAndTransformedComponents
            (List.length filteredAndTransformedComponents)))
    (fun error =>
       if Str.includes (err_message error) "404" then
         throw (plainError NError
                  ("Project '" ++ projectIdOrKey
                   ++ "' not found. Please verify the project key or ID."))
       else if Str.includes (err_message error) "403" then
         throw (plainError NError
                  ("Access denied to project '" ++ projectIdOrKey
                   ++ "'. Please check your permissions."))
       else throw error).

End WithPlatform.
End Ops.

(* ===================================================================== *)
(** ** Vocabulary of the specification                                   *)
(* ===================================================================== *)

Module Spec.
Import Utils.
Section WithPlatform.
Context `{Platform}.
Variable cfg : Config.
Variable w : World.

(** The error kind the specification assigns to an HTTP status. *)
Definition kind_of_status (status : Z) : ErrorName :=
  if Z.eqb status 401 then NJiraAuthenticationError
  else if Z.eqb status 403 then NJiraPermissionError
  else if Z.eqb status 404 then NJiraResourceNotFoundError
  else if Z.eqb status 409 then NJiraConflictError
  else if Z.eqb status 400 then NJiraValidationError
  else if Z.eqb status 422 then NJiraValidationError
  else if Z.eqb status 429 then NJiraRateLimitError
  else NJiraError.

(** A response body that is an object (or array), as opposed to text,
    a number, a boolean or [null]. *)
Definition is_object (response : JSON) : bool :=
  match response with
  | JArr _ | JObj _ => true
  | _ => false
  end.

(** The message the specification derives from an error body: the
    [errorMessages], else the [errors], else the [message], else a fixed
    text. *)
Definition structured_message (response : JSON) : string :=
  match Js.prop response "errorMessages" with
  | Some (JArr (m :: ms)) => Js.joinWith ", " (m :: ms)
  | _ =>
      match Js.entries (Errors.or_else (Js.prop response "errors") (JObj [])) with
      | e :: es =>
          Str.join ", "
            (map (fun e => fst e ++ ": " ++ Js.toString (snd e)) (e :: es))
      | [] =>
          Js.toString
            (Errors.or_else (Js.prop response "message") (JStr "Unknown error"))
      end
  end.

(** An error body whose [errorMessages], if any, is a list, as Jira
    sends it. *)
Definition errorMessages_is_list (response : JSON) : bool :=
  match Js.prop response "errorMessages" with
  | None | Some (JArr _) | Some JNull => true
  | Some _ => false
  end.

(** [new Date(response.resetAt || Date.now() + 60000)] *)
Definition resetAt_of (now : Z) (response : JSON) : option Z :=
  match Js.prop response "resetAt" with
  | Some v => if Js.truthy v then Errors.new_Date v else Some (now + 60000)%Z
  | None => Some (now + 60000)%Z
  end.

(** The query pairs the specification asks for: the parameters that are
    not [undefined], in entry order, each value as a string. *)
Definition is_defined (v : ParamValue) : bool :=
  match v with PUndefined => false | _ => true end.

Definition stringified (v : ParamValue) : string :=
  match v with
  | PString s => s
  | PNumber n => Str.of_Z n
  | PUndefined => "undefined"
  end.

Definition query_of (params : list (string * ParamValue)) : list (string * string) :=
  map (fun e => (fst e, stringified (snd e)))
      (filter (fun e => is_defined (snd e)) params).

(** The Authorization header under a configuration. *)
Definition authorization : string :=
  if Str.includes (Buffer.fromBase64 (auth_token cfg)) ":"
  then "Basic " ++ auth_token cfg
  else "Basic " ++ Buffer.toBase64 (auth_email cfg ++ ":" ++ auth_token cfg).

Definition auth_line : LogLine :=
  if Str.includes (Buffer.fromBase64 (auth_token cfg)) ":"
  then Line "Using pre-encoded token"
  else Line "Constructing new auth header with email:token format".

Definition url_of (path : string) : string :=
  if Str.startsWith path "http" then path else buildUrl cfg path [].

(** The headers of a call before the Authorization header is set. *)
Definition plain_headers (options : RequestOptions) : list (string * string) :=
  Js.spread defaultHeaders (opt_headers options).

(** The request a call of [jiraRequest] puts on the wire. *)
Definition request_of (path : string) (options : RequestOptions) : Request :=
  mkRequest (url_of path) (method_of options)
    (Js.set "Authorization" authorization (plain_headers options))
    (body_of options).

Definition headers_line (options : RequestOptions) : LogLine :=
  LineJSON "Headers: "
    (loggedHeaders (Js.set "Authorization" authorization (plain_headers options))).

(** What [jiraRequest] logs before it fetches. *)
Definition begin_lines (path : string) (options : RequestOptions) : list LogLine :=
  [auth_line;
   Line ("Making request to: " ++ url_of path);
   Line ("Method: " ++ method_of options);
   headers_line options]
  ++ match body_of options with
     | Some b => [LineJSON "Request body: " b]
     | None => []
     end.

(** The fetch that a call made as the [n]-th request waits for. *)
Definition pending_of (n : nat) (path : string) (options : RequestOptions)
  : Pending :=
  mkPending n (fetch w n (request_of path options)).

(** What a settled fetch makes [jiraRequest] return or throw, and log. *)
Definition outcome_of (p : Pending) : Exn JSON :=
  fst (jiraRequest_settle w p initial).

Definition settle_lines (p : Pending) : list LogLine :=
  logged (snd (jiraRequest_settle w p initial)).

(** A computation that touches the state only by appending to the log
    lines that satisfy [Q], and whose result does not depend on the
    state. *)
Definition Logs {A : Type} (Q : LogLine -> Prop) (m : M A) : Prop :=
  exists (r : Exn A) (lines : list LogLine),
    Forall Q lines
    /\ forall st, m st = (r, mkState (requests st) (logged st ++ lines)%list).

(** A computation that leaves the requests made so far in place and
    only adds to them. *)
Definition Appends {A : Type} (m : M A) : Prop :=
  forall st, exists rs, requests (snd (m st)) = (requests st ++ rs)%list.

(** The lines a run has added to the log. *)
Definition written (before after : State) : list LogLine :=
  skipn (List.length (logged before)) (logged after).

Definition is_redaction (v : JSON) : bool :=
  match v with
  | JStr s => String.eqb s "[REDACTED]"
  | _ => false
  end.

(** A key that names a secret: token, password or secret, in any letter
    case. *)
Definition names_secret (key : string) : bool :=
  String.eqb (toLowerCase key) "token"
  || String.eqb (toLowerCase key) "password"
  || String.eqb (toLowerCase key) "secret".

(** Every field of the tree whose key names a secret holds the redaction
    marker. *)
Fixpoint fields_redacted (v : JSON) : bool :=
  match v with
  | JObj es =>
      forallb (fun e => if names_secret (fst e) then is_redaction (snd e)
                        else fields_redacted (snd e)) es
  | JArr items => forallb fields_redacted items
  | _ => true
  end.

(** What the specification asks of a logged line: a headers line shows
    the Authorization header redacted, and a response-body line has its
    sensitive fields redacted. *)
Definition headers_redacted (l : LogLine) : Prop :=
  forall v, l = LineJSON "Headers: " v ->
            Js.prop v "Authorization" = Some (JStr "[REDACTED]").

Definition body_redacted (l : LogLine) : Prop :=
  forall v, l = LineJSON "Response body: " v -> fields_redacted v = true.

(** What the specification asks of everything written to the log: a line
    that shows a JSON value (the headers, a request body, a response
    body) shows it with the fields that name a secret redacted. *)
Definition line_redacted (l : LogLine) : bool :=
  match l with
  | LineJSON _ v => fields_redacted v
  | Line _ => true
  end.

Definition is_headers_line (l : LogLine) : bool :=
  match l with
  | LineJSON prefix _ => String.eqb prefix "Headers: "
  | Line _ => false
  end.

Definition is_request_body_line (l : LogLine) : bool :=
  match l with
  | LineJSON prefix _ => String.eqb prefix "Request body: "
  | Line _ => false
  end.

(** The two requests of a status transition. *)
Definition transition_call (params : Ops.TransitionJiraStatusRequest)
  : string * RequestOptions :=
  ("issue/" ++ Ops.t_issueIdOrKey params ++ "/transitions",
   mkOptions (Some "POST")
     (Some (Ops.createTransitionRequestBody (Ops.t_transitionId params)
              (Ops.t_resolution params) (Ops.t_fields params)))
     []).

Definition comment_call (issueIdOrKey comment : string) : string * RequestOptions :=
  ("issue/" ++ issueIdOrKey ++ "/comment",
   mkOptions (Some "POST") (Some (JObj [("body", JStr comment)])) []).

Definition request_of_call (call : string * RequestOptions) : Request :=
  request_of (fst call) (snd call).

(** The body the specification describes for a transition: the
    transition id, and a [fields] object when a resolution or additional
    fields are given. *)
Definition transition_body (transitionId : JSON) (resolution : option string)
  (additionalFields : option (list (string * JSON))) : JSON :=
  JObj (("transition", JObj [("id", transitionId)])
        :: match resolution, additionalFields with
           | None, None => []
           | Some r, None =>
               [("fields", JObj [("resolution", Ops.json_of_resolution r)])]
           | None, Some extra => [("fields", JObj (Js.spread [] extra))]
           | Some r, Some extra =>
               [("fields",
                 JObj (Js.spread [("resolution", Ops.json_of_resolution r)] extra))]
           end).

(** The calls with which [updateJiraIssue] reads the labels and writes
    the fields. *)
Definition labels_call (issueIdOrKey : string) : string * RequestOptions :=
  ("issue/" ++ issueIdOrKey ++ "?fields=labels", mkOptions (Some "GET") None []).

Definition put_call (params : Ops.UpdateJiraIssueRequest)
  (existingLabelNames : list JSON) : string * RequestOptions :=
  ("issue/" ++ Ops.u_issueIdOrKey params,
   mkOptions (Some "PUT")
     (Some (JObj [("fields",
                   JObj (Ops.fieldsWithoutStatus_of (Ops.u_fields params)
                           existingLabelNames));
                  ("update", JObj match Ops.u_update params with
                                  | Some u => u
                                  | None => []
                                  end)]))
     []).

(** The part of [updateJiraIssue] that follows the update of the fields:
    the issue links, then the status transition. *)
Definition link_phase (params : Ops.UpdateJiraIssueRequest) : M unit :=
  match Ops.u_linkedIssues params with
  | Some (link :: links) =>
      bind (jiraRequest_all cfg w (map Ops.linkCall (link :: links)))
           (fun _ => ret tt)
  | _ => ret tt
  end.

Definition status_phase (params : Ops.UpdateJiraIssueRequest) : M Ops.OpResult :=
  match Ops.statusField_of (Ops.u_fields params) with
  | Some statusField =>
      bind (Ops.transitionJiraStatusByName cfg w (Ops.u_issueIdOrKey params)
              (Ops.status_name statusField) (Ops.status_comment statusField)
              (Ops.status_resolution statusField) None)
           (fun transitionResult =>
              if negb (Ops.op_success transitionResult) then ret transitionResult
              else ret (Ops.formatResponse true
                          ("Successfully updated issue "
                           ++ Ops.u_issueIdOrKey params
                           ++ " and transitioned to status " ++ Str.dquote
                           ++ Ops.status_name statusField ++ Str.dquote)
                          (Ops.op_data transitionResult)))
  | None =>
      ret (Ops.formatResponse true
             ("Successfully updated issue " ++ Ops.u_issueIdOrKey params) None)
  end.

Definition update_failed (error : JsError) : M Ops.OpResult :=
  ret (Ops.handleOperationError error "updating issue").

(** The fetches of a list of calls made one after the other from the
    [n]-th request on, and a list numbered from [k]. *)
Fixpoint pendings_from (n : nat) (calls : list (string * RequestOptions))
  : list Pending :=
  match calls with
  | [] => []
  | c :: rest => pending_of n (fst c) (snd c) :: pendings_from (S n) rest
  end.

Fixpoint numbered {A : Type} (k : nat) (l : list A) : list (nat * A) :=
  match l with
  | [] => []
  | x :: rest => (k, x) :: numbered (S k) rest
  end.

(** [a] settles no later than [b]. *)
Definition settles_le (a b : nat * Pending) : Prop :=
  (settles w (pend_seq (snd a)) <= settles w (pend_seq (snd b)))%nat.

Definition settled (ip : nat * Pending) : nat * Exn JSON :=
  (fst ip, outcome_of (snd ip)).

(** No two values of the list are the same for [Set]. *)
Definition distinct (xs : list JSON) : Prop :=
  ForallOrdPairs (fun a b => Js.sameValueZero a b = false) xs.

Definition direct_call (jql : string) : string * RequestOptions :=
  ("issue/" ++ jql, mkOptions None None [("Accept", "application/json")]).

(** The requests of a trace that create an issue link. *)
Definition is_issueLink (r : Request) : bool :=
  String.eqb (req_url r) (url_of "issueLink").

(** The labels a fetched issue has: the list [fields.labels]; an issue
    where that is missing or [null] has none. *)
Definition labels_of_issue (issue : JSON) : option (list JSON) :=
  match issue with
  | JObj es =>
      match Js.lookup "fields" es with
      | Some (JObj fields) =>
          match Js.lookup "labels" fields with
          | Some (JArr labels) => Some labels
          | Some JNull | None => Some []
          | Some _ => None
          end
      | Some JNull | None => Some []
      | Some _ => None
      end
  | _ => None
  end.

(** The name of a label: a label that is a string is its own name, a
    label that is an object has the name its [name] property gives. *)
Definition name_of_label (label : JSON) : option string :=
  match label with
  | JStr name => Some name
  | JObj es =>
      match Js.lookup "name" es with
      | Some (JStr name) => Some name
      | _ => None
      end
  | _ => None
  end.

(** The issue has labels with these names, in this order. *)
Definition has_label_names (issue : JSON) (names : list string) : Prop :=
  exists labels,
    labels_of_issue issue = Some labels
    /\ map name_of_label labels = map Some names.

(** The labels the caller of an update supplies; none if the request
    has no fields or its fields have no labels. *)
Definition supplied_labels (params : Ops.UpdateJiraIssueRequest) : list string :=
  match Ops.u_fields params with
  | Some fields =>
      match Ops.labels fields with
      | Some labels => labels
      | None => []
      end
  | None => []
  end.

(** The [labels] of the [fields] of a request body. *)
Definition labels_sent (r : Request) : option JSON :=
  match req_body r with
  | Some body =>
      match Js.prop body "fields" with
      | Some fields => Js.prop fields "labels"
      | None => None
      end
  | None => None
  end.

End WithPlatform.
End Spec.

(* ===================================================================== *)
(** ** A concrete platform and concrete worlds, for worked runs          *)
(* ===================================================================== *)

Module Sample.
Import Utils Ops.

Definition q : string := Str.dquote.

(** Compact serialisation of the sample values (their strings need no
    escaping). *)
Fixpoint text_of (v : JSON) : string :=
  match v with
  | JNull => "null"
  | JBool b => if b then "true" else "false"
  | JNum n => Str.of_Z n
  | JStr s => q ++ s ++ q
  | JArr items => "[" ++ Str.join "," (map text_of items) ++ "]"
  | JObj es =>
      "{" ++ Str.join "," (map (fun e => q ++ fst e ++ q ++ ":" ++ text_of (snd e)) es)
      ++ "}"
  end.

Definition issue_with_labels : JSON :=
  JObj [("key", JStr "AIF-17");
        ("fields", JObj [("labels", JArr [JStr "backend"; JStr "urgent"])])].

Definition error_body : JSON :=
  JObj [("errorMessages", JArr [JStr "Issue does not exist"]);
        ("errors", JObj [])].

Definition login_body : JSON :=
  JObj [("user", JStr "ada");
        ("session", JObj [("Token", JStr "abc123"); ("ttl", JNum 60)])].

Definition known_values : list JSON :=
  [JObj []; JArr []; issue_with_labels; error_body; login_body].

(** [JSON.parse] on the texts of the sample values; any other text is a
    syntax error. *)
Definition parse (text : string) : Exn JSON :=
  match find (fun v => String.eqb (text_of v) text) known_values with
  | Some v => Ok v
  | None => Throw (plainError NSyntaxError "Unexpected token")
  end.

(** The serialisation of a URL whose input and appended pairs need no
    normalisation or percent-encoding. *)
Definition href (input : string) (appended : list (string * string)) : string :=
  match appended with
  | [] => input
  | _ => input ++ "?" ++ Str.join "&" (map (fun e => fst e ++ "=" ++ snd e) appended)
  end.

#[local] Instance platform : Platform := {|
  JSON_parse := parse;
  URL_href := href;
  Date_parse := fun _ => None;
  Date_toISOString := Str.of_Z;
  ToNumber_positive := fun _ => false;
  String_toLowerCase := fun s => s;
  USER_AGENT := "modelcontextprotocol/servers/jira/v0.1.0 node"
|}.
(* The texts of the worked runs that are lower-cased (keys, status names,
   error messages) are ASCII, so [String_toLowerCase] is never consulted
   in them. *)

Definition cfg : Config :=
  mkConfig "https://jira.example.com/rest/api/2" "/tmp/jira-api.log"
    "ada@example.com" "s3cr3t-t0k3n".

(** The same configuration with a token that is the base64 of
    [user:pass]. *)
Definition cfg_preencoded : Config :=
  mkConfig "https://jira.example.com/rest/api/2" "/tmp/jira-api.log"
    "ada@example.com" "dXNlcjpwYXNz".

(** A request body with a field named [password]. *)
Definition credentials : JSON :=
  JObj [("user", JStr "ada"); ("password", JStr "hunter2")].

Definition cfg_other_token : Config :=
  mkConfig "https://jira.example.com/rest/api/2" "/tmp/jira-api.log"
    "ada@example.com" "another-token".

Definition json_headers : list (string * string) :=
  [("content-type", "application/json;charset=UTF-8")].

Definition respond (status : Z) (statusText : string) (v : JSON) : FetchOutcome :=
  Responds (mkResponse status statusText json_headers (text_of v)).

Definition ok_with (v : JSON) : FetchOutcome := respond 200 "OK" v.

(** A 204 that announces XML. *)
Definition no_content_xml : Response :=
  mkResponse 204 "No Content" [("content-type", "application/xml")] EmptyString.

(** A 500 that announces JSON and has no body. *)
Definition blank_error : Response :=
  mkResponse 500 "Internal Server Error" json_headers EmptyString.

Definition not_found : FetchOutcome := respond 404 "Not Found" error_body.

Definition server_error : FetchOutcome := respond 500 "Internal Server Error" error_body.

(** Worlds.  [world_of f] answers the [n]-th fetch with [f n]; fetches
    settle in the order they were made. *)
Definition world_of (f : nat -> FetchOutcome) : World :=
  mkWorld (fun n _ => f n) 1700000000000 (fun n => n).

Definition all_ok : World := world_of (fun _ => ok_with (JObj [])).

Definition all_failing : World := world_of (fun _ => server_error).

(** The transition succeeds, the comment is refused. *)
Definition comment_refused : World :=
  world_of (fun n => match n with O => ok_with (JObj []) | _ => server_error end).

(** The issue is fetched with its labels, everything after succeeds. *)
Definition labelled_issue : World :=
  world_of (fun n => match n with
                     | O => ok_with issue_with_labels
                     | _ => ok_with (JObj [])
                     end).

(** As [labelled_issue], but both issue-link requests (the third and the
    fourth fetch) are refused, and the later one settles first. *)
Definition links_refused : World :=
  mkWorld (fun n _ => match n with
                      | 0 => ok_with issue_with_labels
                      | 1 => ok_with (JObj [])
                      | 2 => not_found
                      | _ => server_error
                      end)
          1700000000000
          (fun n => match n with 2 => 9 | _ => n end)%nat.

(** An update that adds two labels and two links. *)
Definition update_with_links : UpdateJiraIssueRequest :=
  mkUpdateRequest "AIF-17"
    (Some (mkUpdateFields None None None None (Some ["urgent"; "new"]) None None
             None None None))
    None
    (Some [mkLinkedIssue "A-1" "B-2" "Blocks"; mkLinkedIssue "A-1" "C-3" "Relates"]).

(** The states of that update under [links_refused] once the labels are
    fetched and once the fields are written. *)
Definition after_get : State :=
  snd (jiraRequest cfg links_refused (fst (Spec.labels_call "AIF-17"))
         (snd (Spec.labels_call "AIF-17")) initial).

Definition after_put : State :=
  snd (jiraRequest cfg links_refused
         (fst (Spec.put_call update_with_links [JStr "backend"; JStr "urgent"]))
         (snd (Spec.put_call update_with_links [JStr "backend"; JStr "urgent"]))
         after_get).

End Sample.

(* ===================================================================== *)
(** ** Further code of the server                                        *)
(* ===================================================================== *)

(** *** common/config.ts: how the configuration is made *)

Module ConfigFile.

(** [process.env]: a variable is unset ([None]) or holds a string. *)
Definition Env : Type := string -> option string.

(** [value || fallback] on an environment variable *)
Definition env_or (value : option string) (fallback : string) : string :=
  match value with
  | Some s => if Str.nonempty s then s else fallback
  | None => fallback
  end.

(** The text a string replacement stands for (GetSubstitution with no
    capture groups): [$$] is a dollar, [$&] the match, [$`] the text
    before the match, [$'] the text after it; any other character,
    another dollar sequence included, stands for itself. *)
Fixpoint substitution (matched before after replacement : string) : string :=
  match replacement with
  | String "$"%char (String "$"%char rest) =>
      "$" ++ substitution matched before after rest
  | String "$"%char (String "&"%char rest) =>
      matched ++ substitution matched before after rest
  | String "$"%char (String "`"%char rest) =>
      before ++ substitution matched before after rest
  | String "$"%char (String "'"%char rest) =>
      after ++ substitution matched before after rest
  | String c rest => String c (substitution matched before after rest)
  | EmptyString => EmptyString
  end.

Section WithSystem.

(** What the operating system and the runtime supply: [os.homedir()],
    [path.resolve], [parseInt(s, 10)] ([None] is NaN), whether
    [new URL(s)] succeeds, and the default log file
    [join(homedir(), 'Desktop', 'jira-api.log')]. *)
Variable homedir : string.
Variable path_resolve : string -> string.
Variable parseInt : string -> option Z.
Variable URL_valid : string -> bool.
Variable defaultLogFile : string.

(** [resolvePath]: tilde expansion, else [path.resolve]. *)
Definition resolvePath (path : string) : string :=
  match path with
  | String "~"%char (String "/"%char rest) =>
      substitution "~" EmptyString (String "/"%char rest) homedir
      ++ String "/"%char rest
  | _ => path_resolve path
  end.

Record JiraConfig : Type := mkJiraConfig {
  jc_apiBaseUrl : string;
  jc_logFile : string;
  jc_email : string;
  jc_token : string;
  jc_defaultProject : option string;
  jc_maxResults : option Z;
  jc_timeout : option Z;
  jc_strictSSL : bool
}.

(** [String(n)] for a number that may be NaN (an integer of a size that
    [String] prints digit by digit) *)
Definition number_string (n : option Z) : string :=
  match n with
  | Some z => Str.of_Z z
  | None => "NaN"
  end.

(** [value !== 'false'] on an environment variable *)
Definition not_false (value : option string) : bool :=
  match value with
  | Some s => negb (String.eqb s "false")
  | None => true
  end.

Definition defaults (env : Env) : JiraConfig :=
  mkJiraConfig "https://jira.corp.adobe.com/rest/api/2" defaultLogFile
    (env_or (env "JIRA_EMAIL") EmptyString)
    (env_or (env "JIRA_PERSONAL_ACCESS_TOKEN") EmptyString)
    (env "JIRA_DEFAULT_PROJECT")
    (parseInt (env_or (env "JIRA_MAX_RESULTS") "50"))
    (parseInt (env_or (env "JIRA_TIMEOUT") "30000"))
    (not_false (env "JIRA_STRICT_SSL")).

(** [createConfig].  (It also creates the directory of the log file and
    writes to the console; neither is part of the result.) *)
Definition createConfig (env : Env) : Exn JiraConfig :=
  let d := defaults env in
  let apiBaseUrl := env_or (env "JIRA_API_BASE_URL") (jc_apiBaseUrl d) in
  let logFile := resolvePath (env_or (env "JIRA_LOG_FILE") (jc_logFile d)) in
  let email := env_or (env "JIRA_EMAIL") (jc_email d) in
  let token := env_or (env "JIRA_PERSONAL_ACCESS_TOKEN") (jc_token d) in
  let defaultProject :=
    match env "JIRA_DEFAULT_PROJECT" with
    | Some s => if Str.nonempty s then Some s else jc_defaultProject d
    | None => jc_defaultProject d
    end in
  let maxResults :=
    parseInt (env_or (env "JIRA_MAX_RESULTS") (number_string (jc_maxResults d))) in
  let timeout :=
    parseInt (env_or (env "JIRA_TIMEOUT") (number_string (jc_timeout d))) in
  let strictSSL :=
    match env "JIRA_STRICT_SSL" with
    | None => jc_strictSSL d
    | Some s => negb (String.eqb s "false")
    end in
  let apiBaseUrl :=
    if URL_valid apiBaseUrl then apiBaseUrl else jc_apiBaseUrl d in
  if negb (Str.nonempty email) || negb (Str.nonempty token) then
    Throw (plainError NError
             "JIRA_EMAIL and JIRA_PERSONAL_ACCESS_TOKEN environment variables are required")
  else
    Ok (mkJiraConfig apiBaseUrl logFile email token defaultProject maxResults
          timeout strictSSL).

(** The part of the configuration the request helper reads. *)
Definition helper_config (c : JiraConfig) : Config :=
  mkConfig (jc_apiBaseUrl c) (jc_logFile c) (jc_email c) (jc_token c).

End WithSystem.

(** A string with no dollar sign. *)
Definition dollar_free (s : string) : bool :=
  Str.all_chars (fun c => negb (Ascii.eqb c "$"%char)) s.

End ConfigFile.

(** *** utils.ts, auth.ts, getIssueTypeMetadata.ts, getIssueTypes.ts,
    create.ts, getProjectConfig.ts *)

Module MoreOps.
Import Utils Ops.
Section WithPlatform.
Context `{Platform}.
Variable cfg : Config.
Variable w : World.

(** [verifyAuthentication] (utils.ts) *)
Definition verifyAuthentication : M JSON :=
  logToFile (Line "Verifying Jira authentication...") ;;
  jiraRequest cfg w "myself" noOptions.

(** The object returned by [testAuth]. *)
Record AuthResult : Type := mkAuthResult {
  auth_success : bool;
  auth_message : string;
  auth_user : option JSON;
  auth_error : option JsError
}.

Definition testAuth : M AuthResult :=
  try_catch
    (response <- verifyAuthentication ;;
     ret (mkAuthResult true "Successfully authenticated with Jira API"
            (Some response) None))
    (fun error => ret (mkAuthResult false (message_of error) None (Some error))).

(** [result[key] = value].  The key [__proto__] goes to the prototype
    setter and makes no own property; what the object then inherits is
    not modelled. *)
Definition assign (key : string) (value : JSON) (result : list (string * JSON))
  : list (string * JSON) :=
  if String.eqb key "__proto__" then result else Js.set key value result.

(** An object built by assigning its properties one after the other. *)
Definition assigned (entries : list (string * JSON)) : list (string * JSON) :=
  fold_left (fun result e => assign (fst e) (snd e) result) entries [].

(** [removeSelfKeys]: the copy of a value without its [self] properties. *)
Fixpoint removeSelfKeys (obj : JSON) : JSON :=
  match obj with
  | JArr items => JArr (map removeSelfKeys items)
  | JObj es =>
      JObj (assigned
              (flat_map (fun e => if negb (String.eqb (fst e) "self")
                                  then [(fst e, removeSelfKeys (snd e))]
                                  else [])
                        es))
  | _ => obj
  end.

(** Whether the loop of [filterFieldsForMinimize] keeps a value:
    [required === false] and [hasDefaultValue === true] are the two
    reasons to skip it. *)
Definition keeps (valueObj : JSON) : bool :=
  match Js.prop valueObj "required" with
  | Some (JBool false) => false
  | _ =>
      match Js.prop valueObj "hasDefaultValue" with
      | Some (JBool true) => false
      | _ => true
      end
  end.

Fixpoint filterFields (values : list JSON) : Exn (list JSON) :=
  match values with
  | [] => Ok []
  | value :: rest =>
      match value with
      | JNull =>
          Throw (typeError "Cannot read properties of null (reading 'required')")
      | _ =>
          match filterFields rest with
          | Throw e => Throw e
          | Ok filteredFields =>
              Ok (if keeps value then value :: filteredFields else filteredFields)
          end
      end
  end.

(** [filterFieldsForMinimize] *)
Definition filterFieldsForMinimize (values : JSON) : Exn JSON :=
  match values with
  | JArr items =>
      match filterFields items with
      | Ok filteredFields => Ok (JArr filteredFields)
      | Throw e => Throw e
      end
  | _ => Ok values
  end.

Record GetJiraIssueTypeMetadataRequest : Type := mkMetadataRequest {
  m_projectIdOrKey : string;
  m_issueTypeId : string;
  m_startAt : option Z;
  m_maxResults : option Z;
  m_minimizeOutput : bool
}.

(** The object returned by [getJiraIssueTypeMetadata]. *)
Record MetadataResult : Type := mkMetadataResult {
  mr_success : bool;
  mr_data : option JSON;
  mr_message : option string;
  mr_projectIdOrKey : string;
  mr_issueTypeId : string;
  mr_minimizeOutput : bool;
  mr_pagination : option (Z * Z);
  mr_error : option JsError
}.

(** The [queryParams] object of [getJiraIssueTypeMetadata]. *)
Definition metadataQuery (params : GetJiraIssueTypeMetadataRequest)
  : list (string * ParamValue) :=
  (match m_startAt params with
   | Some startAt =>
       if negb (Z.eqb startAt 0) then [("startAt", PNumber startAt)] else []
   | None => []
   end
   ++ match m_maxResults params with
      | Some maxResults =>
          if negb (Z.eqb maxResults 50)
          then [("maxResults", PNumber (Z.min maxResults 200))]
          else []
      | None => []
      end)%list.

Definition metadataUrl (params : GetJiraIssueTypeMetadataRequest) : string :=
  buildUrl cfg
    ("issue/createmeta/" ++ m_projectIdOrKey params ++ "/issuetypes/"
     ++ m_issueTypeId params)
    (metadataQuery params).

(** The minimisation step: the [self] keys go, then the [values] of an
    object are filtered.  (On an array, ['values' in processedData] holds
    through [Array.prototype] and the assignment leaves its elements as
    they are.  The test and the read look at own properties here: a
    response with a [__proto__] entry is outside this step's model.) *)
Definition minimize (response : JSON) : Exn JSON :=
  let processedData := removeSelfKeys response in
  match processedData with
  | JObj es =>
      match Js.lookup "values" es with
      | Some values =>
          match filterFieldsForMinimize values with
          | Ok filtered => Ok (JObj (Js.set "values" filtered es))
          | Throw e => Throw e
          end
      | None => Ok processedData
      end
  | _ => Ok processedData
  end.

(** [x || d] on an optional number *)
Definition number_or (x : option Z) (d : Z) : Z :=
  match x with
  | Some n => if Z.eqb n 0 then d else n
  | None => d
  end.

Definition getJiraIssueTypeMetadata (params : GetJiraIssueTypeMetadataRequest)
  : M MetadataResult :=
  try_catch
    (let url := metadataUrl params in
     response <- jiraRequest cfg w url (mkOptions (Some "GET") None []) ;;
     processedData <- (if m_minimizeOutput params then lift (minimize response)
                       else ret response) ;;
     ret (mkMetadataResult true (Some processedData) None
            (m_projectIdOrKey params) (m_issueTypeId params)
            (m_minimizeOutput params)
            (Some (number_or (m_startAt params) 0,
                   number_or (m_maxResults params) 50))
            None))
    (fun error =>
       ret (mkMetadataResult false None (Some (message_of error))
              (m_projectIdOrKey params) (m_issueTypeId params)
              (m_minimizeOutput params) None (Some error))).

(** [getIssueTypes] *)

Record GetIssueTypesRequest : Type := mkIssueTypesRequest {
  it_projectIdOrKey : string;
  it_startAt : Z;
  it_maxResults : Z
}.

Record ScopeProject : Type := mkScopeProject {
  sp_id : option JSON;
  sp_key : option JSON;
  sp_name : option JSON
}.

Record Scope : Type := mkScope {
  scope_type : option JSON;
  scope_project : option ScopeProject
}.

Record IssueType : Type := mkIssueType {
  it_id : option JSON;
  it_name : option JSON;
  it_description : option JSON;
  it_iconUrl : option JSON;
  it_subtask : bool;
  it_avatarId : option JSON;
  it_hierarchyLevel : option JSON;
  it_scope : option Scope
}.

(** The object returned by [getIssueTypes]. *)
Record IssueTypesResult : Type := mkIssueTypesResult {
  itr_success : bool;
  itr_issueTypes : option (list IssueType);
  itr_startAt : option JSON;
  itr_maxResults : option JSON;
  itr_total : option JSON;
  itr_error : option string;
  itr_projectIdOrKey : option string
}.

(** [x || undefined] *)
Definition or_undefined (x : option JSON) : option JSON :=
  match x with
  | Some v => if Js.truthy v then Some v else None
  | None => None
  end.

(** [x ?? d] *)
Definition nullish_or (x : option JSON) (d : JSON) : JSON :=
  match x with
  | None | Some JNull => d
  | Some v => v
  end.

(** The object literal built for one issue type. *)
Definition cleanIssueType (issueType : JSON) : Exn IssueType :=
  match issueType with
  | JNull => Throw (typeError "Cannot read properties of null (reading 'id')")
  | _ =>
      Ok (mkIssueType
            (Js.prop issueType "id")
            (Js.prop issueType "name")
            (or_undefined (Js.prop issueType "description"))
            (or_undefined (Js.prop issueType "iconUrl"))
            (Js.truthy_opt (Js.prop issueType "subtask"))
            (or_undefined (Js.prop issueType "avatarId"))
            (or_undefined (Js.prop issueType "hierarchyLevel"))
            (match or_undefined (Js.prop issueType "scope") with
             | Some scope =>
                 Some (mkScope (Js.prop scope "type")
                         (match or_undefined (Js.prop scope "project") with
                          | Some project =>
                              Some (mkScopeProject (Js.prop project "id")
                                      (Js.prop project "key")
                                      (Js.prop project "name"))
                          | None => None
                          end))
             | None => None
             end))
  end.

Fixpoint cleanIssueTypes (issueTypes : list JSON) : Exn (list IssueType) :=
  match issueTypes with
  | [] => Ok []
  | issueType :: rest =>
      match cleanIssueType issueType with
      | Throw e => Throw e
      | Ok cleaned =>
          match cleanIssueTypes rest with
          | Throw e => Throw e
          | Ok others => Ok (cleaned :: others)
          end
      end
  end.

Definition count (l : list JSON) : JSON := JNum (Z.of_nat (List.length l)).

(** The issue types, [startAt], [maxResults] and [total] read from the
    response, by its three accepted shapes. *)
Definition readIssueTypes (params : GetIssueTypesRequest) (responseData : JSON)
  : Exn (list JSON * JSON * JSON * JSON) :=
  let startAt := JNum (it_startAt params) in
  let maxResults := JNum (it_maxResults params) in
  match or_undefined (Js.prop responseData "projects") with
  | Some (JArr (project :: _)) =>
      match project with
      | JNull =>
          Throw (typeError "Cannot read properties of null (reading 'issuetypes')")
      | _ =>
          match Js.prop project "issuetypes" with
          | Some (JArr issuetypes) =>
              Ok (issuetypes, startAt, maxResults, count issuetypes)
          | _ => Ok ([], startAt, maxResults, JNum 0)
          end
      end
  | _ =>
      match responseData with
      | JArr items => Ok (items, startAt, maxResults, count items)
      | _ =>
          match Js.prop responseData "values" with
          | Some (JArr values) =>
              Ok (values,
                  nullish_or (Js.prop responseData "startAt") startAt,
                  nullish_or (Js.prop responseData "maxResults") maxResults,
                  nullish_or (Js.prop responseData "total") (count values))
          | _ =>
              Throw (plainError NError
                       "Unexpected response structure from Jira API")
          end
      end
  end.

(** (The [URLSearchParams] that the original fills with [startAt] and
    [maxResults] is never used.) *)
Definition getIssueTypes (params : GetIssueTypesRequest) : M IssueTypesResult :=
  try_catch
    (let endpoint := "issue/createmeta/" ++ it_projectIdOrKey params
                     ++ "/issuetypes" in
     response <- jiraRequest cfg w endpoint noOptions ;;
     (if negb (Js.truthy response) || negb (Js.typeof_object response) then
        throw (plainError NError
                 ("Invalid response when fetching issue types for project "
                  ++ it_projectIdOrKey params))
      else ret tt) ;;
     found <- lift (readIssueTypes params response) ;;
     let '(issueTypes, startAt, maxResults, total) := found in
     cleanedIssueTypes <- lift (cleanIssueTypes issueTypes) ;;
     ret (mkIssueTypesResult true (Some cleanedIssueTypes) (Some startAt)
            (Some maxResults) (Some total) None None))
    (fun error =>
       ret (mkIssueTypesResult false None None None None
              (Some (message_of error)) (Some (it_projectIdOrKey params)))).

(** [createJiraIssue] (create.ts) *)

(** The object returned by [createJiraIssue]. *)
Record CreateResult : Type := mkCreateResult {
  c_success : bool;
  c_message : string;
  c_suggestions : option (list string);
  c_data : option JSON;
  c_error : option JsError
}.

Definition newline : string := String (ascii_of_nat 10) EmptyString.

(** The bullet character (U+2022, three bytes in UTF-8). *)
Definition bullet : string :=
  String (ascii_of_nat 226) (String (ascii_of_nat 128)
    (String (ascii_of_nat 162) EmptyString)).

Definition suggestions : list string :=
  ["The " ++ Str.dquote ++ "fields" ++ Str.dquote
   ++ " object must contain the issue field values";
   "Use Get create issue metadata API to determine available fields for your project";
   "Common fields include: project, summary, issuetype, description, assignee, priority"].

Definition guidance : string :=
  "Common required fields:" ++ newline
  ++ bullet ++ " project: { key: " ++ Str.dquote ++ "PROJECT_KEY" ++ Str.dquote
  ++ " }" ++ newline
  ++ bullet ++ " summary: " ++ Str.dquote ++ "Issue title" ++ Str.dquote ++ newline
  ++ bullet ++ " issuetype: { name: " ++ Str.dquote ++ "Issue type name"
  ++ Str.dquote ++ " }" ++ newline ++ newline
  ++ "Use the Get create issue metadata API to find all required and available fields for your specific project.".

(** The block listing the field errors, and the one listing the error
    messages. *)
Definition fieldErrors (errors : JSON) : string :=
  "Field Errors:" ++ newline
  ++ Str.join newline
       (map (fun e => bullet ++ " " ++ fst e ++ ": " ++ Js.toString (snd e))
            (Js.entries errors)).

Definition additionalDetails (messages : list JSON) : string :=
  "Additional Details:" ++ newline
  ++ Str.join newline (map (fun msg => bullet ++ " " ++ Js.toString msg) messages).

(** The blocks taken from the response of a [JiraError] or
    [JiraValidationError]. *)
Definition responseInfo (response : JSON) : list string :=
  (match Js.prop response "errors" with
   | Some errors =>
       if Js.truthy errors && Js.typeof_object errors
       then [fieldErrors errors] else []
   | None => []
   end
   ++ match Js.prop response "errorMessages" with
      | Some (JArr messages) => [additionalDetails messages]
      | _ => []
      end)%list.

(** Whether the message calls for the guidance on required fields. *)
Definition mentions_fields (errorMessage : string) : bool :=
  Str.includes (toLowerCase errorMessage) "required"
  || Str.includes (toLowerCase errorMessage) "mandatory"
  || Str.includes (toLowerCase errorMessage) "field".

Definition additionalInfo (error : JsError) : list string :=
  (match err_name error with
   | NJiraValidationError | NJiraError =>
       match err_response error with
       | Some response => if Js.truthy response then responseInfo response else []
       | None => []
       end
   | _ => []
   end
   ++ (if mentions_fields (err_message error) then [guidance] else []))%list.

Definition fullErrorMessage (error : JsError) : string :=
  match additionalInfo error with
  | [] => err_message error
  | info => err_message error ++ newline ++ newline
            ++ Str.join (newline ++ newline) info
  end.

(** [`${result.key}`] *)
Definition key_of (result : JSON) : Exn string :=
  match result with
  | JNull => Throw (typeError "Cannot read properties of null (reading 'key')")
  | _ =>
      Ok (match Js.prop result "key" with
          | Some key => Js.toString key
          | None => "undefined"
          end)
  end.

(** [params] is the parsed request object; it is sent whole as the body.
    (The [console.error] of the original is not part of the state.) *)
Definition createJiraIssue (params : list (string * JSON)) : M CreateResult :=
  try_catch
    (let fields := Js.lookup "fields" params in
     if negb (Js.truthy_opt fields)
        || negb (match fields with
                 | Some v => Js.typeof_object v
                 | None => false
                 end)
     then ret (mkCreateResult false "Fields object is required"
                 (Some suggestions) None None)
     else
       result <- jiraRequest cfg w "issue"
                   (mkOptions (Some "POST") (Some (JObj params)) []) ;;
       key <- lift (key_of result) ;;
       ret (mkCreateResult true ("Successfully created issue " ++ key) None
              (Some result) None))
    (fun error =>
       ret (mkCreateResult false (fullErrorMessage error) None None (Some error))).

(** [getProjectConfig] (getProjectConfig.ts) *)

Record GetProjectConfigRequest : Type := mkProjectConfigRequest {
  pc_projectKey : string;
  pc_includeMetadata : bool
}.

(** The object returned by [getProjectConfig].  The objects inside it
    are given as [JSON.stringify] shows them: a property whose value is
    [undefined] is left out. *)
Record ProjectConfigResult : Type := mkProjectConfigResult {
  pcr_success : bool;
  pcr_project : option JSON;
  pcr_metadata : option JSON;
  pcr_metadataError : option string;
  pcr_error : option string;
  pcr_projectKey : option string
}.

(** The property [key: v] of an object literal, as it is serialised. *)
Definition shown (key : string) (v : option JSON) : list (string * JSON) :=
  entry key (fun x => x) v.

(** [x?.k] *)
Definition chained (x : option JSON) (k : string) : option JSON :=
  match x with
  | None | Some JNull => None
  | Some v => Js.prop v k
  end.

(** [v[0]] on a value that is neither [null] nor [undefined] *)
Definition first_of (v : JSON) : option JSON :=
  match v with
  | JArr (x :: _) => Some x
  | JStr (String c rest) => Some (JStr (Str.first_unit (String c rest)))
  | JObj es => Js.lookup "0" es
  | _ => None
  end.

(** [items.map(f)] and a [forEach] that fills a collection, for an [f]
    that may throw. *)
Fixpoint map_exn {A B : Type} (f : A -> Exn B) (items : list A) : Exn (list B) :=
  match items with
  | [] => Ok []
  | x :: rest =>
      match f x with
      | Throw e => Throw e
      | Ok y =>
          match map_exn f rest with
          | Throw e => Throw e
          | Ok ys => Ok (y :: ys)
          end
      end
  end.

Fixpoint fold_exn {A B : Type} (f : A -> B -> Exn A) (items : list B) (acc : A)
  : Exn A :=
  match items with
  | [] => Ok acc
  | x :: rest =>
      match f acc x with
      | Throw e => Throw e
      | Ok acc' => fold_exn f rest acc'
      end
  end.

(** [v.map(f)] on a truthy value; [what] is the expression, for the
    message of the [TypeError]. *)
Definition mapped (what : string) (f : JSON -> Exn JSON) (v : JSON) : Exn JSON :=
  match v with
  | JArr items =>
      match map_exn f items with
      | Ok l => Ok (JArr l)
      | Throw e => Throw e
      end
  | _ => Throw (typeError (what ++ ".map is not a function"))
  end.

(** An object literal whose first property reads [x.id]. *)
Definition reading_id (x : JSON) (literal : list (string * JSON)) : Exn JSON :=
  match x with
  | JNull => Throw (typeError "Cannot read properties of null (reading 'id')")
  | _ => Ok (JObj literal)
  end.

Definition leadInfo (lead : JSON) : JSON :=
  JObj (shown "name" (Js.prop lead "name")
        ++ shown "displayName" (Js.prop lead "displayName")
        ++ shown "emailAddress" (Js.prop lead "emailAddress")
        ++ shown "accountId" (Js.prop lead "accountId")
        ++ shown "accountType" (Js.prop lead "accountType")
        ++ shown "active" (Js.prop lead "active"))%list.

(** The [project] of the response. *)
Definition projectInfo (projectData : JSON) : JSON :=
  JObj (shown "key" (Js.prop projectData "key")
        ++ shown "name" (Js.prop projectData "name")
        ++ [("description",
             Errors.or_else (Js.prop projectData "description") JNull);
            ("lead",
             match Js.prop projectData "lead" with
             | Some lead => if Js.truthy lead then leadInfo lead else JNull
             | None => JNull
             end)]
        ++ shown "projectTypeKey" (Js.prop projectData "projectTypeKey")
        ++ shown "url" (Js.prop projectData "self")
        ++ shown "avatarUrls" (Js.prop projectData "avatarUrls")
        ++ [("projectKeys",
             Errors.or_else (Js.prop projectData "projectKeys") JNull);
            ("issueTypeHierarchy",
             Errors.or_else (Js.prop projectData "issueTypeHierarchy") JNull)])%list.

Definition issueTypeInfo (type : JSON) : Exn JSON :=
  reading_id type
    (shown "id" (Js.prop type "id")
     ++ shown "name" (Js.prop type "name")
     ++ [("description", Errors.or_else (Js.prop type "description") JNull);
         ("subtask", Errors.or_else (Js.prop type "subtask") (JBool false));
         ("iconUrl", Errors.or_else (Js.prop type "iconUrl") JNull);
         ("avatarId", Errors.or_else (Js.prop type "avatarId") JNull);
         ("hierarchyLevel",
          Errors.or_else (Js.prop type "hierarchyLevel") JNull)])%list.

(** The literal built for a component and for a priority. *)
Definition describedInfo (x : JSON) : Exn JSON :=
  reading_id x
    (shown "id" (Js.prop x "id")
     ++ shown "name" (Js.prop x "name")
     ++ [("description", Errors.or_else (Js.prop x "description") JNull)])%list.

Definition versionInfo (version : JSON) : Exn JSON :=
  reading_id version
    (shown "id" (Js.prop version "id")
     ++ shown "name" (Js.prop version "name")
     ++ [("description", Errors.or_else (Js.prop version "description") JNull);
         ("released",
          Errors.or_else (Js.prop version "released") (JBool false))])%list.

(** [if (projectData.k) { metadata.k = projectData.k.map(f) }]: the
    entry added to [metadata], if any. *)
Definition mappedProperty (projectData : JSON) (k : string)
  (f : JSON -> Exn JSON) : Exn (list (string * JSON)) :=
  match Js.prop projectData k with
  | Some v =>
      if Js.truthy v then
        match mapped ("projectData." ++ k) f v with
        | Ok l => Ok [(k, l)]
        | Throw e => Throw e
        end
      else Ok []
  | None => Ok []
  end.

(** The first inner [try]: the priorities.  The [catch] only writes to
    the console. *)
Definition fetchPriorities : M (list (string * JSON)) :=
  try_catch
    (priorities <- jiraRequest cfg w "priority" noOptions ;;
     match priorities with
     | JArr items =>
         l <- lift (map_exn describedInfo items) ;;
         ret [("priorities", JArr l)]
     | _ => ret []
     end)
    (fun error => ret []).

Definition statusInfo (status : JSON) : JSON :=
  JObj (shown "id" (Js.prop status "id")
        ++ shown "name" (Js.prop status "name")
        ++ [("description", Errors.or_else (Js.prop status "description") JNull);
            ("statusCategory",
             JObj [("key",
                    Errors.or_else
                      (chained (Js.prop status "statusCategory") "key")
                      (JStr "unknown"));
                   ("name",
                    Errors.or_else
                      (chained (Js.prop status "statusCategory") "name")
                      (JStr "Unknown"))])])%list.

(** The equality of the keys of a [Map]; [None] is the key [undefined]. *)
Definition same_key (a b : option JSON) : bool :=
  match a, b with
  | None, None => true
  | Some x, Some y => Js.sameValueZero x y
  | _, _ => false
  end.

(** The [uniqueStatuses] map is the list of its entries in insertion
    order; a status whose [id] is already a key is skipped. *)
Definition collectStatus (uniqueStatuses : list (option JSON * JSON))
  (status : JSON) : Exn (list (option JSON * JSON)) :=
  match status with
  | JNull => Throw (typeError "Cannot read properties of null (reading 'id')")
  | _ =>
      let id := Js.prop status "id" in
      if existsb (fun e => same_key id (fst e)) uniqueStatuses
      then Ok uniqueStatuses
      else Ok (uniqueStatuses ++ [(id, statusInfo status)])%list
  end.

Definition collectStatuses (uniqueStatuses : list (option JSON * JSON))
  (issueTypeStatuses : JSON) : Exn (list (option JSON * JSON)) :=
  match issueTypeStatuses with
  | JNull =>
      Throw (typeError "Cannot read properties of null (reading 'statuses')")
  | _ =>
      match Js.prop issueTypeStatuses "statuses" with
      | Some (JArr statuses) => fold_exn collectStatus statuses uniqueStatuses
      | _ => Ok uniqueStatuses
      end
  end.

(** The second inner [try]: the statuses of the project. *)
Definition fetchStatuses (projectKey : string) : M (list (string * JSON)) :=
  try_catch
    (statuses <- jiraRequest cfg w ("project/" ++ projectKey ++ "/statuses")
                   noOptions ;;
     match statuses with
     | JArr items =>
         uniqueStatuses <- lift (fold_exn collectStatuses items []) ;;
         ret [("statuses", JArr (map snd uniqueStatuses))]
     | _ => ret []
     end)
    (fun error => ret []).

Definition customFieldInfo (fieldId : string) (field : JSON) : Exn JSON :=
  match field with
  | JNull => Throw (typeError "Cannot read properties of null (reading 'name')")
  | _ =>
      Ok (JObj ([("id", JStr fieldId)]
                ++ shown "name" (Js.prop field "name")
                ++ [("type",
                     Errors.or_else (chained (Js.prop field "schema") "type")
                       (JStr "unknown"));
                    ("description",
                     Errors.or_else
                       (match Js.prop field "operations" with
                        | None | Some JNull => None
                        | Some operations => first_of operations
                        end)
                       JNull);
                    ("required",
                     Errors.or_else (Js.prop field "required") (JBool false))])%list)
  end.

(** The [customFields] map, keyed by field id. *)
Definition collectField (customFields : list (string * JSON))
  (entry : string * JSON) : Exn (list (string * JSON)) :=
  let fieldId := fst entry in
  if Str.startsWith fieldId "customfield_"
     && negb (existsb (fun e => String.eqb fieldId (fst e)) customFields)
  then
    match customFieldInfo fieldId (snd entry) with
    | Ok info => Ok (customFields ++ [(fieldId, info)])%list
    | Throw e => Throw e
    end
  else Ok customFields.

Definition collectFields (customFields : list (string * JSON)) (issueType : JSON)
  : Exn (list (string * JSON)) :=
  match issueType with
  | JNull =>
      Throw (typeError "Cannot read properties of null (reading 'fields')")
  | _ =>
      match Js.prop issueType "fields" with
      | Some fields =>
          if Js.truthy fields
          then fold_exn collectField (Js.entries fields) customFields
          else Ok customFields
      | None => Ok customFields
      end
  end.

(** What the third inner [try] makes of a create-metadata response. *)
Definition customFieldsOf (createMeta : JSON) : Exn (list (string * JSON)) :=
  if Js.truthy createMeta && Js.typeof_object createMeta then
    match Js.prop createMeta "projects" with
    | Some projects =>
        if Js.truthy projects && Errors.length_positive projects then
          match first_of projects with
          | None =>
              Throw (typeError
                       "Cannot read properties of undefined (reading 'issuetypes')")
          | Some JNull =>
              Throw (typeError
                       "Cannot read properties of null (reading 'issuetypes')")
          | Some project =>
              match Js.prop project "issuetypes" with
              | Some issuetypes =>
                  if Js.truthy issuetypes && Errors.length_positive issuetypes
                  then
                    match issuetypes with
                    | JArr items =>
                        match fold_exn collectFields items [] with
                        | Ok customFields =>
                            Ok [("customFields", JArr (map snd customFields))]
                        | Throw e => Throw e
                        end
                    | _ =>
                        Throw (typeError
                                 "project.issuetypes.forEach is not a function")
                    end
                  else Ok []
              | None => Ok []
              end
          end
        else Ok []
    | None => Ok []
    end
  else Ok [].

(** The third inner [try]: the custom fields, from the create metadata. *)
Definition fetchCustomFields (projectKey : string) : M (list (string * JSON)) :=
  try_catch
    (createMeta <- jiraRequest cfg w
                     ("issue/createmeta?projectKeys=" ++ projectKey
                      ++ "&expand=projects.issuetypes.fields")
                     noOptions ;;
     lift (customFieldsOf createMeta))
    (fun error => ret []).

(** The body of the [try] around the metadata: the entries of the
    [metadata] object, in the order they are assigned. *)
Definition collectMetadata (projectKey : string) (projectData : JSON)
  : M (list (string * JSON)) :=
  issueTypes <- lift (mappedProperty projectData "issueTypes" issueTypeInfo) ;;
  components <- lift (mappedProperty projectData "components" describedInfo) ;;
  versions <- lift (mappedProperty projectData "versions" versionInfo) ;;
  priorities <- fetchPriorities ;;
  statuses <- fetchStatuses projectKey ;;
  customFields <- fetchCustomFields projectKey ;;
  ret (issueTypes ++ components ++ versions ++ priorities ++ statuses
       ++ customFields)%list.

Definition projectUrl (projectKey : string) : string :=
  "project/" ++ projectKey
  ++ "?expand=description,issueTypes,lead,projectKeys,issueTypeHierarchy".

(** (The [console.error] calls of the original are not part of the
    state.) *)
Definition getProjectConfig (params : GetProjectConfigRequest)
  : M ProjectConfigResult :=
  let projectKey := pc_projectKey params in
  try_catch
    (project <- jiraRequest cfg w (projectUrl projectKey) noOptions ;;
     (if negb (Js.truthy project) || negb (Js.typeof_object project) then
        throw (plainError NError
                 ("Project " ++ projectKey ++ " not found or invalid response"))
      else ret tt) ;;
     let projectData := project in
     if pc_includeMetadata params then
       try_catch
         (metadata <- collectMetadata projectKey projectData ;;
          ret (mkProjectConfigResult true (Some (projectInfo projectData))
                 (Some (JObj metadata)) None None None))
         (fun error =>
            ret (mkProjectConfigResult true (Some (projectInfo projectData))
                   None
                   (Some ("Failed to fetch some metadata: " ++ message_of error))
                   None None))
     else
       ret (mkProjectConfigResult true (Some (projectInfo projectData))
              None None None None))
    (fun error =>
       ret (mkProjectConfigResult false None None None
              (Some (message_of error)) (Some projectKey))).

End WithPlatform.
End MoreOps.

(** *** index.ts: the handler of tool calls *)

Module Server.
Import Utils Ops MoreOps.
Section WithPlatform.
Context `{Platform}.
Variable cfg : Config.
Variable w : World.

(** A tool and its arguments, once the schema of the tool has accepted
    them.  (Of the arguments of [get_jira_comments] only the issue is
    used.) *)
Inductive ToolCall : Type :=
| TestAuth
| SearchIssues (args : JiraSearchRequest)
| CreateIssue (args : list (string * JSON))
| UpdateIssue (args : UpdateJiraIssueRequest)
| GetComments (issueIdOrKey : string)
| AddComment (issueIdOrKey : string) (comment : CommentBody)
| TransitionStatus (args : TransitionJiraStatusRequest)
| TransitionStatusByName (issueIdOrKey statusName : string)
    (comment resolution : option string)
    (fields : option (list (string * JSON)))
| GetTransitions (issueIdOrKey : string)
| GetComponents (projectIdOrKey : string)
| GetProjectConfig (args : GetProjectConfigRequest)
| GetIssueTypeMetadata (args : GetJiraIssueTypeMetadataRequest)
| GetIssueTypes (args : GetIssueTypesRequest).

(** An issue of a [ZodError]: the path of the offending value and what
    is wrong with it. *)
Record ZodIssue : Type := mkZodIssue {
  issue_path : list JSON;
  issue_message : string
}.

(** A [CallTool] request: without arguments, for a tool that does not
    exist, with arguments that the schema of the tool rejects, or a
    call. *)
Inductive CallToolRequest : Type :=
| NoArguments (name : string)
| UnknownTool (name : string)
| InvalidArguments (issues : list ZodIssue)
| Call (call : ToolCall).

(** What the text of the returned content serialises. *)
Inductive ToolResult : Type :=
| AuthContent (result : AuthResult)
| SearchContent (results : JSON)
| CreateContent (result : CreateResult)
| OpContent (result : OpResult)
| ReplyContent (result : Reply)
| ComponentsContent (result : ComponentsResult)
| ProjectConfigContent (result : ProjectConfigResult)
| MetadataContent (result : MetadataResult)
| IssueTypesContent (result : IssueTypesResult).

(** The test that follows most handlers: a payload whose [success] is
    false is replaced by an [Error] with a fixed text. *)
Definition checked {A : Type} (handler : M A) (succeeded : A -> bool)
  (failure : string) (content : A -> ToolResult) : M ToolResult :=
  result <- handler ;;
  if negb (succeeded result) then throw (plainError NError failure)
  else ret (content result).

Definition run (call : ToolCall) : M ToolResult :=
  match call with
  | TestAuth =>
      result <- testAuth cfg w ;; ret (AuthContent result)
  | SearchIssues args =>
      results <- searchJiraIssues cfg w args ;; ret (SearchContent results)
  | CreateIssue args =>
      result <- createJiraIssue cfg w args ;; ret (CreateContent result)
  | UpdateIssue args =>
      checked (updateJiraIssue cfg w args) op_success
        "Failed to update issue" OpContent
  | GetComments issueIdOrKey =>
      checked (getJiraComments cfg w issueIdOrKey) success
        "Failed to get issue comments" ReplyContent
  | AddComment issueIdOrKey comment =>
      checked (addJiraComment cfg w issueIdOrKey comment) success
        "Failed to add comment to issue" ReplyContent
  | TransitionStatus args =>
      checked (transitionJiraStatus cfg w args) op_success
        "Failed to transition issue status" OpContent
  | TransitionStatusByName issueIdOrKey statusName comment resolution fields =>
      checked (transitionJiraStatusByName cfg w issueIdOrKey statusName comment
                 resolution fields) op_success
        "Failed to transition issue status by name" OpContent
  | GetTransitions issueIdOrKey =>
      checked (getJiraTransitions cfg w issueIdOrKey) op_success
        "Failed to get issue transitions" OpContent
  | GetComponents projectIdOrKey =>
      checked (getProjectComponents cfg w projectIdOrKey) cr_success
        "Failed to get project components" ComponentsContent
  | GetProjectConfig args =>
      checked (getProjectConfig cfg w args) pcr_success
        "Failed to get project components" ProjectConfigContent
  | GetIssueTypeMetadata args =>
      checked (getJiraIssueTypeMetadata cfg w args) mr_success
        "Failed to get issue type metadata" MetadataContent
  | GetIssueTypes args =>
      checked (getIssueTypes cfg w args) itr_success
        "Failed to get issue types" IssueTypesContent
  end.

(** The message made of a [ZodError]. *)
Definition zodMessage (issues : list ZodIssue) : string :=
  "Input validation failed:" ++ newline
  ++ Str.join newline
       (map (fun err => bullet ++ " " ++ Js.joinWith "." (issue_path err) ++ ": "
                        ++ issue_message err) issues)
  ++ newline ++ newline
  ++ "Please check that all required fields are provided with correct data types.".

(** The message made of a [JiraError]. *)
Definition jiraMessage (error : JsError) : string :=
  "Jira API error: " ++ err_message error
  ++ match err_status error with
     | Some status =>
         if Z.eqb status 0 then EmptyString
         else " (Status: " ++ Str.of_Z status ++ ")"
     | None => EmptyString
     end
  ++ match err_response error with
     | Some response =>
         if Js.truthy response && Js.typeof_object response then
           match Js.prop response "errors" with
           | Some errors =>
               if Js.truthy errors && Js.typeof_object errors
               then newline ++ newline ++ fieldErrors errors
               else EmptyString
           | None => EmptyString
           end
           ++ match Js.prop response "errorMessages" with
              | Some (JArr messages) =>
                  newline ++ newline ++ additionalDetails messages
              | _ => EmptyString
              end
         else EmptyString
     | None => EmptyString
     end.

(** The body of the [try].  The schema of a tool throws a [ZodError]
    here, which the [catch] replaces by an [Error] with [zodMessage] as
    its message; that [Error] stands for it. *)
Definition attempt (request : CallToolRequest) : M ToolResult :=
  match request with
  | NoArguments _ => throw (plainError NError "Arguments are required")
  | UnknownTool name => throw (plainError NError ("Unknown tool: " ++ name))
  | InvalidArguments issues => throw (plainError NError (zodMessage issues))
  | Call call => run call
  end.

(** The handler of [CallTool] requests.  (What goes to the debug log of
    the server is not part of the state.) *)
Definition callTool (request : CallToolRequest) : M ToolResult :=
  try_catch (attempt request)
    (fun error =>
       if Errors.isJiraError error
       then throw (plainError NError (jiraMessage error))
       else throw error).

End WithPlatform.
End Server.

(** *** Vocabulary for the properties of this code *)

Module MoreSpec.
Import Utils Ops MoreOps.

(** Some object of the tree has a property named [k]. *)
Fixpoint has_key (k : string) (v : JSON) : bool :=
  match v with
  | JObj es => existsb (fun e => String.eqb (fst e) k || has_key k (snd e)) es
  | JArr items => existsb (has_key k) items
  | _ => false
  end.

(** An entry that neither is a [k] property nor holds one. *)
Definition free_of (k : string) (e : string * JSON) : Prop :=
  String.eqb (fst e) k || has_key k (snd e) = false.

Section WithPlatform.
Context `{Platform}.

(** Some object of the tree has a property whose key names a secret:
    token, password or secret, in any letter case. *)
Fixpoint has_sensitive (v : JSON) : bool :=
  match v with
  | JObj es =>
      existsb (fun e => Spec.names_secret (fst e) || has_sensitive (snd e)) es
  | JArr items => existsb has_sensitive items
  | _ => false
  end.

(** Two names that differ at most in letter case. *)
Definition same_name (a b : string) : bool :=
  String.eqb (toLowerCase a) (toLowerCase b).

Variable cfg : Config.
Variable w : World.

(** When the request [call], made in the state the handler starts in,
    fails, the handler stops there and returns a payload that reports
    the error. *)
Definition fails_on {A : Type} (handler : M A) (call : string * RequestOptions)
  (reports : A -> JsError -> Prop) : Prop :=
  forall st e st1,
    jiraRequest cfg w (fst call) (snd call) st = (Throw e, st1) ->
    exists payload, handler st = (Ok payload, st1) /\ reports payload e.

End WithPlatform.

(** A handler that returns a payload whatever the state it starts in: it
    never throws. *)
Definition never_throws {A : Type} (handler : M A) : Prop :=
  forall st, exists payload st', handler st = (Ok payload, st').

(** The error payloads of addComment.ts and getComments.ts, and those
    [handleOperationError] builds for an operation. *)
Definition reply_reports (reply : Reply) (e : JsError) : Prop :=
  success reply = false /\ message reply = Some (err_message e).

Definition result_reports (operation : string) (result : OpResult) (e : JsError)
  : Prop :=
  op_success result = false
  /\ op_message result = "Error " ++ operation ++ ": " ++ err_message e.

(** The keys of an entry list are pairwise different, as those of an
    object are. *)
Fixpoint unique_keys {A : Type} (entries : list (string * A)) : bool :=
  match entries with
  | [] => true
  | e :: rest =>
      negb (existsb (fun e' => String.eqb (fst e) (fst e')) rest)
      && unique_keys rest
  end.

(** Every object of the tree has pairwise different keys. *)
Fixpoint well_keyed (v : JSON) : bool :=
  match v with
  | JObj es => unique_keys es && forallb (fun e => well_keyed (snd e)) es
  | JArr items => forallb well_keyed items
  | _ => true
  end.

(** The raw components that [getProjectComponents] keeps. *)
Definition not_archived (component : JSON) : bool :=
  match Js.prop component "archived" with
  | Some (JBool false) => true
  | _ => false
  end.

Definition is_null (v : JSON) : bool :=
  match v with JNull => true | _ => false end.

Definition is_array (v : JSON) : bool :=
  match v with JArr _ => true | _ => false end.

(** A transition whose target has a name that is a string. *)
Definition named_target (transition : JSON) : option string :=
  match Js.prop transition "to" with
  | Some target =>
      match Js.prop target "name" with
      | Some (JStr name) => Some name
      | _ => None
      end
  | None => None
  end.

(** A transition with a named target that is not the status asked for. *)
Definition leads_elsewhere `{Platform} (target : string) (transition : JSON)
  : bool :=
  match named_target transition with
  | Some name => negb (same_name name target)
  | None => false
  end.

Definition target_name (transition : JSON) : string :=
  match named_target transition with
  | Some name => name
  | None => EmptyString
  end.

(** The fixed text with which the server replaces a failure payload of
    a tool, for the tools it does this to. *)
Definition failure_text (call : Server.ToolCall) : option string :=
  match call with
  | Server.UpdateIssue _ => Some "Failed to update issue"
  | Server.GetComments _ => Some "Failed to get issue comments"
  | Server.AddComment _ _ => Some "Failed to add comment to issue"
  | Server.TransitionStatus _ => Some "Failed to transition issue status"
  | Server.TransitionStatusByName _ _ _ _ _ =>
      Some "Failed to transition issue status by name"
  | Server.GetTransitions _ => Some "Failed to get issue transitions"
  | Server.GetProjectConfig _ => Some "Failed to get project components"
  | Server.GetIssueTypeMetadata _ => Some "Failed to get issue type metadata"
  | Server.GetIssueTypes _ => Some "Failed to get issue types"
  | _ => None
  end.

Section Payloads.
Context `{Platform}.
Variable cfg : Config.
Variable w : World.

(** What the handler of a tool returns, as the content the server makes
    of it. *)
Definition payload (call : Server.ToolCall) : M Server.ToolResult :=
  match call with
  | Server.TestAuth =>
      bind (testAuth cfg w) (fun result => ret (Server.AuthContent result))
  | Server.SearchIssues args =>
      bind (searchJiraIssues cfg w args)
           (fun results => ret (Server.SearchContent results))
  | Server.CreateIssue args =>
      bind (createJiraIssue cfg w args)
           (fun result => ret (Server.CreateContent result))
  | Server.UpdateIssue args =>
      bind (updateJiraIssue cfg w args)
           (fun result => ret (Server.OpContent result))
  | Server.GetComments issueIdOrKey =>
      bind (getJiraComments cfg w issueIdOrKey)
           (fun result => ret (Server.ReplyContent result))
  | Server.AddComment issueIdOrKey comment =>
      bind (addJiraComment cfg w issueIdOrKey comment)
           (fun result => ret (Server.ReplyContent result))
  | Server.TransitionStatus args =>
      bind (transitionJiraStatus cfg w args)
           (fun result => ret (Server.OpContent result))
  | Server.TransitionStatusByName issueIdOrKey statusName comment resolution
      fields =>
      bind (transitionJiraStatusByName cfg w issueIdOrKey statusName comment
              resolution fields)
           (fun result => ret (Server.OpContent result))
  | Server.GetTransitions issueIdOrKey =>
      bind (getJiraTransitions cfg w issueIdOrKey)
           (fun result => ret (Server.OpContent result))
  | Server.GetComponents projectIdOrKey =>
      bind (getProjectComponents cfg w projectIdOrKey)
           (fun result => ret (Server.ComponentsContent result))
  | Server.GetProjectConfig args =>
      bind (getProjectConfig cfg w args)
           (fun result => ret (Server.ProjectConfigContent result))
  | Server.GetIssueTypeMetadata args =>
      bind (getJiraIssueTypeMetadata cfg w args)
           (fun result => ret (Server.MetadataContent result))
  | Server.GetIssueTypes args =>
      bind (getIssueTypes cfg w args)
           (fun result => ret (Server.IssueTypesContent result))
  end.

End Payloads.

(** The [success] a payload shows; the results of a search show none. *)
Definition success_of (shown : Server.ToolResult) : option bool :=
  match shown with
  | Server.AuthContent result => Some (auth_success result)
  | Server.SearchContent _ => None
  | Server.CreateContent result => Some (c_success result)
  | Server.OpContent result => Some (op_success result)
  | Server.ReplyContent result => Some (success result)
  | Server.ComponentsContent result => Some (cr_success result)
  | Server.ProjectConfigContent result => Some (pcr_success result)
  | Server.MetadataContent result => Some (mr_success result)
  | Server.IssueTypesContent result => Some (itr_success result)
  end.

(** The two tools whose handlers let the failure of a request through. *)
Definition lets_failures_through (request : Server.CallToolRequest) : bool :=
  match request with
  | Server.Call (Server.SearchIssues _) | Server.Call (Server.GetComponents _) =>
      true
  | _ => false
  end.

(** The shapes of response that [getIssueTypes] reads, in the order it
    looks for them: the create metadata of a list of projects, of which
    the first counts; a list of issue types; a page of issue types. *)
Inductive ResponseShape : Type :=
| OfProjects (project : JSON)
| PlainList (items : list JSON)
| Page (values : list JSON)
| Unexpected.

Definition shape_of (response : JSON) : ResponseShape :=
  match Js.prop response "projects" with
  | Some (JArr (project :: _)) => OfProjects project
  | _ =>
      match response with
      | JArr items => PlainList items
      | _ =>
          match Js.prop response "values" with
          | Some (JArr values) => Page values
          | _ => Unexpected
          end
      end
  end.

(** The issue types listed for a project; none if it has no such list. *)
Definition issuetypes_of (project : JSON) : list JSON :=
  match Js.prop project "issuetypes" with
  | Some (JArr issuetypes) => issuetypes
  | _ => []
  end.

(** A successful reply of [getIssueTypes]. *)
Definition issue_types (types : list MoreOps.IssueType)
  (startAt maxResults total : JSON) : MoreOps.IssueTypesResult :=
  MoreOps.mkIssueTypesResult true (Some types) (Some startAt) (Some maxResults)
    (Some total) None None.

(** A creation request whose [fields] is an object. *)
Definition has_fields (params : list (string * JSON)) : bool :=
  match Js.lookup "fields" params with
  | Some fields => Js.truthy fields && Js.typeof_object fields
  | None => false
  end.

(** The call with which [createJiraIssue] creates the issue. *)
Definition create_call (params : list (string * JSON)) : string * RequestOptions :=
  ("issue", mkOptions (Some "POST") (Some (JObj params)) []).

(** An update that asks for no issue link. *)
Definition no_links (params : UpdateJiraIssueRequest) : bool :=
  match u_linkedIssues params with
  | Some (_ :: _) => false
  | _ => true
  end.

(** The own properties of the caller's [fields]. *)
Definition given_fields (fields : option UpdateFields) : list (string * JSON) :=
  match fields with
  | Some f => entries_of_fields f
  | None => []
  end.

(** The entry [getProjectComponents] makes of a raw component. *)
Definition to_component (component : JSON) : TransformedComponent :=
  mkComponent (Js.prop component "id") (Js.prop component "name")
    (ownership_of component).

(** The query of a regular search: the [jql], then each option that was
    given, lists joined by commas. *)
Definition search_query (params : JiraSearchRequest) : list (string * string) :=
  (("jql", jql params)
   :: match startAt params with Some n => [("startAt", Str.of_Z n)] | None => [] end
   ++ match maxResults params with
      | Some n => [("maxResults", Str.of_Z n)]
      | None => []
      end
   ++ match s_fields params with
      | Some l => [("fields", Str.join "," l)]
      | None => []
      end
   ++ match expand params with
      | Some l => [("expand", Str.join "," l)]
      | None => []
      end
   ++ match properties params with
      | Some l => [("properties", Str.join "," l)]
      | None => []
      end
   ++ match fieldsByKeys params with
      | Some b => [("fieldsByKeys", bool_string b)]
      | None => []
      end)%list.

End MoreSpec.

Module MoreSample.
Import Utils Ops MoreOps.

Definition env : ConfigFile.Env :=
  fun name =>
    if String.eqb name "JIRA_EMAIL" then Some "ada@example.com"
    else if String.eqb name "JIRA_PERSONAL_ACCESS_TOKEN" then Some "s3cr3t-t0k3n"
    else if String.eqb name "JIRA_API_BASE_URL"
    then Some "https://jira.example.com/rest/api/2"
    else if String.eqb name "JIRA_LOG_FILE" then Some "~/logs/jira.log"
    else if String.eqb name "JIRA_STRICT_SSL" then Some "false"
    else None.

Definition start_transition : JSON :=
  JObj [("id", JStr "11"); ("name", JStr "Start");
        ("to", JObj [("id", JStr "3"); ("name", JStr "In Progress")])].

Definition finish_transition : JSON :=
  JObj [("id", JStr "31"); ("name", JStr "Finish");
        ("to", JObj [("id", JStr "5"); ("name", JStr "Done")])].

Definition transitions_body : JSON :=
  JObj [("transitions", JArr [start_transition; finish_transition])].

Definition components_body : JSON :=
  JArr [JObj [("id", JStr "1"); ("name", JStr "api"); ("archived", JBool false);
              ("lead", JObj [("name", JStr "ada")])];
        JObj [("id", JStr "2"); ("name", JStr "old"); ("archived", JBool true)];
        JObj [("id", JStr "3"); ("name", JStr "ui"); ("archived", JBool false)]].

Definition metadata_body : JSON :=
  JObj [("self", JStr "https://jira.example.com/rest/api/2/x");
        ("values",
         JArr [JObj [("fieldId", JStr "summary"); ("required", JBool true);
                     ("hasDefaultValue", JBool false);
                     ("self", JStr "https://jira.example.com/f/1")];
               JObj [("fieldId", JStr "priority"); ("required", JBool true);
                     ("hasDefaultValue", JBool true)];
               JObj [("fieldId", JStr "labels"); ("required", JBool false);
                     ("hasDefaultValue", JBool false)];
               JObj [("fieldId", JStr "custom")]])].

(** A create-metadata response with two projects. *)
Definition createmeta_body : JSON :=
  JObj [("projects",
         JArr [JObj [("key", JStr "AIF");
                     ("issuetypes",
                      JArr [JObj [("id", JStr "1"); ("name", JStr "Bug");
                                  ("subtask", JBool false);
                                  ("description", JStr EmptyString)];
                            JObj [("id", JStr "5"); ("name", JStr "Sub-task");
                                  ("subtask", JBool true)]])];
               JObj [("key", JStr "OTHER");
                     ("issuetypes", JArr [JObj [("id", JStr "9")]])]])].

(** A page of issue types: the second of seven, one to a page. *)
Definition issue_types_page : JSON :=
  JObj [("values", JArr [JObj [("id", JStr "1"); ("name", JStr "Bug")]]);
        ("maxResults", JNum 1); ("total", JNum 7); ("startAt", JNull)].

(** A project, the priorities, the statuses by issue type and the create
    metadata of the project. *)
Definition project_body : JSON :=
  JObj [("self", JStr "https://jira.example.com/rest/api/2/project/10000");
        ("id", JStr "10000"); ("key", JStr "AIF"); ("name", JStr "AI Foundations");
        ("lead", JObj [("name", JStr "ada"); ("displayName", JStr "Ada L.");
                       ("active", JBool true)]);
        ("projectTypeKey", JStr "software");
        ("issueTypes",
         JArr [JObj [("id", JStr "1"); ("name", JStr "Bug");
                     ("subtask", JBool false); ("avatarId", JNum 10303)]]);
        ("components", JArr []);
        ("versions",
         JArr [JObj [("id", JStr "7"); ("name", JStr "1.0");
                     ("released", JBool true)]])].

Definition priorities_body : JSON :=
  JArr [JObj [("id", JStr "1"); ("name", JStr "Blocker");
              ("description", JStr "Blocks development")];
        JObj [("id", JStr "3"); ("name", JStr "Major")]].

Definition statuses_body : JSON :=
  JArr [JObj [("name", JStr "Bug");
              ("statuses",
               JArr [JObj [("id", JStr "1"); ("name", JStr "Open");
                           ("statusCategory",
                            JObj [("key", JStr "new"); ("name", JStr "To Do")])];
                     JObj [("id", JStr "5"); ("name", JStr "Done")]])];
        JObj [("name", JStr "Task");
              ("statuses",
               JArr [JObj [("id", JStr "1"); ("name", JStr "Open again")]])]].

Definition fields_body : JSON :=
  JObj [("projects",
         JArr [JObj [("key", JStr "AIF");
                     ("issuetypes",
                      JArr [JObj [("name", JStr "Bug");
                                  ("fields",
                                   JObj [("summary",
                                          JObj [("name", JStr "Summary");
                                                ("required", JBool true)]);
                                         ("customfield_10000",
                                          JObj [("name", JStr "Team");
                                                ("schema",
                                                 JObj [("type", JStr "option")]);
                                                ("operations", JArr [JStr "set"])])])];
                            JObj [("name", JStr "Task");
                                  ("fields",
                                   JObj [("customfield_10000",
                                          JObj [("name", JStr "Squad")]);
                                         ("customfield_11800",
                                          JObj [("name", JStr "Epic");
                                                ("required", JBool true)])])]])]])].

Definition created_body : JSON :=
  JObj [("id", JStr "10018"); ("key", JStr "AIF-18")].

(** A creation request. *)
Definition new_issue : list (string * JSON) :=
  [("fields", JObj [("project", JObj [("key", JStr "AIF")]);
                    ("summary", JStr "Crash on start");
                    ("issuetype", JObj [("name", JStr "Bug")])]);
   ("update", JObj [])].

(** A creation request whose fields hold a password. *)
Definition issue_with_password : list (string * JSON) :=
  [("fields", JObj [("project", JObj [("key", JStr "AIF")]);
                    ("summary", JStr "Rotate the deploy account");
                    ("issuetype", JObj [("name", JStr "Task")]);
                    ("password", JStr "hunter2")])].

Definition known_values : list JSON :=
  [transitions_body; components_body; metadata_body; createmeta_body;
   issue_types_page; project_body; priorities_body; statuses_body; fields_body;
   created_body; JObj []].

(** [JSON.parse] on the texts of these values as well. *)
Definition parse (text : string) : Exn JSON :=
  match find (fun v => String.eqb (Sample.text_of v) text) known_values with
  | Some v => Ok v
  | None => Sample.parse text
  end.

#[local] Instance platform : Platform := {|
  JSON_parse := parse;
  URL_href := Sample.href;
  Date_parse := fun _ => None;
  Date_toISOString := Str.of_Z;
  ToNumber_positive := fun _ => false;
  String_toLowerCase := fun s => s;
  USER_AGENT := "modelcontextprotocol/servers/jira/v0.1.0 node"
|}.

(** A platform whose [toLowerCase] knows, beyond ASCII, the capital
    letters of the Latin-1 supplement (U+00C0 to U+00DE, two bytes each,
    lowered by 32) and the Kelvin sign (U+212A, three bytes, lowered to
    the letter k). *)
Fixpoint lower_latin (s : string) : string :=
  match s with
  | EmptyString => EmptyString
  | String c0 tail =>
      match tail with
      | String c1 rest =>
          let b0 := nat_of_ascii c0 in
          let b1 := nat_of_ascii c1 in
          if Nat.eqb b0 195 && Str.between 128 158 b1 && negb (Nat.eqb b1 151)
          then String c0 (String (ascii_of_nat (b1 + 32)) (lower_latin rest))
          else if Nat.eqb b0 226 && Nat.eqb b1 132
          then match rest with
               | String c2 rest' =>
                   if Nat.eqb (nat_of_ascii c2) 170
                   then String "k"%char (lower_latin rest')
                   else String c0 (lower_latin tail)
               | EmptyString => String c0 (lower_latin tail)
               end
          else String (Str.lower_ascii c0) (lower_latin tail)
      | EmptyString => String (Str.lower_ascii c0) EmptyString
      end
  end.

Definition latin : Platform := {|
  JSON_parse := parse;
  URL_href := Sample.href;
  Date_parse := fun _ => None;
  Date_toISOString := Str.of_Z;
  ToNumber_positive := fun _ => false;
  String_toLowerCase := lower_latin;
  USER_AGENT := "modelcontextprotocol/servers/jira/v0.1.0 node"
|}.

(** The status names TERMIN+U+00C9 and termin+U+00E9, and the key
    to+U+212A+en. *)
Definition TERMINE : string :=
  "TERMIN" ++ String (ascii_of_nat 195) (String (ascii_of_nat 137) EmptyString).

Definition termine : string :=
  "termin" ++ String (ascii_of_nat 195) (String (ascii_of_nat 169) EmptyString).

Definition token_with_kelvin : string :=
  "to" ++ String (ascii_of_nat 226)
            (String (ascii_of_nat 132) (String (ascii_of_nat 170) "en")).

Definition answers (v : JSON) : World :=
  Sample.world_of (fun _ => Sample.ok_with v).

(** The state once the transitions of [AIF-17] have been fetched. *)
Definition after_transitions : State :=
  snd (jiraRequest Sample.cfg (answers transitions_body)
         "issue/AIF-17/transitions" noOptions initial).

(** The labels are fetched, the update of the fields is refused. *)
Definition put_refused : World :=
  Sample.world_of (fun n => match n with
                            | O => Sample.ok_with Sample.issue_with_labels
                            | _ => Sample.server_error
                            end).

(** An update that changes the summary and asks for two links. *)
Definition linked_update : UpdateJiraIssueRequest :=
  mkUpdateRequest "AIF-17"
    (Some (mkUpdateFields (Some "New title") None None None None None None None
             None None))
    None
    (Some [mkLinkedIssue "A-1" "B-2" "Blocks"; mkLinkedIssue "A-1" "C-3" "Relates"]).

(** An update that gives nothing to change. *)
Definition empty_update : UpdateJiraIssueRequest :=
  mkUpdateRequest "AIF-17" None None None.

(** The state once the components of [AIF] have been fetched, under a
    world that answers with [body]. *)
Definition after_components (body : JSON) : State :=
  snd (jiraRequest Sample.cfg (answers body) "project/AIF/components"
         (mkOptions None None [("Accept", "application/json")]) initial).

(** The minimised form of [metadata_body]. *)
Definition minimized_metadata : JSON :=
  JObj [("values",
         JArr [JObj [("fieldId", JStr "summary"); ("required", JBool true);
                     ("hasDefaultValue", JBool false)];
               JObj [("fieldId", JStr "custom")]])].

(** A page of 500 fields, minimised. *)
Definition metadata_request : GetJiraIssueTypeMetadataRequest :=
  mkMetadataRequest "AIF" "10001" (Some 0%Z) (Some 500%Z) true.

(** The system a configuration is made on. *)
Definition homedir : string := "/home/ada".

Definition path_resolve (path : string) : string :=
  match path with
  | String "/"%char _ => path
  | _ => "/srv/jira/" ++ path
  end.

Definition parseInt (s : string) : option Z :=
  if String.eqb s "50" then Some 50%Z
  else if String.eqb s "30000" then Some 30000%Z
  else None.

Definition URL_valid (s : string) : bool :=
  Str.startsWith s "https://" || Str.startsWith s "http://".

Definition defaultLogFile : string := "/home/ada/Desktop/jira-api.log".

(** The four requests of [getProjectConfig] answered in turn, and the
    same with the statuses refused. *)
Definition project_world : World :=
  Sample.world_of (fun n => match n with
                            | 0 => Sample.ok_with project_body
                            | 1 => Sample.ok_with priorities_body
                            | 2 => Sample.ok_with statuses_body
                            | _ => Sample.ok_with fields_body
                            end)%nat.

Definition statuses_refused : World :=
  Sample.world_of (fun n => match n with
                            | 0 => Sample.ok_with project_body
                            | 1 => Sample.ok_with priorities_body
                            | 2 => Sample.server_error
                            | _ => Sample.ok_with fields_body
                            end)%nat.

(** The [project] and the [metadata] of the reply under
    [project_world]. *)
Definition project_shown : JSON :=
  JObj [("key", JStr "AIF"); ("name", JStr "AI Foundations");
        ("description", JNull);
        ("lead", JObj [("name", JStr "ada"); ("displayName", JStr "Ada L.");
                       ("active", JBool true)]);
        ("projectTypeKey", JStr "software");
        ("url", JStr "https://jira.example.com/rest/api/2/project/10000");
        ("projectKeys", JNull); ("issueTypeHierarchy", JNull)].

Definition metadata_shown : JSON :=
  JObj [("issueTypes",
         JArr [JObj [("id", JStr "1"); ("name", JStr "Bug"); ("description", JNull);
                     ("subtask", JBool false); ("iconUrl", JNull);
                     ("avatarId", JNum 10303); ("hierarchyLevel", JNull)]]);
        ("components", JArr []);
        ("versions",
         JArr [JObj [("id", JStr "7"); ("name", JStr "1.0"); ("description", JNull);
                     ("released", JBool true)]]);
        ("priorities",
         JArr [JObj [("id", JStr "1"); ("name", JStr "Blocker");
                     ("description", JStr "Blocks development")];
               JObj [("id", JStr "3"); ("name", JStr "Major");
                     ("description", JNull)]]);
        ("statuses",
         JArr [JObj [("id", JStr "1"); ("name", JStr "Open"); ("description", JNull);
                     ("statusCategory",
                      JObj [("key", JStr "new"); ("name", JStr "To Do")])];
               JObj [("id", JStr "5"); ("name", JStr "Done"); ("description", JNull);
                     ("statusCategory",
                      JObj [("key", JStr "unknown"); ("name", JStr "Unknown")])]]);
        ("customFields",
         JArr [JObj [("id", JStr "customfield_10000"); ("name", JStr "Team");
                     ("type", JStr "option"); ("description", JStr "set");
                     ("required", JBool false)];
               JObj [("id", JStr "customfield_11800"); ("name", JStr "Epic");
                     ("type", JStr "unknown"); ("description", JNull);
                     ("required", JBool true)]])].

(** No fetch gets through. *)
Definition offline : World :=
  Sample.world_of (fun _ => Rejects (plainError NTypeError "fetch failed")).

(** A caller that supplies an [Accept] and an [Authorization] header. *)
Definition plain_text : Utils.RequestOptions :=
  mkOptions None None [("Accept", "text/plain"); ("Authorization", "Basic forged")].

End MoreSample.

(* ===================================================================== *)
(** * Properties                                                         *)
(* ===================================================================== *)

(** ** How one [jiraRequest] runs *)

Module Run.
Import Utils Spec.
Section WithPlatform.
Context `{Platform}.
Variable cfg : Config.
Variable w : World.

Section Logging.
Variable Q : LogLine -> Prop.

Lemma Logs_ret {A : Type} (a : A) : Logs Q (ret a).
Proof.
  exists (Ok a), []. split; [ constructor | ].
  intros [rs ls]. unfold ret. simpl. now rewrite app_nil_r.
Qed.

Lemma Logs_throw {A : Type} (e : JsError) : Logs Q (@throw A e).
Proof.
  exists (Throw e), []. split; [ constructor | ].
  intros [rs ls]. unfold throw. simpl. now rewrite app_nil_r.
Qed.

Lemma Logs_lift {A : Type} (x : Exn A) : Logs Q (lift x).
Proof.
  exists x, []. split; [ constructor | ].
  intros [rs ls]. unfold lift. simpl. now rewrite app_nil_r.
Qed.

Lemma Logs_logToFile (l : LogLine) : Q l -> Logs Q (logToFile l).
Proof.
  intros Hl. exists (Ok tt), [l]. split; [ now repeat constructor | ].
  intros st. reflexivity.
Qed.

Lemma Logs_bind {A B : Type} (m : M A) (k : A -> M B) :
  Logs Q m -> (forall a, Logs Q (k a)) -> Logs Q (bind m k).
Proof.
  intros (r & lm & Qm & Hm) Hk. destruct r as [a | e].
  - destruct (Hk a) as (rk & lk & Qk & Hka).
    exists rk, (lm ++ lk)%list. split; [ now apply Forall_app | ].
    intros st. unfold bind. rewrite Hm, Hka. simpl. now rewrite app_assoc.
  - exists (Throw e), lm. split; [ exact Qm | ].
    intros st. unfold bind. now rewrite Hm.
Qed.

Lemma Logs_try_catch {A : Type} (m : M A) (h : JsError -> M A) :
  Logs Q m -> (forall e, Logs Q (h e)) -> Logs Q (try_catch m h).
Proof.
  intros (r & lm & Qm & Hm) Hh. destruct r as [a | e].
  - exists (Ok a), lm. split; [ exact Qm | ].
    intros st. unfold try_catch. now rewrite Hm.
  - destruct (Hh e) as (rh & lh & Qh & Hhe).
    exists rh, (lm ++ lh)%list. split; [ now apply Forall_app | ].
    intros st. unfold try_catch. rewrite Hm, Hhe. simpl. now rewrite app_assoc.
Qed.

(** What the settle phase may log: plain lines, the response headers and
    the response body. *)
Hypothesis Q_line : forall text, Q (Line text).
Hypothesis Q_response_headers : forall v, Q (LineJSON "Response headers: " v).
Hypothesis Q_response_body : forall responseBody, Q (loggedBody responseBody).

Ltac logs :=
  repeat first
    [ apply Logs_bind; [ | intro ]
    | apply Logs_try_catch; [ | intro ]
    | apply Logs_ret
    | apply Logs_throw
    | apply Logs_lift
    | apply Logs_logToFile; solve [ auto ]
    | match goal with
      | |- Logs _ (if ?b then _ else _) => destruct b
      | |- Logs _ (match ?x with _ => _ end) => destruct x
      end ].

Lemma Logs_parseResponseBody (response : Response) :
  Logs Q (parseResponseBody response).
Proof. unfold parseResponseBody. logs. Qed.

Lemma Logs_settle (p : Pending) : Logs Q (jiraRequest_settle w p).
Proof.
  unfold jiraRequest_settle.
  apply Logs_try_catch; [ | intro; logs ].
  destruct (pend_outcome p); [ | logs ].
  apply Logs_bind; [ logs | intro ].
  apply Logs_bind; [ logs | intro ].
  destruct (Z.eqb (resp_status r) 204); [ logs | ].
  apply Logs_bind; [ apply Logs_parseResponseBody | intro ].
  logs.
Qed.

End Logging.

Lemma Logs_any_parseResponseBody (response : Response) :
  Logs (fun _ => True) (parseResponseBody response).
Proof. apply Logs_parseResponseBody; intros; exact I. Qed.

(** The settle phase returns [outcome_of] and appends [settle_lines],
    whatever the state. *)
Lemma settle_run (p : Pending) (st : State) :
  jiraRequest_settle w p st
  = (outcome_of w p, mkState (requests st) (logged st ++ settle_lines w p)%list).
Proof.
  destruct (Logs_settle (fun _ => True)) with (p := p)
    as (r & lines & _ & Hrun); try (intros; exact I).
  unfold outcome_of, settle_lines. rewrite !Hrun. reflexivity.
Qed.

(** Every line of the settle phase satisfies a property that holds of
    the three kinds of line it writes. *)
Lemma settle_lines_Forall (Q : LogLine -> Prop) (p : Pending) :
  (forall text, Q (Line text)) ->
  (forall v, Q (LineJSON "Response headers: " v)) ->
  (forall responseBody, Q (loggedBody responseBody)) ->
  Forall Q (settle_lines w p).
Proof.
  intros Q1 Q2 Q3.
  destruct (Logs_settle Q Q1 Q2 Q3 p) as (r & lines & Hlines & Hrun).
  unfold settle_lines. rewrite Hrun. exact Hlines.
Qed.

Lemma nonempty_true (s : string) : s <> EmptyString -> Str.nonempty s = true.
Proof. destruct s; [ congruence | reflexivity ]. Qed.

(** The begin phase under a loaded configuration: one request goes out,
    and the lines of [begin_lines] are logged. *)
Lemma begin_run (path : string) (options : RequestOptions) (st : State) :
  config_loaded cfg ->
  jiraRequest_begin cfg w path options st
  = (Ok (pending_of cfg w (List.length (requests st)) path options),
     mkState (requests st ++ [request_of cfg path options])%list
             (logged st ++ begin_lines cfg path options)%list).
Proof.
  intros [He Ht]. unfold jiraRequest_begin.
  rewrite (nonempty_true _ He), (nonempty_true _ Ht). simpl.
  unfold pending_of, request_of, begin_lines, headers_line, auth_line,
    authorization, url_of, plain_headers, constructAuthHeader.
  destruct st as [rs ls].
  destruct (Str.includes (Buffer.fromBase64 (auth_token cfg)) ":");
    destruct (body_of options);
    unfold bind, ret, logToFile, do_fetch; simpl;
    repeat rewrite <- app_assoc; reflexivity.
Qed.

(** A whole [jiraRequest] under a loaded configuration. *)
Lemma jiraRequest_run (path : string) (options : RequestOptions) (st : State) :
  config_loaded cfg ->
  jiraRequest cfg w path options st
  = (outcome_of w (pending_of cfg w (List.length (requests st)) path options),
     mkState (requests st ++ [request_of cfg path options])%list
             (logged st ++ begin_lines cfg path options
              ++ settle_lines w
                   (pending_of cfg w (List.length (requests st)) path options))%list).
Proof.
  intros Hcfg. unfold jiraRequest, bind.
  rewrite (begin_run _ _ _ Hcfg), settle_run. simpl.
  now rewrite <- app_assoc.
Qed.

End WithPlatform.
End Run.

(** ** Small facts about entry lists and strings *)

Lemma requests_mkState (rs : list Request) (ls : list LogLine) :
  requests (mkState rs ls) = rs.
Proof. reflexivity. Qed.

Lemma lookup_set_same {A : Type} (k : string) (v : A) (l : list (string * A)) :
  Js.lookup k (Js.set k v l) = Some v.
Proof.
  induction l as [ | [k' v'] l IH ]; simpl.
  - now rewrite String.eqb_refl.
  - destruct (String.eqb k k') eqn:E; simpl; rewrite E; [ reflexivity | exact IH ].
Qed.

Lemma nonempty_append_l (a b : string) :
  Str.nonempty a = true -> Str.nonempty (a ++ b) = true.
Proof. destruct a; simpl; [ discriminate | reflexivity ]. Qed.

Lemma nonempty_append_r (a b : string) :
  Str.nonempty b = true -> Str.nonempty (a ++ b) = true.
Proof. destruct a; simpl; [ trivial | reflexivity ]. Qed.

Lemma nonempty_join (sep x : string) (xs : list string) :
  Str.nonempty x = true -> Str.nonempty (Str.join sep (x :: xs)) = true.
Proof.
  intros Hx. unfold Str.join. simpl. destruct xs; [ exact Hx | ].
  now apply nonempty_append_l.
Qed.

(* --------------------------------------------------------------------- *)
(** ** C3: the Authorization header                                      *)
(* --------------------------------------------------------------------- *)

Section AuthHeader.
Context `{Platform}.

(** C3, as amended.  Under a loaded configuration every outgoing request
    carries an Authorization header that is [Basic ] followed by the token
    itself when the base64 decoding of the token contains a colon (a
    token taken to be pre-encoded), and [Basic ] followed by the base64
    encoding of [email:token] otherwise. *)
Theorem authorization_header_by_token_shape
  (cfg : Config) (w : World) (path : string) (options : Utils.RequestOptions)
  (st : State) :
  config_loaded cfg ->
  exists (p : Utils.Pending) (req : Request) (st' : State),
    Utils.jiraRequest_begin cfg w path options st = (Ok p, st')
    /\ requests st' = (requests st ++ [req])%list
    /\ (Str.includes (Buffer.fromBase64 (auth_token cfg)) ":" = true ->
        Js.lookup "Authorization" (req_headers req)
        = Some ("Basic " ++ auth_token cfg))
    /\ (Str.includes (Buffer.fromBase64 (auth_token cfg)) ":" = false ->
        Js.lookup "Authorization" (req_headers req)
        = Some ("Basic "
                ++ Buffer.toBase64 (auth_email cfg ++ ":" ++ auth_token cfg))).
Proof.
  intros Hcfg. rewrite (Run.begin_run cfg w path options st Hcfg).
  eexists _, _, _. split; [ reflexivity | ]. split; [ reflexivity | ].
  unfold Spec.request_of. simpl req_headers. rewrite lookup_set_same.
  unfold Spec.authorization.
  split; intros E; rewrite E; reflexivity.
Qed.

End AuthHeader.

Section AuthHeaderRuns.
#[local] Existing Instance Sample.platform.

(** A run of the theorem: an ordinary token is sent as the base64 of
    [email:token]. *)
Lemma authorization_header_by_token_shape_witness :
  config_loaded Sample.cfg
  /\ exists (p : Utils.Pending) (req : Request) (st' : State),
       Utils.jiraRequest_begin Sample.cfg Sample.all_ok "myself"
         Utils.noOptions initial = (Ok p, st')
       /\ requests st' = (requests initial ++ [req])%list
       /\ (Str.includes (Buffer.fromBase64 (auth_token Sample.cfg)) ":" = true ->
           Js.lookup "Authorization" (req_headers req)
           = Some ("Basic " ++ auth_token Sample.cfg))
       /\ (Str.includes (Buffer.fromBase64 (auth_token Sample.cfg)) ":" = false ->
           Js.lookup "Authorization" (req_headers req)
           = Some ("Basic "
                   ++ Buffer.toBase64
                        (auth_email Sample.cfg ++ ":" ++ auth_token Sample.cfg))).
Proof.
  assert (Hcfg : config_loaded Sample.cfg) by (split; discriminate).
  split; [ exact Hcfg | ].
  exact (authorization_header_by_token_shape Sample.cfg Sample.all_ok "myself"
           Utils.noOptions initial Hcfg).
Defined.

(** C3 fails as stated: with the token [dXNlcjpwYXNz], whose decoding
    [user:pass] contains a colon, the header is [Basic dXNlcjpwYXNz] and
    not the encoding of [email:token]. *)
Lemma authorization_header_preencoded_counterexample :
  fst (Utils.constructAuthHeader "ada@example.com" "dXNlcjpwYXNz" initial)
  = Ok "Basic dXNlcjpwYXNz"
  /\ map (fun r => Js.lookup "Authorization" (req_headers r))
         (requests (snd (Utils.jiraRequest Sample.cfg_preencoded Sample.all_ok
                           "myself" Utils.noOptions initial)))
     = [Some "Basic dXNlcjpwYXNz"]
  /\ "Basic dXNlcjpwYXNz"
     <> "Basic " ++ Buffer.toBase64 ("ada@example.com" ++ ":" ++ "dXNlcjpwYXNz").
Proof.
  split; [ reflexivity | ]. split; [ reflexivity | ].
  vm_compute. discriminate.
Qed.

End AuthHeaderRuns.

(* --------------------------------------------------------------------- *)
(** ** C7: buildUrl                                                      *)
(* --------------------------------------------------------------------- *)

Section BuildUrl.
Context `{Platform}.

Lemma append_params (input : string) (params : list (string * Utils.ParamValue))
  (appended : list (string * string)) :
  fold_left
    (fun url entry =>
       match snd entry with
       | Utils.PUndefined => url
       | Utils.PString s => Utils.searchParams_append url (fst entry) s
       | Utils.PNumber n => Utils.searchParams_append url (fst entry) (Str.of_Z n)
       end)
    params (Utils.mkURL input appended)
  = Utils.mkURL input (appended ++ Spec.query_of params)%list.
Proof.
  revert appended.
  induction params as [ | [k v] params IH ]; intros appended; simpl.
  - unfold Spec.query_of. simpl. now rewrite app_nil_r.
  - destruct v; simpl; unfold Utils.searchParams_append; simpl;
      rewrite IH; unfold Spec.query_of; simpl;
      try rewrite <- app_assoc; reflexivity.
Qed.

(** C7.  [buildUrl] serialises the URL built from the API base URL, one
    slash and the path with at most one leading slash removed, to which
    exactly the parameters that are not [undefined] have been appended as
    query pairs, in entry order, each value as a string. *)
Theorem buildUrl_joins_and_appends
  (cfg : Config) (path : string) (params : list (string * Utils.ParamValue)) :
  let cleanPath := Str.stripLeadingSlash path in
  Utils.buildUrl cfg path params
  = Utils.URL_toString
      (Utils.mkURL (apiBaseUrl cfg ++ "/" ++ cleanPath) (Spec.query_of params))
  /\ (path = "/" ++ cleanPath
      \/ (path = cleanPath /\ Str.startsWith path "/" = false))
  /\ Spec.query_of params
     = map (fun e => (fst e, Spec.stringified (snd e)))
           (filter (fun e => Spec.is_defined (snd e)) params).
Proof.
  intros cleanPath. split; [ | split ].
  - unfold Utils.buildUrl, Utils.new_URL. fold cleanPath.
    now rewrite append_params.
  - unfold cleanPath. destruct path as [ | c rest ]; [ right; split; reflexivity | ].
    destruct (Ascii.eqb c "/"%char) eqn:E.
    + apply Ascii.eqb_eq in E. subst c. left. reflexivity.
    + right. split.
      * unfold Str.stripLeadingSlash.
        destruct c as [[] [] [] [] [] [] [] []]; try reflexivity; discriminate.
      * unfold Str.startsWith. simpl.
        destruct c as [[] [] [] [] [] [] [] []]; try reflexivity; discriminate.
  - reflexivity.
Qed.

End BuildUrl.

Section BuildUrlRuns.
#[local] Existing Instance Sample.platform.

Example buildUrl_search :
  Utils.buildUrl Sample.cfg "/search"
    [("jql", Utils.PString "AIF-17"); ("startAt", Utils.PUndefined);
     ("maxResults", Utils.PNumber 50)]
  = "https://jira.example.com/rest/api/2/search?jql=AIF-17&maxResults=50".
Proof. reflexivity. Qed.

Example buildUrl_strips_one_slash :
  Utils.buildUrl Sample.cfg "//search" []
  = "https://jira.example.com/rest/api/2//search".
Proof. reflexivity. Qed.

End BuildUrlRuns.

(* --------------------------------------------------------------------- *)
(** ** C2: createJiraError                                               *)
(* --------------------------------------------------------------------- *)

Section CreateJiraError.
Context `{Platform}.

Lemma object_guard (response : JSON) :
  Js.truthy response && Js.typeof_object response = Spec.is_object response.
Proof.
  destruct response; simpl; try reflexivity; apply andb_false_r.
Qed.

(** On a body whose [errorMessages] is a list or absent, the message is
    derived without a throw and reads as the specification says. *)
Lemma deriveMessage_structured (response : JSON) :
  Spec.errorMessages_is_list response = true ->
  exists m, Errors.deriveMessage response = Ok m
            /\ Js.toString m = Spec.structured_message response.
Proof.
  unfold Spec.errorMessages_is_list, Errors.deriveMessage, Spec.structured_message.
  intros Hlist.
  assert (Hrest :
    exists m,
      Ok (Errors.or_else
            (Some (JStr (Str.join ", "
               (map (fun e => fst e ++ ": " ++ Js.toString (snd e))
                    (Js.entries (Errors.or_else (Js.prop response "errors")
                                   (JObj [])))))))
            (Errors.or_else (Js.prop response "message") (JStr "Unknown error")))
      = Ok m
      /\ Js.toString m
         = match Js.entries (Errors.or_else (Js.prop response "errors") (JObj []))
           with
           | e :: es =>
               Str.join ", "
                 (map (fun e => fst e ++ ": " ++ Js.toString (snd e)) (e :: es))
           | [] =>
               Js.toString
                 (Errors.or_else (Js.prop response "message")
                    (JStr "Unknown error"))
           end).
  { eexists. split; [ reflexivity | ].
    destruct (Js.entries _) as [ | e es ]; [ reflexivity | ].
    cbn [map]. unfold Errors.or_else at 1. cbn [Js.truthy].
    rewrite nonempty_join; [ reflexivity | ].
    apply nonempty_append_r. reflexivity. }
  destruct (Js.prop response "errorMessages") as [ [ | | | | items | ] | ];
    try discriminate; cbn [Errors.or_else Js.truthy Errors.length_positive];
    try exact Hrest.
  destruct items as [ | m ms ]; [ exact Hrest | ].
  eexists. split; reflexivity.
Qed.

Lemma createJiraError_not_object (now status : Z) (response : JSON) :
  Spec.is_object response = false ->
  Errors.createJiraError now status response
  = Ok (Errors.JiraError (JStr "Unknown Jira API error") status response).
Proof.
  intros E. unfold Errors.createJiraError. now rewrite object_guard, E.
Qed.

Lemma createJiraError_object (now status : Z) (response : JSON) :
  Spec.is_object response = true ->
  Spec.errorMessages_is_list response = true ->
  (status = 429%Z -> Spec.resetAt_of now response <> None) ->
  exists e,
    Errors.createJiraError now status response = Ok e
    /\ err_name e = Spec.kind_of_status status
    /\ err_message e
       = if Z.eqb status 404
         then "Resource not found: " ++ Spec.structured_message response
         else Spec.structured_message response.
Proof.
  intros E Hlist Hreset.
  unfold Errors.createJiraError. rewrite object_guard, E.
  destruct (deriveMessage_structured response Hlist) as (m & Hm & Hstr).
  rewrite Hm. unfold Spec.kind_of_status.
  destruct (Z.eqb status 401) eqn:E401.
  { apply Z.eqb_eq in E401. subst status. eexists. repeat split.
    simpl. exact Hstr. }
  destruct (Z.eqb status 403) eqn:E403.
  { apply Z.eqb_eq in E403. subst status. eexists. repeat split.
    simpl. exact Hstr. }
  destruct (Z.eqb status 404) eqn:E404.
  { eexists. repeat split. simpl. now rewrite Hstr. }
  destruct (Z.eqb status 409) eqn:E409.
  { eexists. repeat split. simpl. exact Hstr. }
  destruct (Z.eqb status 400) eqn:E400.
  { eexists. repeat split. simpl. exact Hstr. }
  destruct (Z.eqb status 422) eqn:E422.
  { eexists. repeat split. simpl. exact Hstr. }
  simpl orb. cbv iota.
  destruct (Z.eqb status 429) eqn:E429.
  { apply Z.eqb_eq in E429. specialize (Hreset E429).
    unfold Spec.resetAt_of in Hreset.
    destruct (match Js.prop response "resetAt" with
              | Some v => if Js.truthy v then Errors.new_Date v
                          else Some (now + 60000)%Z
              | None => Some (now + 60000)%Z
              end) as [ t | ]; [ | congruence ].
    eexists. repeat split. simpl. exact Hstr. }
  eexists. repeat split. simpl. exact Hstr.
Qed.

(** What [createJiraError] throws instead of returning is never one of
    the Jira error classes. *)
Lemma createJiraError_throws_plain (now status : Z) (response : JSON) (e : JsError) :
  Errors.createJiraError now status response = Throw e ->
  Errors.isJiraError e = false.
Proof.
  unfold Errors.createJiraError.
  destruct (Js.truthy response && Js.typeof_object response); [ | discriminate ].
  destruct (Errors.deriveMessage response) as [ m | e0 ] eqn:D.
  - repeat match goal with
           | |- context [if ?b then _ else _] => destruct b
           end; try discriminate.
    unfold Errors.JiraRateLimitError.
    destruct (match Js.prop response "resetAt" with
              | Some v => if Js.truthy v then Errors.new_Date v
                          else Some (now + 60000)%Z
              | None => Some (now + 60000)%Z
              end); intros E; inversion E; reflexivity.
  - intros E. inversion E; subst e0. clear E.
    unfold Errors.deriveMessage in D.
    destruct (Errors.length_positive _); [ | discriminate ].
    destruct (Errors.or_else (Js.prop response "errorMessages") (JArr []));
      inversion D; reflexivity.
Qed.


End CreateJiraError.

Section CreateJiraErrorRuns.
#[local] Existing Instance Sample.platform.



Example createJiraError_validation :
  Errors.createJiraError 0 400
    (JObj [("errorMessages", JArr []);
           ("errors", JObj [("summary", JStr "is required")])])
  = Ok (Errors.JiraValidationError (JStr "summary: is required") 400
          (JObj [("errorMessages", JArr []);
                 ("errors", JObj [("summary", JStr "is required")])])).
Proof. reflexivity. Qed.

End CreateJiraErrorRuns.

(* --------------------------------------------------------------------- *)
(** ** C10: what a response makes the request helper return or throw     *)
(* --------------------------------------------------------------------- *)

Section Responses.
Context `{Platform}.
Variable w : World.

(** The outcome of a request whose fetch was answered by [r]. *)
Lemma outcome_responds (n : nat) (r : Response) :
  Spec.outcome_of w (Utils.mkPending n (Responds r))
  = if Z.eqb (resp_status r) 204 then Ok success_true
    else match fst (Utils.parseResponseBody r initial) with
         | Throw e => Throw e
         | Ok responseBody =>
             if Utils.response_ok r then Ok responseBody
             else match Errors.createJiraError (now w) (resp_status r)
                          responseBody with
                  | Ok e => Throw e
                  | Throw e => Throw e
                  end
         end.
Proof.
  unfold Spec.outcome_of, Utils.jiraRequest_settle, try_catch, bind,
    Utils.logToFile, ret, throw, lift.
  cbn [Utils.pend_outcome requests logged initial].
  destruct (Z.eqb (resp_status r) 204); [ reflexivity | ].
  destruct (Run.Logs_any_parseResponseBody r) as (rp & lp & _ & Hp).
  rewrite !Hp. cbn [fst].
  destruct rp as [ responseBody | e ]; [ | reflexivity ].
  cbn [requests logged].
  destruct (Utils.response_ok r); [ reflexivity | ].
  cbn [negb].
  destruct (Errors.createJiraError (now w) (resp_status r) responseBody);
    reflexivity.
Qed.

(** [parseResponseBody] throws nothing but the XML error. *)
Lemma parseResponseBody_throws_xml (r : Response) (e : JsError) :
  fst (Utils.parseResponseBody r initial) = Throw e -> e = Utils.xml_error.
Proof.
  unfold Utils.parseResponseBody.
  destruct (Z.eqb (resp_status r) 204); [ discriminate | ].
  destruct (Utils.contentType_includes r "application/json").
  - destruct (negb (Str.nonempty (resp_text r))); [ discriminate | ].
    destruct (JSON_parse (resp_text r)); discriminate.
  - destruct (Utils.contentType_includes r "application/xml");
      [ | discriminate ].
    unfold bind, Utils.logToFile, throw. simpl. congruence.
Qed.

Lemma parseResponseBody_json_blank (r : Response) :
  Z.eqb (resp_status r) 204 = false ->
  Utils.contentType_includes r "application/json" = true ->
  resp_text r = EmptyString \/ (exists e, JSON_parse (resp_text r) = Throw e) ->
  fst (Utils.parseResponseBody r initial) = Ok success_true.
Proof.
  intros E204 Ejson Hbody. unfold Utils.parseResponseBody.
  rewrite E204, Ejson.
  destruct Hbody as [ Hempty | (e & Hparse) ].
  - now rewrite Hempty.
  - destruct (negb (Str.nonempty (resp_text r))); [ reflexivity | ].
    now rewrite Hparse.
Qed.

Lemma parseResponseBody_xml (r : Response) :
  Z.eqb (resp_status r) 204 = false ->
  Utils.contentType_includes r "application/json" = false ->
  Utils.contentType_includes r "application/xml" = true ->
  fst (Utils.parseResponseBody r initial) = Throw Utils.xml_error.
Proof.
  intros E204 Ejson Exml. unfold Utils.parseResponseBody.
  now rewrite E204, Ejson, Exml.
Qed.

(** C10, as amended.  A 204 yields [{success: true}] whatever its content
    type.  For any other status, a JSON-typed response whose body is
    empty or does not parse makes [parseResponseBody] yield
    [{success: true}], which the request helper returns when the status
    is in the 2xx range and turns into the classified [JiraError] of the
    status otherwise; a response typed [application/xml] and not
    [application/json] raises the XML error.  A classified [JiraError]
    is raised only for a status outside the 2xx range. *)
Theorem response_outcomes (n : nat) (r : Response) :
  let outcome := Spec.outcome_of w (Utils.mkPending n (Responds r)) in
  (resp_status r = 204%Z ->
   outcome = Ok success_true
   /\ fst (Utils.parseResponseBody r initial) = Ok success_true)
  /\ (resp_status r <> 204%Z ->
      Utils.contentType_includes r "application/json" = true ->
      resp_text r = EmptyString \/ (exists e, JSON_parse (resp_text r) = Throw e) ->
      fst (Utils.parseResponseBody r initial) = Ok success_true
      /\ (Utils.response_ok r = true -> outcome = Ok success_true)
      /\ (Utils.response_ok r = false ->
          exists e, outcome = Throw e
                    /\ Errors.isJiraError e = true
                    /\ err_name e = Spec.kind_of_status (resp_status r)))
  /\ (resp_status r <> 204%Z ->
      Utils.contentType_includes r "application/json" = false ->
      Utils.contentType_includes r "application/xml" = true ->
      fst (Utils.parseResponseBody r initial) = Throw Utils.xml_error
      /\ outcome = Throw Utils.xml_error
      /\ Errors.isJiraError Utils.xml_error = false)
  /\ (forall e, outcome = Throw e -> Errors.isJiraError e = true ->
                Utils.response_ok r = false).
Proof.
  intros outcome. unfold outcome. rewrite outcome_responds.
  split; [ | split; [ | split ] ].
  - intros E. unfold Utils.parseResponseBody. rewrite E. split; reflexivity.
  - intros E Ejson Hbody. apply Z.eqb_neq in E. rewrite E.
    rewrite (parseResponseBody_json_blank r E Ejson Hbody).
    split; [ reflexivity | ]. split.
    + intros Eok. now rewrite Eok.
    + intros Eok. rewrite Eok.
      destruct (createJiraError_object (now w) (resp_status r) success_true)
        as (e & He & Hname & _); [ reflexivity | reflexivity | discriminate | ].
      rewrite He. exists e. split; [ reflexivity | ]. split; [ | exact Hname ].
      unfold Errors.isJiraError. rewrite Hname. unfold Spec.kind_of_status.
      repeat match goal with
             | |- context [if ?b then _ else _] => destruct b
             end; reflexivity.
  - intros E Ejson Exml. apply Z.eqb_neq in E. rewrite E.
    rewrite (parseResponseBody_xml r E Ejson Exml).
    repeat split.
  - intros e Hout Hjira.
    destruct (Z.eqb (resp_status r) 204); [ discriminate | ].
    destruct (fst (Utils.parseResponseBody r initial)) as [ responseBody | e0 ] eqn:P.
    + destruct (Utils.response_ok r); [ discriminate | reflexivity ].
    + apply parseResponseBody_throws_xml in P. inversion Hout; subst.
      discriminate.
Qed.

End Responses.

Section ResponsesRuns.
#[local] Existing Instance Sample.platform.

(** C10 fails as stated, twice.  A response typed [application/xml]
    raises no error when its status is 204; and a JSON-typed response
    with an empty body yields an error, not [{success: true}], when its
    status is 500. *)
Lemma response_outcomes_counterexample :
  (Utils.contentType_includes Sample.no_content_xml "application/xml" = true
   /\ fst (Utils.parseResponseBody Sample.no_content_xml initial) = Ok success_true
   /\ fst (Utils.jiraRequest Sample.cfg
             (Sample.world_of (fun _ => Responds Sample.no_content_xml))
             "issue/AIF-17" Utils.noOptions initial) = Ok success_true)
  /\ (Utils.contentType_includes Sample.blank_error "application/json" = true
      /\ resp_text Sample.blank_error = EmptyString
      /\ fst (Utils.jiraRequest Sample.cfg
                (Sample.world_of (fun _ => Responds Sample.blank_error))
                "issue/AIF-17" Utils.noOptions initial)
         = Throw (mkJsError NJiraError "Unknown error" (Some 500%Z)
                    (Some success_true) None)).
Proof. repeat split. Qed.

(** A run of the theorem on the blank 500. *)
Lemma response_outcomes_witness :
  resp_status Sample.blank_error <> 204%Z
  /\ Utils.contentType_includes Sample.blank_error "application/json" = true
  /\ (resp_text Sample.blank_error = EmptyString
      \/ exists e, JSON_parse (resp_text Sample.blank_error) = Throw e)
  /\ Utils.response_ok Sample.blank_error = false
  /\ exists e,
       Spec.outcome_of Sample.all_ok (Utils.mkPending 0 (Responds Sample.blank_error))
       = Throw e
       /\ Errors.isJiraError e = true
       /\ err_name e = Spec.kind_of_status (resp_status Sample.blank_error).
Proof.
  assert (H204 : resp_status Sample.blank_error <> 204%Z) by discriminate.
  split; [ exact H204 | ]. split; [ reflexivity | ].
  split; [ left; reflexivity | ]. split; [ reflexivity | ].
  exact (proj2 (proj2
           (proj1 (proj2 (response_outcomes Sample.all_ok 0 Sample.blank_error))
              H204 eq_refl (or_introl eq_refl)))
           eq_refl).
Defined.

End ResponsesRuns.

(* --------------------------------------------------------------------- *)
(** ** C5: what the request helper redacts in the log, and what not     *)
(* --------------------------------------------------------------------- *)

(** Induction on JSON values with the hypothesis available for every
    element of an array and every value of an object. *)
Lemma JSON_nested_ind (P : JSON -> Prop) :
  P JNull ->
  (forall b, P (JBool b)) ->
  (forall n, P (JNum n)) ->
  (forall s, P (JStr s)) ->
  (forall items, Forall P items -> P (JArr items)) ->
  (forall es, Forall (fun e => P (snd e)) es -> P (JObj es)) ->
  forall v, P v.
Proof.
  intros Hnull Hbool Hnum Hstr Harr Hobj.
  fix IH 1. intros [ | b | n | s | items | es ].
  - exact Hnull.
  - apply Hbool.
  - apply Hnum.
  - apply Hstr.
  - apply Harr. induction items as [ | x items IHitems ].
    + constructor.
    + constructor; [ apply IH | exact IHitems ].
  - apply Hobj. induction es as [ | [k x] es IHes ].
    + constructor.
    + constructor; [ apply IH | exact IHes ].
Qed.

Section Redaction.
Context `{Platform}.

Lemma lookup_map_values {A B : Type} (f : A -> B) (k : string)
  (l : list (string * A)) :
  Js.lookup k (map (fun e => (fst e, f (snd e))) l) = option_map f (Js.lookup k l).
Proof.
  induction l as [ | [k' v] l IH ]; simpl; [ reflexivity | ].
  destruct (String.eqb k k'); [ reflexivity | exact IH ].
Qed.

Lemma set_set {A : Type} (k : string) (v v' : A) (l : list (string * A)) :
  Js.set k v (Js.set k v' l) = Js.set k v l.
Proof.
  induction l as [ | [k' x] l IH ]; simpl.
  - now rewrite String.eqb_refl.
  - destruct (String.eqb k k') eqn:E; simpl; rewrite E; [ reflexivity | ].
    now rewrite IH.
Qed.

(** The logged headers do not depend on the Authorization value. *)
Lemma loggedHeaders_hides (a : string) (hs : list (string * string)) :
  Utils.loggedHeaders (Js.set "Authorization" a hs)
  = json_of_headers (Js.set "Authorization" "[REDACTED]" hs).
Proof.
  unfold Utils.loggedHeaders, Js.spread. simpl. now rewrite set_set.
Qed.

Lemma loggedHeaders_redacted (a : string) (hs : list (string * string)) :
  Js.prop (Utils.loggedHeaders (Js.set "Authorization" a hs)) "Authorization"
  = Some (JStr "[REDACTED]").
Proof.
  rewrite loggedHeaders_hides. unfold json_of_headers. simpl.
  now rewrite lookup_map_values, lookup_set_same.
Qed.

(** The replacer takes for sensitive the keys that name a secret. *)
Lemma names_secret_sensitive (key : string) :
  Spec.names_secret key = Utils.sensitive key.
Proof.
  unfold Spec.names_secret, Utils.sensitive. simpl.
  now rewrite orb_false_r, orb_assoc.
Qed.

(** The tree serialised by the replacer has no sensitive field left. *)
Lemma sanitize_redacted (value : JSON) :
  forall key, Spec.fields_redacted (Utils.sanitize key value) = true.
Proof.
  induction value as [ | b | n | s | items IH | es IH ] using JSON_nested_ind;
    intros key; simpl; destruct (Utils.sensitive key); try reflexivity.
  - simpl. generalize 0%nat as i.
    induction IH as [ | x items Hx _ IHitems ]; intros i; simpl.
    + reflexivity.
    + rewrite Hx. simpl. apply IHitems.
  - simpl. induction IH as [ | [k x] es Hx _ IHes ]; simpl.
    + reflexivity.
    + rewrite IHes, andb_true_r, names_secret_sensitive.
      destruct (Utils.sensitive k) eqn:Ek.
      * simpl in Hx. specialize (Hx k).
        unfold Utils.sanitize. destruct x; rewrite Ek; reflexivity.
      * apply Hx.
Qed.

Lemma loggedBody_redacted (responseBody : JSON) :
  Spec.body_redacted (Utils.loggedBody responseBody).
Proof.
  unfold Spec.body_redacted, Utils.loggedBody. intros v.
  destruct (Js.typeof_object responseBody); [ | discriminate ].
  intros E. inversion E. apply sanitize_redacted.
Qed.

Lemma written_app (st : State) (rs : list Request) (lines : list LogLine) :
  Spec.written st (mkState rs (logged st ++ lines)%list) = lines.
Proof.
  unfold Spec.written. simpl.
  rewrite skipn_app, skipn_all, Nat.sub_diag. reflexivity.
Qed.

Lemma begin_lines_headers (cfg : Config) (path : string)
  (options : Utils.RequestOptions) :
  filter Spec.is_headers_line (Spec.begin_lines cfg path options)
  = [Spec.headers_line cfg options].
Proof.
  unfold Spec.begin_lines, Spec.auth_line.
  destruct (Str.includes _ _); destruct (Utils.body_of options); reflexivity.
Qed.

Lemma settle_lines_no_headers (w : World) (p : Utils.Pending) :
  filter Spec.is_headers_line (Spec.settle_lines w p) = [].
Proof.
  assert (Hall : Forall (fun l => Spec.is_headers_line l = false)
                   (Spec.settle_lines w p)).
  { apply Run.settle_lines_Forall; try reflexivity.
    intros b. unfold Utils.loggedBody.
    destruct (Js.typeof_object b); reflexivity. }
  induction Hall as [ | l ls Hl _ IH ]; simpl; [ reflexivity | ].
  now rewrite Hl.
Qed.

Lemma headers_line_hides_token (cfg cfg' : Config) (options : Utils.RequestOptions) :
  Spec.headers_line cfg options = Spec.headers_line cfg' options.
Proof.
  unfold Spec.headers_line. now rewrite !loggedHeaders_hides.
Qed.

(** The two redactions the request helper does make.  Of the lines a
    request writes to the log (under a loaded configuration), the headers
    line shows Authorization as [[REDACTED]], and a response body logged
    as JSON has every field whose key names a secret, at any depth,
    replaced by [[REDACTED]]; there is exactly one headers line and it is
    the same for two runs that differ in the token (and in anything the
    world answers). *)
Theorem log_redaction
  (cfg : Config) (w : World) (path : string) (options : Utils.RequestOptions)
  (st : State) :
  config_loaded cfg ->
  let lines := Spec.written st (snd (Utils.jiraRequest cfg w path options st)) in
  Forall Spec.headers_redacted lines
  /\ Forall Spec.body_redacted lines
  /\ (exists v, filter Spec.is_headers_line lines = [LineJSON "Headers: " v])
  /\ forall (token' : string) (w' : World) (st' : State),
       token' <> EmptyString ->
       let cfg' := mkConfig (apiBaseUrl cfg) (logFile cfg) (auth_email cfg) token' in
       filter Spec.is_headers_line
         (Spec.written st' (snd (Utils.jiraRequest cfg' w' path options st')))
       = filter Spec.is_headers_line lines.
Proof.
  intros Hcfg lines. unfold lines.
  rewrite (Run.jiraRequest_run cfg w path options st Hcfg).
  cbn [snd]. rewrite written_app.
  split; [ | split; [ | split ] ].
  - apply Forall_app. split.
    + unfold Spec.begin_lines, Spec.auth_line, Spec.headers_line.
      destruct (Str.includes _ _); destruct (Utils.body_of options);
        repeat constructor; intros v E; inversion E;
        apply loggedHeaders_redacted.
    + apply Run.settle_lines_Forall.
      * intros text v E. discriminate.
      * intros v v' E. discriminate.
      * intros b v E. unfold Utils.loggedBody in E.
        destruct (Js.typeof_object b); discriminate.
  - apply Forall_app. split.
    + unfold Spec.begin_lines, Spec.auth_line, Spec.headers_line.
      destruct (Str.includes _ _); destruct (Utils.body_of options);
        repeat constructor; intros v E; discriminate.
    + apply Run.settle_lines_Forall.
      * intros text v E. discriminate.
      * intros v v' E. discriminate.
      * apply loggedBody_redacted.
  - rewrite filter_app, begin_lines_headers, settle_lines_no_headers.
    eexists. reflexivity.
  - intros token' w' st' Htoken. cbv zeta.
    set (cfg' := mkConfig (apiBaseUrl cfg) (logFile cfg) (auth_email cfg) token').
    assert (Hcfg' : config_loaded cfg').
    { destruct Hcfg as [He _]. split; [ exact He | exact Htoken ]. }
    rewrite (Run.jiraRequest_run cfg' w' path options st' Hcfg').
    cbn [snd]. rewrite written_app.
    rewrite !filter_app, !begin_lines_headers, !settle_lines_no_headers.
    now rewrite (headers_line_hides_token cfg' cfg).
Qed.

End Redaction.

Section RedactionRuns.
#[local] Existing Instance Sample.platform.

(** A run of [log_redaction]. *)
Lemma log_redaction_run :
  config_loaded Sample.cfg
  /\ Forall Spec.body_redacted
       (Spec.written initial
          (snd (Utils.jiraRequest Sample.cfg
                  (Sample.world_of (fun _ => Sample.ok_with Sample.login_body))
                  "myself" Utils.noOptions initial))).
Proof.
  assert (Hcfg : config_loaded Sample.cfg) by (split; discriminate).
  split; [ exact Hcfg | ].
  exact (proj1 (proj2
           (log_redaction Sample.cfg
              (Sample.world_of (fun _ => Sample.ok_with Sample.login_body))
              "myself" Utils.noOptions initial Hcfg))).
Defined.

Example response_body_line :
  Utils.loggedBody Sample.login_body
  = LineJSON "Response body: "
      (JObj [("user", JStr "ada");
             ("session", JObj [("Token", JStr "[REDACTED]"); ("ttl", JNum 60)])]).
Proof. reflexivity. Qed.

(** The request helper logs the body of a request as it is. *)
Example request_body_line :
  In (LineJSON "Request body: " Sample.credentials)
     (logged (snd (Utils.jiraRequest Sample.cfg Sample.all_ok "session"
                     (Utils.mkOptions (Some "POST") (Some Sample.credentials) [])
                     initial)))
  /\ Js.prop Sample.credentials "password" = Some (JStr "hunter2")
  /\ Spec.fields_redacted Sample.credentials = false.
Proof.
  split; [ | repeat split ].
  vm_compute. do 4 right. left. reflexivity.
Qed.

(** C5.  Not everything the request helper writes to the log has its
    sensitive fields redacted.  [createJiraIssue] is called with fields
    that hold a [password]; the request helper writes the request body to
    the log with the value of that field in clear, so the lines of the
    run are not all redacted.  The same value logged as a response body
    has the field replaced by [[REDACTED]]: the redaction of the response
    body is missing from the line of the request body. *)
Theorem request_body_logged_in_clear :
  let lines :=
    Spec.written initial
      (snd (MoreOps.createJiraIssue Sample.cfg Sample.all_ok
              MoreSample.issue_with_password initial)) in
  In (LineJSON "Request body: " (JObj MoreSample.issue_with_password)) lines
  /\ MoreOps.chained (Js.prop (JObj MoreSample.issue_with_password) "fields")
       "password"
     = Some (JStr "hunter2")
  /\ Spec.line_redacted
       (LineJSON "Request body: " (JObj MoreSample.issue_with_password))
     = false
  /\ forallb Spec.line_redacted lines = false
  /\ Utils.loggedBody (JObj MoreSample.issue_with_password)
     = LineJSON "Response body: "
         (JObj [("fields",
                 JObj [("project", JObj [("key", JStr "AIF")]);
                       ("summary", JStr "Rotate the deploy account");
                       ("issuetype", JObj [("name", JStr "Task")]);
                       ("password", JStr "[REDACTED]")])]).
Proof.
  cbv zeta. split.
  - vm_compute. do 4 right. left. reflexivity.
  - split; [ reflexivity | ]. split; [ reflexivity | ].
    split; reflexivity.
Qed.

End RedactionRuns.

(* --------------------------------------------------------------------- *)
(** ** C1: the status transition and its comment                         *)
(* --------------------------------------------------------------------- *)

Section Transition.
Context `{Platform}.
Variable cfg : Config.
Variable w : World.
Hypothesis loaded : config_loaded cfg.

Lemma transition_body_shape (transitionId : JSON) (resolution : option string)
  (additionalFields : option (list (string * JSON))) :
  Ops.createTransitionRequestBody transitionId resolution additionalFields
  = Spec.transition_body transitionId resolution additionalFields.
Proof.
  destruct resolution, additionalFields; reflexivity.
Qed.

(** [addJiraComment] makes one request and never throws. *)
Lemma addJiraComment_run (issueIdOrKey : string) (comment : Ops.CommentBody)
  (st : State) :
  exists reply st',
    Ops.addJiraComment cfg w issueIdOrKey comment st = (Ok reply, st')
    /\ requests st'
       = (requests st
          ++ [Spec.request_of cfg ("issue/" ++ issueIdOrKey ++ "/comment")
                (Utils.mkOptions (Some "POST")
                   (Some (Ops.json_of_comment comment)) [])])%list
    /\ (Ops.success reply = false -> exists m, Ops.message reply = Some m).
Proof.
  unfold Ops.addJiraComment, try_catch, bind.
  rewrite (Run.jiraRequest_run cfg w _ _ st loaded).
  destruct (Spec.outcome_of _ _) as [ response | e ].
  - eexists _, _. split; [ reflexivity | ]. split; [ reflexivity | ].
    discriminate.
  - eexists _, _. split; [ reflexivity | ]. split; [ reflexivity | ].
    intros _. eexists. reflexivity.
Qed.

(** C1, as amended.  [transitionJiraStatus] first POSTs to the
    transitions endpoint a body that holds the transition id and, when
    given, the resolution and additional fields, and never the comment.
    If that request fails, nothing else is sent and the result is a
    failure.  If it succeeds, the result is a success whatever happens to
    the comment, and a second request, the POST of the comment, is made
    exactly when the comment is a non-empty string. *)
Theorem transition_then_comment
  (params : Ops.TransitionJiraStatusRequest) (st : State) :
  let post := Spec.request_of_call cfg (Spec.transition_call params) in
  let answer :=
    Spec.outcome_of w
      (Spec.pending_of cfg w (List.length (requests st))
         (fst (Spec.transition_call params)) (snd (Spec.transition_call params))) in
  req_method post = "POST"
  /\ req_body post
     = Some (Spec.transition_body (Ops.t_transitionId params)
               (Ops.t_resolution params) (Ops.t_fields params))
  /\ exists result st',
       Ops.transitionJiraStatus cfg w params st = (Ok result, st')
       /\ match answer with
          | Throw e =>
              requests st' = (requests st ++ [post])%list
              /\ Ops.op_success result = false
          | Ok response =>
              Ops.op_success result = true
              /\ match Ops.t_comment params with
                 | Some comment =>
                     if Str.nonempty comment then
                       requests st'
                       = (requests st
                          ++ [post;
                              Spec.request_of_call cfg
                                (Spec.comment_call (Ops.t_issueIdOrKey params)
                                   comment)])%list
                     else requests st' = (requests st ++ [post])%list
                 | None => requests st' = (requests st ++ [post])%list
                 end
          end.
Proof.
  intros post answer.
  split; [ reflexivity | ]. split.
  { unfold post, Spec.request_of_call, Spec.transition_call, Spec.request_of.
    cbn [fst snd req_body Utils.body_of Utils.opt_body].
    rewrite transition_body_shape. reflexivity. }
  unfold Ops.transitionJiraStatus, try_catch at 1, bind at 1.
  rewrite (Run.jiraRequest_run cfg w _ _ st loaded).
  fold (Spec.transition_call params) in *.
  unfold answer, post, Spec.request_of_call, Spec.transition_call.
  cbn [fst snd].
  destruct (Spec.outcome_of _ _) as [ response | e ].
  - destruct (Ops.t_comment params) as [ comment | ].
    + destruct (Str.nonempty comment) eqn:Ecomment.
      * unfold bind at 1, try_catch at 1, bind at 1.
        match goal with
        | |- context [Ops.addJiraComment cfg w ?k ?c ?s] =>
            destruct (addJiraComment_run k c s) as (reply & st2 & Hrun & Hreqs & _);
            rewrite Hrun
        end.
        destruct (Ops.success reply);
          eexists _, _; (split; [ reflexivity | ]);
          (split; [ reflexivity | ]);
          rewrite Hreqs, requests_mkState, <- app_assoc; reflexivity.
      * eexists _, _. split; [ reflexivity | ]. split; reflexivity.
    + eexists _, _. split; [ reflexivity | ]. split; reflexivity.
  - eexists _, _. split; [ reflexivity | ]. split; reflexivity.
Qed.

End Transition.

Section TransitionRuns.
#[local] Existing Instance Sample.platform.

(** A run of the theorem: the transition succeeds, the comment is
    refused, and the result is still a success. *)
Lemma transition_then_comment_witness :
  config_loaded Sample.cfg
  /\ exists result st',
       Ops.transitionJiraStatus Sample.cfg Sample.comment_refused
         (Ops.mkTransitionRequest "AIF-17" (JStr "31") (Some "done")
            (Some "Fixed") None) initial
       = (Ok result, st')
       /\ Ops.op_success result = true
       /\ List.length (requests st') = 2%nat.
Proof.
  assert (Hcfg : config_loaded Sample.cfg) by (split; discriminate).
  split; [ exact Hcfg | ].
  destruct (transition_then_comment Sample.cfg Sample.comment_refused Hcfg
              (Ops.mkTransitionRequest "AIF-17" (JStr "31") (Some "done")
                 (Some "Fixed") None) initial)
    as (_ & _ & result & st' & Hrun & Hrest).
  exists result, st'. split; [ exact Hrun | ].
  vm_compute in Hrest. destruct Hrest as [Hok Hreqs].
  split; [ exact Hok | ]. unfold requests. rewrite Hreqs. reflexivity.
Defined.

(** C1 fails as stated: a comment string is supplied, the empty one, the
    transition succeeds, and no comment request is made. *)
Lemma transition_empty_comment_counterexample :
  Ops.t_comment (Ops.mkTransitionRequest "AIF-17" (JStr "31")
                   (Some EmptyString) None None) = Some EmptyString
  /\ map req_url
       (requests
          (snd (Ops.transitionJiraStatus Sample.cfg Sample.all_ok
                  (Ops.mkTransitionRequest "AIF-17" (JStr "31")
                     (Some EmptyString) None None) initial)))
     = ["https://jira.example.com/rest/api/2/issue/AIF-17/transitions"]
  /\ option_map Ops.op_success
       (match fst (Ops.transitionJiraStatus Sample.cfg Sample.all_ok
                     (Ops.mkTransitionRequest "AIF-17" (JStr "31")
                        (Some EmptyString) None None) initial) with
        | Ok result => Some result
        | Throw _ => None
        end)
     = Some true.
Proof. repeat split. Qed.

End TransitionRuns.

(* --------------------------------------------------------------------- *)
(** ** Requests are only ever added                                      *)
(* --------------------------------------------------------------------- *)

Module Trace.
Import Utils Spec.
Section WithPlatform.
Context `{Platform}.
Variable cfg : Config.
Variable w : World.

Lemma Appends_ret {A : Type} (a : A) : Appends (ret a).
Proof. intros st. exists []. simpl. now rewrite app_nil_r. Qed.

Lemma Appends_throw {A : Type} (e : JsError) : Appends (@throw A e).
Proof. intros st. exists []. simpl. now rewrite app_nil_r. Qed.

Lemma Appends_lift {A : Type} (x : Exn A) : Appends (lift x).
Proof. intros st. exists []. simpl. now rewrite app_nil_r. Qed.

Lemma Appends_logToFile (l : LogLine) : Appends (logToFile l).
Proof. intros st. exists []. simpl. now rewrite app_nil_r. Qed.

Lemma Appends_bind {A B : Type} (m : M A) (k : A -> M B) :
  Appends m -> (forall a, Appends (k a)) -> Appends (bind m k).
Proof.
  intros Hm Hk st. unfold bind.
  destruct (Hm st) as (rs & Hrs). destruct (m st) as [[a | e] st1]; simpl in Hrs.
  - destruct (Hk a st1) as (rs' & Hrs'). exists (rs ++ rs')%list.
    now rewrite Hrs', Hrs, app_assoc.
  - exists rs. exact Hrs.
Qed.

Lemma Appends_try_catch {A : Type} (m : M A) (h : JsError -> M A) :
  Appends m -> (forall e, Appends (h e)) -> Appends (try_catch m h).
Proof.
  intros Hm Hh st. unfold try_catch.
  destruct (Hm st) as (rs & Hrs). destruct (m st) as [[a | e] st1]; simpl in Hrs.
  - exists rs. exact Hrs.
  - destruct (Hh e st1) as (rs' & Hrs'). exists (rs ++ rs')%list.
    now rewrite Hrs', Hrs, app_assoc.
Qed.

Lemma Appends_do_fetch (req : Request) : Appends (do_fetch w req).
Proof. intros st. exists [req]. reflexivity. Qed.

Lemma Appends_settle (p : Pending) : Appends (jiraRequest_settle w p).
Proof.
  intros st. exists []. rewrite Run.settle_run. simpl. now rewrite app_nil_r.
Qed.

Ltac appends :=
  repeat first
    [ apply Appends_bind; [ | intro ]
    | apply Appends_try_catch; [ | intro ]
    | apply Appends_ret
    | apply Appends_throw
    | apply Appends_lift
    | apply Appends_logToFile
    | apply Appends_do_fetch
    | apply Appends_settle
    | assumption
    | match goal with
      | |- Appends (if ?b then _ else _) => destruct b
      | |- Appends (match ?x with _ => _ end) => destruct x
      end ].

Lemma Appends_begin (path : string) (options : RequestOptions) :
  Appends (jiraRequest_begin cfg w path options).
Proof. unfold jiraRequest_begin, constructAuthHeader. appends. Qed.

Lemma Appends_jiraRequest (path : string) (options : RequestOptions) :
  Appends (jiraRequest cfg w path options).
Proof.
  unfold jiraRequest. apply Appends_bind; [ apply Appends_begin | intro ].
  apply Appends_settle.
Qed.

Lemma Appends_start_all (calls : list (string * RequestOptions)) :
  Appends (start_all cfg w calls).
Proof.
  induction calls as [ | c calls IH ]; simpl; [ apply Appends_ret | ].
  apply Appends_bind.
  - unfold start. apply Appends_try_catch; [ | intro; apply Appends_ret ].
    apply Appends_bind; [ apply Appends_begin | intro; apply Appends_ret ].
  - intro. apply Appends_bind; [ exact IH | intro; apply Appends_ret ].
Qed.

Lemma Appends_settle_all (ps : list (nat * Pending)) :
  Appends (settle_all w ps).
Proof.
  induction ps as [ | [i p] ps IH ]; simpl; [ apply Appends_ret | ].
  intros st. rewrite Run.settle_run.
  destruct (Appends_bind (settle_all w ps)
              (fun rs => ret ((i, outcome_of w p) :: rs)) IH
              (fun _ => Appends_ret _)
              (mkState (requests st) (logged st ++ settle_lines w p)%list))
    as (rs & Hrs).
  exists rs. exact Hrs.
Qed.

Lemma Appends_jiraRequest_all (calls : list (string * RequestOptions)) :
  Appends (jiraRequest_all cfg w calls).
Proof.
  unfold jiraRequest_all.
  apply Appends_bind; [ apply Appends_start_all | intro ].
  apply Appends_bind; [ apply Appends_settle_all | intro ].
  appends.
Qed.

Lemma Appends_addJiraComment (issueIdOrKey : string) (comment : Ops.CommentBody) :
  Appends (Ops.addJiraComment cfg w issueIdOrKey comment).
Proof.
  unfold Ops.addJiraComment.
  apply Appends_try_catch; [ | intro; apply Appends_ret ].
  apply Appends_bind; [ apply Appends_jiraRequest | intro; apply Appends_ret ].
Qed.

Lemma Appends_transitionJiraStatus (params : Ops.TransitionJiraStatusRequest) :
  Appends (Ops.transitionJiraStatus cfg w params).
Proof.
  unfold Ops.transitionJiraStatus.
  apply Appends_try_catch; [ | intro; apply Appends_ret ].
  apply Appends_bind; [ apply Appends_jiraRequest | intro ].
  apply Appends_bind; [ | intro; apply Appends_ret ].
  destruct (Ops.t_comment params) as [ comment | ]; [ | apply Appends_ret ].
  destruct (Str.nonempty comment); [ | apply Appends_ret ].
  apply Appends_try_catch; [ | intro; apply Appends_ret ].
  apply Appends_bind; [ apply Appends_addJiraComment | intro ].
  appends.
Qed.

Lemma Appends_transitionJiraStatusByName (issueIdOrKey statusName : string)
  (comment resolution : option string)
  (additionalFields : option (list (string * JSON))) :
  Appends (Ops.transitionJiraStatusByName cfg w issueIdOrKey statusName comment
             resolution additionalFields).
Proof.
  unfold Ops.transitionJiraStatusByName.
  apply Appends_try_catch; [ | intro; apply Appends_ret ].
  apply Appends_bind; [ apply Appends_jiraRequest | intro ].
  apply Appends_bind; [ apply Appends_lift | intro ].
  apply Appends_bind; [ apply Appends_lift | intro ].
  destruct (negb _).
  - appends.
  - apply Appends_transitionJiraStatus.
Qed.

End WithPlatform.
End Trace.

(* --------------------------------------------------------------------- *)
(** ** C8: search by issue key                                           *)
(* --------------------------------------------------------------------- *)

Section IssueKey.

Lemma drop_while_split (p : ascii -> bool) (s : string) :
  exists pre, s = pre ++ Ops.drop_while p s /\ Str.all_chars p pre = true.
Proof.
  induction s as [ | c s IH ]; simpl.
  - exists EmptyString. split; reflexivity.
  - destruct (p c) eqn:E.
    + destruct IH as (pre & Hs & Hpre). exists (String c pre). simpl.
      rewrite E, Hpre. split; [ now rewrite <- Hs | reflexivity ].
    + exists EmptyString. split; reflexivity.
Qed.

Lemma drop_while_prefix (p : ascii -> bool) (pre : string) (c : ascii)
  (rest : string) :
  Str.all_chars p pre = true -> p c = false ->
  Ops.drop_while p (pre ++ String c rest) = String c rest.
Proof.
  intros Hpre Hc. induction pre as [ | a pre IH ]; simpl.
  - now rewrite Hc.
  - simpl in Hpre. apply andb_prop in Hpre. destruct Hpre as [ Ha Hpre ].
    rewrite Ha. now apply IH.
Qed.

(** [looksLikeIssueKey] accepts exactly the strings matched by
    [^[A-Z]+-\d+$]: one or more capital letters, a hyphen, one or more
    digits, and nothing else. *)
Lemma looksLikeIssueKey_shape (s : string) :
  Ops.looksLikeIssueKey s = true
  <-> exists letters digits,
        s = letters ++ "-" ++ digits
        /\ Str.nonempty letters = true /\ Str.all_chars Str.is_upper letters = true
        /\ Str.nonempty digits = true /\ Str.all_chars Str.is_digit digits = true.
Proof.
  unfold Ops.looksLikeIssueKey. split.
  - destruct s as [ | c s ]; [ discriminate | ].
    intros Hs. apply andb_prop in Hs. destruct Hs as [ Hc Hrest ].
    destruct (drop_while_split Str.is_upper (String c s)) as (pre & Hsplit & Hpre).
    destruct (Ops.drop_while Str.is_upper (String c s)) as [ | d digits ];
      [ discriminate | ].
    destruct (Ascii.eqb d "-"%char) eqn:Ed.
    + apply Ascii.eqb_eq in Ed. subst d.
      apply andb_prop in Hrest. destruct Hrest as [ Hne Hdigits ].
      exists pre, digits. repeat split; try assumption.
      destruct pre; [ | reflexivity ].
      simpl in Hsplit. inversion Hsplit; subst. discriminate.
    + destruct d as [[] [] [] [] [] [] [] []]; try discriminate Hrest.
      discriminate Ed.
  - intros (letters & digits & -> & Hne & Hup & Hdne & Hdig).
    destruct letters as [ | c letters ]; [ discriminate | ].
    change ((String c letters ++ "-" ++ digits)%string)
      with (String c (letters ++ String "-"%char digits)).
    simpl in Hup. apply andb_prop in Hup. destruct Hup as [ Hc Hup ].
    rewrite Hc. simpl Ops.drop_while. rewrite Hc.
    rewrite drop_while_prefix by (assumption || reflexivity).
    now rewrite Hdne, Hdig.
Qed.

End IssueKey.

Section Search.
Context `{Platform}.
Variable cfg : Config.
Variable w : World.
Hypothesis loaded : config_loaded cfg.


End Search.

Section SearchRuns.
#[local] Existing Instance Sample.platform.


Example search_falls_back :
  map req_url
      (requests (snd (Ops.searchJiraIssues Sample.cfg Sample.all_failing
                        (Ops.mkSearch "AIF-17" None (Some 5%Z) None None None None)
                        initial)))
  = ["https://jira.example.com/rest/api/2/issue/AIF-17";
     "https://jira.example.com/rest/api/2/search?jql=AIF-17&maxResults=5"].
Proof. reflexivity. Qed.

Example issue_key_shapes :
  map Ops.looksLikeIssueKey
      ["AIF-17"; "AIF-"; "-17"; "aIF-17"; "AIF-17 "; "A-B-1"; "project = AIF"]
  = [true; false; false; false; false; false; false].
Proof. reflexivity. Qed.

End SearchRuns.

(* --------------------------------------------------------------------- *)
(** ** C9: the labels of an update                                       *)
(* --------------------------------------------------------------------- *)

Section SetOf.

Lemma sameValueZero_eq (a b : JSON) : Js.sameValueZero a b = true -> a = b.
Proof.
  destruct a, b; simpl; try discriminate; intros E.
  - reflexivity.
  - apply Bool.eqb_prop in E. now subst.
  - apply Z.eqb_eq in E. now subst.
  - apply String.eqb_eq in E. now subst.
Qed.

Lemma sameValueZero_sym (a b : JSON) :
  Js.sameValueZero a b = Js.sameValueZero b a.
Proof.
  destruct a, b; simpl; try reflexivity.
  - destruct b, b0; reflexivity.
  - apply Z.eqb_sym.
  - apply String.eqb_sym.
Qed.

Lemma uniq_acc_subset (xs seen : list JSON) (x : JSON) :
  In x (Js.uniq_acc seen xs) -> In x xs.
Proof.
  revert seen. induction xs as [ | y xs IH ]; intros seen; simpl; [ trivial | ].
  destruct (existsb (Js.sameValueZero y) seen).
  - intros Hin. right. eapply IH. exact Hin.
  - intros [ Heq | Hin ]; [ now left | right; eapply IH; exact Hin ].
Qed.

Lemma uniq_acc_keeps (xs seen : list JSON) (x : JSON) :
  In x xs -> In x (Js.uniq_acc seen xs) \/ In x seen.
Proof.
  revert seen. induction xs as [ | y xs IH ]; intros seen; simpl; [ tauto | ].
  intros [ Heq | Hin ].
  - subst y. destruct (existsb (Js.sameValueZero x) seen) eqn:E.
    + apply existsb_exists in E. destruct E as (s & Hs & Hsame).
      apply sameValueZero_eq in Hsame. subst s. now right.
    + left. now left.
  - destruct (existsb (Js.sameValueZero y) seen).
    + apply IH. exact Hin.
    + destruct (IH (y :: seen) Hin) as [ Hres | [ Heq | Hseen ] ].
      * left. now right.
      * left. now left.
      * now right.
Qed.

Lemma uniq_acc_fresh (xs seen : list JSON) (x s : JSON) :
  In x (Js.uniq_acc seen xs) -> In s seen -> Js.sameValueZero x s = false.
Proof.
  revert seen. induction xs as [ | y xs IH ]; intros seen; simpl; [ tauto | ].
  destruct (existsb (Js.sameValueZero y) seen) eqn:E.
  - apply IH.
  - intros [ Heq | Hin ] Hs.
    + subst y. destruct (Js.sameValueZero x s) eqn:Exs; [ | reflexivity ].
      assert (existsb (Js.sameValueZero x) seen = true)
        by (apply existsb_exists; eauto).
      congruence.
    + apply (IH (y :: seen)); [ exact Hin | now right ].
Qed.

Lemma uniq_acc_distinct (xs seen : list JSON) :
  Spec.distinct (Js.uniq_acc seen xs).
Proof.
  revert seen. induction xs as [ | y xs IH ]; intros seen; simpl.
  - constructor.
  - destruct (existsb (Js.sameValueZero y) seen); [ apply IH | ].
    constructor; [ | apply IH ].
    apply Forall_forall. intros x Hx.
    rewrite sameValueZero_sym.
    apply (uniq_acc_fresh xs (y :: seen)); [ exact Hx | now left ].
Qed.

(** [[...new Set(xs)]] has the same members as [xs], each once. *)
Lemma setOf_members (xs : list JSON) (x : JSON) :
  In x (Js.setOf xs) <-> In x xs.
Proof.
  unfold Js.setOf. split.
  - apply uniq_acc_subset.
  - intros Hin. destruct (uniq_acc_keeps xs [] x Hin) as [ Hres | [] ].
    exact Hres.
Qed.

(** The set of a list of strings is a list of strings. *)
Lemma uniq_acc_strings (xs : list string) (seen : list JSON) :
  exists merged, Js.uniq_acc seen (map JStr xs) = map JStr merged.
Proof.
  revert seen. induction xs as [ | x xs IH ]; intros seen.
  - now exists [].
  - cbn [map Js.uniq_acc].
    destruct (existsb (Js.sameValueZero (JStr x)) seen).
    + apply IH.
    + destruct (IH (JStr x :: seen)) as (merged & Hm).
      exists (x :: merged). now rewrite Hm.
Qed.

Lemma setOf_strings (xs : list string) :
  exists merged, Js.setOf (map JStr xs) = map JStr merged.
Proof. apply uniq_acc_strings. Qed.

Lemma distinct_strings_NoDup (xs : list JSON) :
  Spec.distinct xs -> (forall x, In x xs -> exists s, x = JStr s) -> NoDup xs.
Proof.
  induction 1 as [ | x xs Hx Hxs IH ]; intros Hstr; constructor.
  - intros Hin. destruct (Hstr x (or_introl eq_refl)) as (s & ->).
    rewrite Forall_forall in Hx. specialize (Hx _ Hin).
    simpl in Hx. now rewrite String.eqb_refl in Hx.
  - apply IH. intros y Hy. apply Hstr. now right.
Qed.

End SetOf.

Section Labels.
Context `{Platform}.
Variable cfg : Config.
Variable w : World.
Hypothesis loaded : config_loaded cfg.

Lemma lookup_delete_other {A : Type} (k k' : string) (l : list (string * A)) :
  String.eqb k' k = false -> Js.lookup k (Js.delete k' l) = Js.lookup k l.
Proof.
  intros Hne. unfold Js.delete.
  induction l as [ | [k0 v] l IH ]; simpl; [ reflexivity | ].
  destruct (String.eqb k' k0) eqn:E0; simpl.
  - apply String.eqb_eq in E0. subst k0.
    rewrite String.eqb_sym, Hne. exact IH.
  - destruct (String.eqb k k0); [ reflexivity | exact IH ].
Qed.

(** The object sent as [fields] always has a [labels] property: the
    merged list. *)
Lemma fieldsWithoutStatus_labels (fields : option Ops.UpdateFields)
  (existing : list JSON) :
  Js.lookup "labels" (Ops.fieldsWithoutStatus_of fields existing)
  = Some (JArr (Js.setOf (existing ++ Ops.newLabels_of fields)%list)).
Proof.
  unfold Ops.fieldsWithoutStatus_of.
  destruct (Ops.statusField_of fields).
  - rewrite lookup_delete_other by reflexivity. apply lookup_set_same.
  - apply lookup_set_same.
Qed.

Lemma fieldsWithoutStatus_has_keys (fields : option Ops.UpdateFields)
  (existing : list JSON) :
  Ops.has_keys (Ops.fieldsWithoutStatus_of fields existing) = true.
Proof.
  pose proof (fieldsWithoutStatus_labels fields existing) as Hl.
  destruct (Ops.fieldsWithoutStatus_of fields existing); [ discriminate | ].
  reflexivity.
Qed.

(** *** How [updateJiraIssue] runs, phase by phase *)

Lemma update_get_fails (params : Ops.UpdateJiraIssueRequest) (st st1 : State)
  (e : JsError) :
  Utils.jiraRequest cfg w (fst (Spec.labels_call (Ops.u_issueIdOrKey params)))
    (snd (Spec.labels_call (Ops.u_issueIdOrKey params))) st = (Throw e, st1) ->
  Ops.updateJiraIssue cfg w params st
  = (Ok (Ops.handleOperationError e "updating issue"), st1).
Proof.
  intros Hget. unfold Ops.updateJiraIssue, try_catch, bind.
  cbn [fst snd Spec.labels_call] in Hget. rewrite Hget. reflexivity.
Qed.

Lemma update_labels_fail (params : Ops.UpdateJiraIssueRequest) (st st1 : State)
  (currentIssue : JSON) (e : JsError) :
  Utils.jiraRequest cfg w (fst (Spec.labels_call (Ops.u_issueIdOrKey params)))
    (snd (Spec.labels_call (Ops.u_issueIdOrKey params))) st
  = (Ok currentIssue, st1) ->
  Ops.existingLabelNames_of currentIssue = Throw e ->
  Ops.updateJiraIssue cfg w params st
  = (Ok (Ops.handleOperationError e "updating issue"), st1).
Proof.
  intros Hget Hnames. unfold Ops.updateJiraIssue, try_catch, bind, lift.
  cbn [fst snd Spec.labels_call] in Hget. rewrite Hget, Hnames. reflexivity.
Qed.

Lemma update_put_fails (params : Ops.UpdateJiraIssueRequest) (st st1 st2 : State)
  (currentIssue : JSON) (existing : list JSON) (e : JsError) :
  Utils.jiraRequest cfg w (fst (Spec.labels_call (Ops.u_issueIdOrKey params)))
    (snd (Spec.labels_call (Ops.u_issueIdOrKey params))) st
  = (Ok currentIssue, st1) ->
  Ops.existingLabelNames_of currentIssue = Ok existing ->
  Utils.jiraRequest cfg w (fst (Spec.put_call params existing))
    (snd (Spec.put_call params existing)) st1 = (Throw e, st2) ->
  Ops.updateJiraIssue cfg w params st
  = (Ok (Ops.handleOperationError e "updating issue"), st2).
Proof.
  intros Hget Hnames Hput. unfold Ops.updateJiraIssue, try_catch, bind, lift.
  cbn [fst snd Spec.labels_call] in Hget. rewrite Hget, Hnames.
  rewrite fieldsWithoutStatus_has_keys. cbn [orb].
  cbn [fst snd Spec.put_call] in Hput. rewrite Hput. reflexivity.
Qed.

Lemma update_after_put (params : Ops.UpdateJiraIssueRequest) (st st1 st2 : State)
  (currentIssue response : JSON) (existing : list JSON) :
  Utils.jiraRequest cfg w (fst (Spec.labels_call (Ops.u_issueIdOrKey params)))
    (snd (Spec.labels_call (Ops.u_issueIdOrKey params))) st
  = (Ok currentIssue, st1) ->
  Ops.existingLabelNames_of currentIssue = Ok existing ->
  Utils.jiraRequest cfg w (fst (Spec.put_call params existing))
    (snd (Spec.put_call params existing)) st1 = (Ok response, st2) ->
  Ops.updateJiraIssue cfg w params st
  = try_catch
      (bind (Spec.link_phase cfg w params) (fun _ => Spec.status_phase cfg w params))
      Spec.update_failed st2.
Proof.
  intros Hget Hnames Hput.
  unfold Ops.updateJiraIssue, try_catch at 1, bind at 1.
  cbn [fst snd Spec.labels_call] in Hget. rewrite Hget.
  unfold bind at 1, lift. rewrite Hnames.
  rewrite fieldsWithoutStatus_has_keys. cbn [orb].
  unfold bind at 1, bind at 1.
  cbn [fst snd Spec.put_call] in Hput. rewrite Hput.
  unfold ret at 1. reflexivity.
Qed.

Lemma Appends_after_put (params : Ops.UpdateJiraIssueRequest) :
  Spec.Appends
    (try_catch
       (bind (Spec.link_phase cfg w params) (fun _ => Spec.status_phase cfg w params))
       Spec.update_failed).
Proof.
  apply Trace.Appends_try_catch; [ | intro; apply Trace.Appends_ret ].
  apply Trace.Appends_bind.
  - unfold Spec.link_phase.
    destruct (Ops.u_linkedIssues params) as [ [ | link links ] | ];
      try apply Trace.Appends_ret.
    apply Trace.Appends_bind;
      [ apply Trace.Appends_jiraRequest_all | intro; apply Trace.Appends_ret ].
  - intros _. unfold Spec.status_phase.
    destruct (Ops.statusField_of (Ops.u_fields params));
      [ | apply Trace.Appends_ret ].
    apply Trace.Appends_bind;
      [ apply Trace.Appends_transitionJiraStatusByName | intro ].
    destruct (negb _); apply Trace.Appends_ret.
Qed.

(** The handler reads the names of the labels the issue has. *)
Lemma label_names_read (labels : list JSON) (names : list string) :
  map Spec.name_of_label labels = map Some names ->
  Ops.label_names labels = Ok (map JStr names).
Proof.
  revert names. induction labels as [ | label labels IH ]; intros names Hnames.
  - destruct names; [ reflexivity | discriminate ].
  - destruct names as [ | name names ]; [ discriminate | ].
    simpl in Hnames. injection Hnames as Hname Hrest.
    cbn [Ops.label_names map]. rewrite (IH names Hrest).
    destruct label as [ | b | n | s | items | es ]; try discriminate.
    + injection Hname as ->. reflexivity.
    + cbn [Spec.name_of_label] in Hname.
      cbn [Ops.label_name Js.prop].
      destruct (Js.lookup "name" es) as [ [ | | | s | | ] | ]; try discriminate.
      injection Hname as ->. destruct name; reflexivity.
Qed.

Lemma existingLabelNames_read (issue : JSON) (names : list string) :
  Spec.has_label_names issue names ->
  Ops.existingLabelNames_of issue = Ok (map JStr names).
Proof.
  intros (labels & Hlabels & Hnames).
  apply label_names_read in Hnames.
  destruct issue as [ | | | | | es ]; try discriminate.
  unfold Ops.existingLabelNames_of, Ops.existingLabels_of.
  cbn [Spec.labels_of_issue] in Hlabels. cbn [Js.prop].
  destruct (Js.lookup "fields" es) as [ [ | | | | | fields ] | ];
    try discriminate.
  - injection Hlabels as <-. exact Hnames.
  - cbn [Js.prop].
    destruct (Js.lookup "labels" fields) as [ [ | | | | items | ] | ];
      try discriminate; injection Hlabels as <-; exact Hnames.
  - injection Hlabels as <-. exact Hnames.
Qed.

Lemma newLabels_supplied (params : Ops.UpdateJiraIssueRequest) :
  Ops.newLabels_of (Ops.u_fields params) = map JStr (Spec.supplied_labels params).
Proof.
  unfold Ops.newLabels_of, Spec.supplied_labels.
  destruct (Ops.u_fields params) as [ f | ]; [ | reflexivity ].
  destruct (Ops.labels f); reflexivity.
Qed.

(** What [updateJiraIssue] sends once the labels are fetched and read. *)
Lemma update_sends_put (params : Ops.UpdateJiraIssueRequest) (st : State)
  (currentIssue : JSON) (existing : list JSON) :
  let call := Spec.labels_call (Ops.u_issueIdOrKey params) in
  Spec.outcome_of w
    (Spec.pending_of cfg w (List.length (requests st)) (fst call) (snd call))
  = Ok currentIssue ->
  Ops.existingLabelNames_of currentIssue = Ok existing ->
  exists rest,
    requests (snd (Ops.updateJiraIssue cfg w params st))
    = (requests st
       ++ Spec.request_of_call cfg call
          :: Spec.request_of_call cfg (Spec.put_call params existing) :: rest)%list.
Proof.
  intros call Hout Hnames.
  pose proof (Run.jiraRequest_run cfg w (fst call) (snd call) st loaded) as Hget.
  rewrite Hout in Hget.
  match type of Hget with _ = (_, ?s) => set (st1 := s) in * end.
  pose proof (Run.jiraRequest_run cfg w (fst (Spec.put_call params existing))
                (snd (Spec.put_call params existing)) st1 loaded) as Hput.
  match type of Hput with _ = (_, ?s) => set (st2 := s) in * end.
  destruct (Spec.outcome_of w _) as [ response | e ] in Hput.
  - rewrite (update_after_put _ _ _ _ _ _ _ Hget Hnames Hput).
    destruct (Appends_after_put params st2) as (rest & Hrest).
    exists rest. rewrite Hrest. unfold st2, st1.
    rewrite !requests_mkState, <- !app_assoc. reflexivity.
  - rewrite (update_put_fails _ _ _ _ _ _ _ Hget Hnames Hput).
    exists []. unfold st2, st1.
    rewrite !requests_mkState, <- !app_assoc. reflexivity.
Qed.

Lemma put_call_labels (params : Ops.UpdateJiraIssueRequest) (existing : list JSON) :
  Spec.labels_sent (Spec.request_of_call cfg (Spec.put_call params existing))
  = Some (JArr (Js.setOf
                  (existing ++ Ops.newLabels_of (Ops.u_fields params))%list)).
Proof.
  unfold Spec.labels_sent, Spec.request_of_call, Spec.put_call, Spec.request_of.
  cbn [fst snd req_body Utils.body_of Utils.opt_body Js.truthy Js.prop
       Js.lookup String.eqb Ascii.eqb Bool.eqb].
  apply fieldsWithoutStatus_labels.
Qed.

(** C9.  [updateJiraIssue] first fetches the labels of the issue.  When
    the fetched issue has labels with the names [names] (each label a
    string, or an object with that [name]), the next request is the PUT,
    and the [fields.labels] it carries is the list of those names
    followed by the labels the caller supplies (none if the caller gave
    none) with repetitions removed: every name of an existing label and
    every supplied label is in it, nothing else is, and none is there
    twice.  Whatever the fetched issue is, either no request follows the
    GET or the next one is a PUT whose [fields] has a [labels] list; and
    when the GET fails, nothing else is sent. *)
Theorem update_merges_labels (params : Ops.UpdateJiraIssueRequest) (st : State) :
  let n := List.length (requests st) in
  let fetch_labels := Spec.labels_call (Ops.u_issueIdOrKey params) in
  let get := Spec.request_of_call cfg fetch_labels in
  let supplied := Spec.supplied_labels params in
  let sent := requests (snd (Ops.updateJiraIssue cfg w params st)) in
  get = mkRequest
          (Spec.url_of cfg ("issue/" ++ Ops.u_issueIdOrKey params ++ "?fields=labels"))
          "GET" (req_headers get) None
  /\ match Spec.outcome_of w
             (Spec.pending_of cfg w n (fst fetch_labels) (snd fetch_labels)) with
     | Ok currentIssue =>
         (forall names,
            Spec.has_label_names currentIssue names ->
            exists put merged rest,
              sent = (requests st ++ get :: put :: rest)%list
              /\ req_method put = "PUT"
              /\ req_url put
                 = Spec.url_of cfg ("issue/" ++ Ops.u_issueIdOrKey params)
              /\ Spec.labels_sent put = Some (JArr (map JStr merged))
              /\ map JStr merged = Js.setOf (map JStr (names ++ supplied))
              /\ (forall name, In name names -> In name merged)
              /\ (forall label, In label supplied -> In label merged)
              /\ (forall label,
                    In label merged -> In label names \/ In label supplied)
              /\ NoDup merged)
         /\ (sent = (requests st ++ [get])%list
             \/ exists put labels rest,
                  sent = (requests st ++ get :: put :: rest)%list
                  /\ req_method put = "PUT"
                  /\ Spec.labels_sent put = Some (JArr labels))
     | Throw _ => sent = (requests st ++ [get])%list
     end.
Proof.
  intros n fetch_labels get supplied sent. subst supplied.
  split; [ reflexivity | ].
  pose proof (Run.jiraRequest_run cfg w (fst fetch_labels) (snd fetch_labels)
                st loaded) as Hget.
  fold n in Hget.
  destruct (Spec.outcome_of _ _) as [ currentIssue | e ] eqn:Hout.
  2: { unfold sent. rewrite (update_get_fails _ _ _ _ Hget). reflexivity. }
  split.
  - intros names Hnames. apply existingLabelNames_read in Hnames.
    destruct (update_sends_put params st currentIssue _ Hout Hnames)
      as (rest & Hsent).
    destruct (setOf_strings (names ++ Spec.supplied_labels params)) as (merged & Hmerged).
    exists (Spec.request_of_call cfg (Spec.put_call params (map JStr names))),
      merged, rest.
    split; [ exact Hsent | ]. split; [ reflexivity | ]. split; [ reflexivity | ].
    split.
    { rewrite put_call_labels, newLabels_supplied, <- map_app. now rewrite Hmerged. }
    split; [ symmetry; exact Hmerged | ].
    assert (Hin : forall label,
              In label merged
              <-> In label (names ++ Spec.supplied_labels params)%list).
    { intros label. split; intros Hl.
      - apply (in_map JStr) in Hl. rewrite <- Hmerged in Hl.
        apply setOf_members, in_map_iff in Hl.
        destruct Hl as (l' & E & Hl'). now injection E as <-.
      - apply (in_map JStr), setOf_members in Hl. rewrite Hmerged in Hl.
        apply in_map_iff in Hl. destruct Hl as (l' & E & Hl').
        now injection E as <-. }
    split; [ intros name Hn; apply Hin, in_or_app; now left | ].
    split; [ intros label Hl; apply Hin, in_or_app; now right | ].
    split; [ intros label Hl; apply in_app_or, Hin; exact Hl | ].
    apply (NoDup_map_inv JStr). rewrite <- Hmerged.
    apply distinct_strings_NoDup; [ apply uniq_acc_distinct | ].
    intros x Hx. rewrite Hmerged in Hx. apply in_map_iff in Hx.
    destruct Hx as (l & <- & _). now exists l.
  - destruct (Ops.existingLabelNames_of currentIssue) as [ existing | e ]
      eqn:Hnames.
    + right.
      destruct (update_sends_put params st currentIssue _ Hout Hnames)
        as (rest & Hsent).
      exists (Spec.request_of_call cfg (Spec.put_call params existing)).
      eexists. exists rest.
      split; [ exact Hsent | ]. split; [ reflexivity | ]. apply put_call_labels.
    + left. unfold sent. rewrite (update_labels_fail _ _ _ _ _ Hget Hnames).
      reflexivity.
Qed.

End Labels.

Section LabelsRuns.
#[local] Existing Instance Sample.platform.

(** A run of the theorem: the issue has the labels [backend] and
    [urgent], the caller supplies [urgent] and [new]. *)
Lemma update_merges_labels_witness :
  config_loaded Sample.cfg
  /\ Spec.has_label_names Sample.issue_with_labels ["backend"; "urgent"]
  /\ exists put rest,
       requests (snd (Ops.updateJiraIssue Sample.cfg Sample.labelled_issue
                        (Ops.mkUpdateRequest "AIF-17"
                           (Some (Ops.mkUpdateFields None None None None
                                    (Some ["urgent"; "new"]) None None None None
                                    None))
                           None None) initial))
       = (requests initial
          ++ Spec.request_of_call Sample.cfg (Spec.labels_call "AIF-17")
             :: put :: rest)%list
       /\ Spec.labels_sent put
          = Some (JArr [JStr "backend"; JStr "urgent"; JStr "new"]).
Proof.
  assert (Hcfg : config_loaded Sample.cfg) by (split; discriminate).
  assert (Hnames : Spec.has_label_names Sample.issue_with_labels
                     ["backend"; "urgent"]).
  { exists [JStr "backend"; JStr "urgent"]. split; reflexivity. }
  split; [ exact Hcfg | ]. split; [ exact Hnames | ].
  destruct (proj2
              (update_merges_labels Sample.cfg Sample.labelled_issue Hcfg
                 (Ops.mkUpdateRequest "AIF-17"
                    (Some (Ops.mkUpdateFields None None None None
                             (Some ["urgent"; "new"]) None None None None None))
                    None None) initial))
    as [Hmerge _].
  destruct (Hmerge ["backend"; "urgent"] Hnames)
    as (put & merged & rest & Hsent & _ & _ & Hlabels & Heq & _).
  exists put, rest. split; [ exact Hsent | ].
  rewrite Hlabels, Heq. reflexivity.
Defined.

End LabelsRuns.

(* --------------------------------------------------------------------- *)
(** ** C4: what a handler does when its HTTP call fails                  *)
(* --------------------------------------------------------------------- *)

Section Failures.
Context `{Platform}.
Variable cfg : Config.
Variable w : World.

(** A [try] whose [catch] returns a value never throws. *)
Lemma try_catch_returns {A : Type} (m : M A) (f : JsError -> A) (st : State) :
  exists a st', try_catch m (fun e => ret (f e)) st = (Ok a, st').
Proof.
  unfold try_catch, ret. destruct (m st) as [[a | e] st']; eauto.
Qed.

Lemma try_catch_caught {A : Type} (m : M A) (h : JsError -> M A)
  (st st' : State) (e : JsError) :
  m st = (Throw e, st') -> try_catch m h st = h e st'.
Proof. intros Hm. unfold try_catch. now rewrite Hm. Qed.

Lemma bind_thrown {A B : Type} (m : M A) (k : A -> M B)
  (st st' : State) (e : JsError) :
  m st = (Throw e, st') -> bind m k st = (Throw e, st').
Proof. intros Hm. unfold bind. now rewrite Hm. Qed.

Lemma try_catch_ok {A : Type} (m : M A) (h : JsError -> M A)
  (st st' : State) (a : A) :
  m st = (Ok a, st') -> try_catch m h st = (Ok a, st').
Proof. intros Hm. unfold try_catch. now rewrite Hm. Qed.

Lemma bind_ok {A B : Type} (m : M A) (k : A -> M B) (st st' : State) (a : A) :
  m st = (Ok a, st') -> bind m k st = k a st'.
Proof. intros Hm. unfold bind. now rewrite Hm. Qed.

Lemma append_assoc (a b c : string) : (a ++ b) ++ c = a ++ b ++ c.
Proof.
  induction a as [ | ch a IH ]; [ reflexivity | ].
  cbn [append]. now rewrite IH.
Qed.

Lemma prefix_append (a b : string) : String.prefix a (a ++ b) = true.
Proof.
  induction a as [ | c a IH ].
  - cbn [append]. destruct b; reflexivity.
  - cbn [append String.prefix]. destruct (ascii_dec c c) as [ _ | Hne ];
      [ exact IH | now destruct Hne ].
Qed.

Lemma prefix_self (a : string) : String.prefix a a = true.
Proof.
  induction a as [ | c a IH ]; [ reflexivity | ].
  cbn [String.prefix]. destruct (ascii_dec c c) as [ _ | Hne ];
    [ exact IH | now destruct Hne ].
Qed.

(** The run of a handler whose first step, inside a [try] whose [catch]
    builds the payload, is a request that fails. *)
Tactic Notation "first_request_fails" reference(handler) :=
  let st := fresh "st" in
  let e := fresh "e" in
  let st1 := fresh "st1" in
  let Hreq := fresh "Hreq" in
  intros st e st1 Hreq; cbn [fst snd] in Hreq; eexists;
  unfold handler;
  erewrite try_catch_caught by (apply bind_thrown; exact Hreq);
  repeat split.

(** Once its POST has succeeded, [transitionJiraStatus] reports a
    success. *)
Lemma transition_posted (params : Ops.TransitionJiraStatusRequest)
  (st st1 : State) (response : JSON) :
  Utils.jiraRequest cfg w (fst (Spec.transition_call params))
    (snd (Spec.transition_call params)) st = (Ok response, st1) ->
  exists result st',
    Ops.transitionJiraStatus cfg w params st = (Ok result, st')
    /\ Ops.op_success result = true.
Proof.
  intros Hpost. unfold Ops.transitionJiraStatus.
  cbn [fst snd Spec.transition_call] in Hpost.
  match goal with
  | |- exists _ _, try_catch (bind _ ?k) _ _ = _ /\ _ =>
      assert (Hrest : exists result st',
                k response st1 = (Ok result, st')
                /\ Ops.op_success result = true)
  end.
  { cbv beta.
    destruct (Ops.t_comment params) as [ comment | ].
    - destruct (Str.nonempty comment).
      + match goal with
        | |- exists _ _, bind (try_catch ?m (fun e => ret (@?f e))) _ _ = _ /\ _ =>
            destruct (try_catch_returns m f st1) as (outcome & st2 & Hcomment)
        end.
        eexists. eexists. erewrite bind_ok by exact Hcomment.
        split; reflexivity.
      + eexists. eexists. split; reflexivity.
    - eexists. eexists. split; reflexivity. }
  destruct Hrest as (result & st' & Hrun & Hsuccess).
  exists result, st'. split; [ | exact Hsuccess ].
  apply try_catch_ok. erewrite bind_ok by exact Hpost. exact Hrun.
Qed.

(** With a transition found, [transitionJiraStatusByName] returns what
    [transitionJiraStatus] returns. *)
Lemma byName_delegates (issueIdOrKey statusName : string)
  (comment resolution : option string)
  (additionalFields : option (list (string * JSON)))
  (st st1 : State) (response id : JSON) (transitions : list JSON) :
  Utils.jiraRequest cfg w ("issue/" ++ issueIdOrKey ++ "/transitions")
    Utils.noOptions st = (Ok response, st1) ->
  Ops.transitions_of response = Ok transitions ->
  Ops.findTransitionIdByStatusName transitions statusName = Ok (Some id) ->
  Js.truthy id = true ->
  Ops.transitionJiraStatusByName cfg w issueIdOrKey statusName comment resolution
    additionalFields st
  = Ops.transitionJiraStatus cfg w
      (Ops.mkTransitionRequest issueIdOrKey id comment resolution additionalFields)
      st1.
Proof.
  intros Hget Hts Hid Htruthy.
  unfold Ops.transitionJiraStatusByName, try_catch at 1, bind at 1.
  rewrite Hget. unfold bind at 1, lift at 1. rewrite Hts.
  unfold bind at 1, lift at 1. rewrite Hid.
  cbn [Js.truthy_opt]. rewrite Htruthy. cbn [negb].
  match goal with
  | |- match ?run with _ => _ end = _ =>
      destruct run as [[result | e] st2] eqn:Hrun; [ reflexivity | ]
  end.
  unfold Ops.transitionJiraStatus in Hrun.
  match type of Hrun with
  | try_catch ?m (fun e => ret (@?f e)) _ = _ =>
      destruct (try_catch_returns m f st1) as (result & st3 & Hreturns)
  end.
  rewrite Hreturns in Hrun. discriminate Hrun.
Qed.

(** Once the project is fetched, [getProjectConfig] reports a success. *)
Lemma project_fetched (params : MoreOps.GetProjectConfigRequest)
  (st st1 : State) (project : JSON) :
  Utils.jiraRequest cfg w (MoreOps.projectUrl (MoreOps.pc_projectKey params))
    Utils.noOptions st = (Ok project, st1) ->
  Js.truthy project && Js.typeof_object project = true ->
  exists result st',
    MoreOps.getProjectConfig cfg w params st = (Ok result, st')
    /\ MoreOps.pcr_success result = true
    /\ MoreOps.pcr_project result = Some (MoreOps.projectInfo project).
Proof.
  intros Hget Hobject. apply andb_prop in Hobject.
  destruct Hobject as [ Htruthy Htype ].
  unfold MoreOps.getProjectConfig.
  match goal with
  | |- exists _ _, try_catch (bind _ ?k) _ _ = _ /\ _ =>
      assert (Hrest : exists result st',
                k project st1 = (Ok result, st')
                /\ MoreOps.pcr_success result = true
                /\ MoreOps.pcr_project result
                   = Some (MoreOps.projectInfo project))
  end.
  { cbv beta. rewrite Htruthy, Htype. cbn [negb orb].
    unfold bind at 1, ret at 1.
    destruct (MoreOps.pc_includeMetadata params).
    - unfold try_catch, bind.
      destruct (MoreOps.collectMetadata cfg w _ _ st1) as [[metadata | e] st2];
        eexists; eexists; repeat split.
    - eexists. eexists. repeat split. }
  destruct Hrest as (result & st' & Hrun & Hsuccess).
  exists result, st'. split; [ | exact Hsuccess ].
  apply try_catch_ok. erewrite bind_ok by exact Hget. exact Hrun.
Qed.


End Failures.

Section FailuresRuns.
#[local] Existing Instance Sample.platform.



End FailuresRuns.

(* --------------------------------------------------------------------- *)
(** ** C6: the fan-out of issue links                                    *)
(* --------------------------------------------------------------------- *)

Section SettleOrder.
Variable w : World.

Lemma insert_by_settle_perm (x : nat * Utils.Pending) (l : list (nat * Utils.Pending)) :
  Permutation (x :: l) (Utils.insert_by_settle w x l).
Proof.
  induction l as [ | y l IH ]; simpl; [ reflexivity | ].
  destruct (Utils.settles_before w (snd y) (snd x)); [ | reflexivity ].
  rewrite perm_swap. now apply perm_skip.
Qed.

Lemma insert_by_settle_sorted (x : nat * Utils.Pending)
  (l : list (nat * Utils.Pending)) :
  StronglySorted (Spec.settles_le w) l ->
  StronglySorted (Spec.settles_le w) (Utils.insert_by_settle w x l).
Proof.
  induction 1 as [ | y l Hl IH Hy ]; simpl.
  - repeat constructor.
  - destruct (Utils.settles_before w (snd y) (snd x)) eqn:E;
      unfold Utils.settles_before in E.
    + apply Nat.leb_le in E. constructor; [ exact IH | ].
      apply Forall_forall. intros z Hz.
      apply (Permutation_in _ (Permutation_sym (insert_by_settle_perm x l))) in Hz.
      destruct Hz as [ <- | Hz ]; [ exact E | ].
      rewrite Forall_forall in Hy. now apply Hy.
    + apply Nat.leb_gt in E.
      constructor; [ constructor; assumption | ].
      constructor; [ unfold Spec.settles_le; lia | ].
      apply Forall_forall. intros z Hz. rewrite Forall_forall in Hy.
      specialize (Hy z Hz). unfold Spec.settles_le in *. lia.
Qed.

Lemma fold_insert (l acc : list (nat * Utils.Pending)) :
  StronglySorted (Spec.settles_le w) acc ->
  StronglySorted (Spec.settles_le w)
    (fold_left (fun acc x => Utils.insert_by_settle w x acc) l acc)
  /\ Permutation (l ++ acc)
       (fold_left (fun acc x => Utils.insert_by_settle w x acc) l acc).
Proof.
  revert acc. induction l as [ | x l IH ]; intros acc Hacc; simpl.
  - split; [ exact Hacc | reflexivity ].
  - destruct (IH _ (insert_by_settle_sorted x acc Hacc)) as [ Hs Hp ].
    split; [ exact Hs | ].
    rewrite <- Hp. rewrite <- insert_by_settle_perm.
    apply Permutation_middle.
Qed.

Lemma settle_order_sorted (l : list (nat * Utils.Pending)) :
  StronglySorted (Spec.settles_le w) (Utils.settle_order w l).
Proof. apply fold_insert. constructor. Qed.

Lemma settle_order_perm (l : list (nat * Utils.Pending)) :
  Permutation l (Utils.settle_order w l).
Proof.
  destruct (fold_insert l [] ltac:(constructor)) as [ _ Hp ].
  now rewrite app_nil_r in Hp.
Qed.

(** In a sorted list, what comes after an element settles no earlier. *)
Lemma sorted_after (l1 l2 : list (nat * Utils.Pending)) (x z : nat * Utils.Pending) :
  StronglySorted (Spec.settles_le w) (l1 ++ x :: l2) ->
  In z l2 -> Spec.settles_le w x z.
Proof.
  induction l1 as [ | y l1 IH ]; simpl; intros Hs Hz.
  - inversion Hs as [ | ? ? _ Hall ]; subst.
    rewrite Forall_forall in Hall. now apply Hall.
  - inversion Hs; subst. now apply IH.
Qed.

Lemma first_rejection_some (rs : list (nat * Exn JSON)) (e : JsError) :
  Utils.first_rejection rs = Some e ->
  exists l1 i l2,
    rs = (l1 ++ (i, Throw e) :: l2)%list
    /\ forall x, In x l1 -> exists v, snd x = Ok v.
Proof.
  induction rs as [ | [i [v | e0]] rs IH ]; simpl; [ discriminate | | ].
  - intros Hfirst. destruct (IH Hfirst) as (l1 & j & l2 & -> & Hok).
    exists ((i, Ok v) :: l1), j, l2. split; [ reflexivity | ].
    intros x [ <- | Hx ]; [ now exists v | now apply Hok ].
  - intros E. inversion E; subst. exists [], i, rs. split; [ reflexivity | ].
    intros x [].
Qed.

Lemma first_rejection_none (rs : list (nat * Exn JSON)) :
  Utils.first_rejection rs = None ->
  forall x, In x rs -> exists v, snd x = Ok v.
Proof.
  induction rs as [ | [i [v | e0]] rs IH ]; simpl; [ intros _ x [] | | discriminate ].
  intros Hfirst x [ <- | Hx ]; [ now exists v | now apply IH ].
Qed.

Lemma In_numbered {A : Type} (l : list A) (k i : nat) (x : A) :
  In (i, x) (Spec.numbered k l)
  <-> exists d, i = (k + d)%nat /\ nth_error l d = Some x.
Proof.
  revert k. induction l as [ | y l IH ]; intros k; simpl.
  - split; [ intros [] | intros (d & _ & Hd); destruct d; discriminate ].
  - split.
    + intros [ E | Hin ].
      * inversion E; subst. exists 0%nat. split; [ lia | reflexivity ].
      * apply IH in Hin. destruct Hin as (d & -> & Hd).
        exists (S d). split; [ lia | exact Hd ].
    + intros (d & -> & Hd). destruct d as [ | d ]; simpl in Hd.
      * inversion Hd; subst. left. f_equal. lia.
      * right. apply IH. exists d. split; [ lia | exact Hd ].
Qed.

Lemma in_flight_numbered (ps : list Utils.Pending) (k : nat) :
  Utils.in_flight k (map Utils.InFlight ps) = Spec.numbered k ps
  /\ Utils.rejected_at_once k (map Utils.InFlight ps) = [].
Proof.
  revert k. induction ps as [ | p ps IH ]; intros k; simpl.
  - split; reflexivity.
  - destruct (IH (S k)) as [ -> -> ]. split; reflexivity.
Qed.

End SettleOrder.

Section FanOut.
Context `{Platform}.
Variable cfg : Config.
Variable w : World.
Hypothesis loaded : config_loaded cfg.

Lemma start_all_run (calls : list (string * Utils.RequestOptions)) (st : State) :
  exists lines,
    Utils.start_all cfg w calls st
    = (Ok (map Utils.InFlight
             (Spec.pendings_from cfg w (List.length (requests st)) calls)),
       mkState (requests st ++ map (Spec.request_of_call cfg) calls)%list
               (logged st ++ lines)%list).
Proof.
  revert st. induction calls as [ | c calls IH ]; intros st.
  - exists []. simpl. unfold ret. rewrite !app_nil_r. destruct st; reflexivity.
  - simpl. unfold bind at 1, Utils.start, try_catch, bind at 1.
    rewrite (Run.begin_run cfg w _ _ st loaded).
    unfold ret at 1. cbv beta iota. unfold bind at 1.
    match goal with
    | |- context [Utils.start_all cfg w calls ?s] =>
        destruct (IH s) as (lines & Hrun); rewrite Hrun
    end.
    eexists. unfold ret. rewrite !requests_mkState, length_app. simpl.
    rewrite Nat.add_1_r, <- !app_assoc. reflexivity.
Qed.

Lemma settle_all_run (l : list (nat * Utils.Pending)) (st : State) :
  exists lines,
    Utils.settle_all w l st
    = (Ok (map (Spec.settled w) l),
       mkState (requests st) (logged st ++ lines)%list).
Proof.
  revert st. induction l as [ | [i p] l IH ]; intros st.
  - exists []. simpl. unfold ret. rewrite app_nil_r. destruct st; reflexivity.
  - simpl. rewrite Run.settle_run. unfold bind.
    match goal with
    | |- context [Utils.settle_all w l ?s] =>
        destruct (IH s) as (lines & Hrun); rewrite Hrun
    end.
    eexists. unfold ret, Spec.settled. simpl.
    rewrite <- app_assoc. reflexivity.
Qed.

(** [Promise.all] over a list of calls: every request goes out, in list
    order, and the result is the first rejection in settle order, if
    there is one. *)
Lemma jiraRequest_all_run (calls : list (string * Utils.RequestOptions))
  (st : State) :
  exists res st',
    Utils.jiraRequest_all cfg w calls st = (res, st')
    /\ requests st' = (requests st ++ map (Spec.request_of_call cfg) calls)%list
    /\ match Utils.first_rejection
               (map (Spec.settled w)
                  (Utils.settle_order w
                     (Spec.numbered 0
                        (Spec.pendings_from cfg w (List.length (requests st))
                           calls)))) with
       | Some e => res = Throw e
       | None => exists values, res = Ok values
       end.
Proof.
  unfold Utils.jiraRequest_all, bind at 1.
  destruct (start_all_run calls st) as (lines1 & Hstart). rewrite Hstart.
  unfold bind at 1.
  destruct (in_flight_numbered
              (Spec.pendings_from cfg w (List.length (requests st)) calls) 0)
    as [ Hin Hrej ].
  rewrite Hin, Hrej.
  match goal with
  | |- context [Utils.settle_all w ?l ?s] =>
      destruct (settle_all_run l s) as (lines2 & Hsettle); rewrite Hsettle
  end.
  cbn [app].
  destruct (Utils.first_rejection _) as [ e | ].
  - eexists _, _. split; [ reflexivity | ]. split; reflexivity.
  - eexists _, _. split; [ reflexivity | ]. split; [ reflexivity | ].
    eexists. reflexivity.
Qed.

Lemma nth_pendings_from (calls : list (string * Utils.RequestOptions))
  (n d : nat) (p : Utils.Pending) :
  nth_error (Spec.pendings_from cfg w n calls) d = Some p ->
  exists c, nth_error calls d = Some c
            /\ p = Spec.pending_of cfg w (n + d) (fst c) (snd c).
Proof.
  revert n d. induction calls as [ | c calls IH ]; intros n d; simpl.
  - destruct d; discriminate.
  - destruct d as [ | d ]; simpl.
    + intros E. inversion E. exists c. rewrite Nat.add_0_r. split; reflexivity.
    + intros Hd. destruct (IH _ _ Hd) as (c' & Hc & ->).
      exists c'. split; [ exact Hc | ]. f_equal. lia.
Qed.

Lemma nth_pendings_from_inv (calls : list (string * Utils.RequestOptions))
  (n d : nat) (c : string * Utils.RequestOptions) :
  nth_error calls d = Some c ->
  nth_error (Spec.pendings_from cfg w n calls) d
  = Some (Spec.pending_of cfg w (n + d) (fst c) (snd c)).
Proof.
  revert n d. induction calls as [ | c' calls IH ]; intros n d; simpl.
  - destruct d; discriminate.
  - destruct d as [ | d ]; simpl.
    + intros E. inversion E. now rewrite Nat.add_0_r.
    + intros Hd. rewrite (IH _ _ Hd). do 2 f_equal. lia.
Qed.

(** The first rejection in settle order is a rejection of one of the
    calls, and no rejected call settles before it; if there is none,
    every call succeeds. *)
Lemma first_rejection_is_earliest (calls : list (string * Utils.RequestOptions))
  (n : nat) :
  match Utils.first_rejection
          (map (Spec.settled w)
             (Utils.settle_order w
                (Spec.numbered 0 (Spec.pendings_from cfg w n calls)))) with
  | Some e =>
      exists i c,
        nth_error calls i = Some c
        /\ Spec.outcome_of w (Spec.pending_of cfg w (n + i) (fst c) (snd c))
           = Throw e
        /\ forall j c' e',
             nth_error calls j = Some c' ->
             Spec.outcome_of w (Spec.pending_of cfg w (n + j) (fst c') (snd c'))
             = Throw e' ->
             (settles w (n + i) <= settles w (n + j))%nat
  | None =>
      forall i c,
        nth_error calls i = Some c ->
        exists v,
          Spec.outcome_of w (Spec.pending_of cfg w (n + i) (fst c) (snd c)) = Ok v
  end.
Proof.
  set (input := Spec.numbered 0 (Spec.pendings_from cfg w n calls)).
  pose proof (settle_order_sorted w input) as Hsorted.
  pose proof (settle_order_perm w input) as Hperm.
  assert (Hmember : forall j c',
            nth_error calls j = Some c' ->
            In (j, Spec.pending_of cfg w (n + j) (fst c') (snd c'))
               (Utils.settle_order w input)).
  { intros j c' Hj. apply (Permutation_in _ Hperm).
    apply In_numbered. exists j. split; [ reflexivity | ].
    now apply nth_pendings_from_inv. }
  destruct (Utils.first_rejection _) as [ e | ] eqn:Hfirst.
  - apply first_rejection_some in Hfirst.
    destruct Hfirst as (l1 & i & l2 & Hsplit & Hok).
    apply map_eq_app in Hsplit. destruct Hsplit as (s1 & s2' & Hs & Hl1 & Hs2).
    apply map_eq_cons in Hs2. destruct Hs2 as (x & s2 & -> & Hx & Hl2).
    destruct x as [ix px]. unfold Spec.settled in Hx. simpl in Hx.
    injection Hx as Hix Hpx. subst ix.
    assert (Hin : In (i, px) input).
    { apply (Permutation_in _ (Permutation_sym Hperm)). rewrite Hs.
      apply in_or_app. right. now left. }
    apply In_numbered in Hin. destruct Hin as (d & Hd & Hnth). simpl in Hd. subst d.
    destruct (nth_pendings_from _ _ _ _ Hnth) as (c & Hc & ->).
    exists i, c. split; [ exact Hc | ]. split; [ exact Hpx | ].
    intros j c' e' Hj Hout.
    specialize (Hmember j c' Hj). rewrite Hs in Hmember, Hsorted.
    apply in_app_or in Hmember. destruct Hmember as [ Hin1 | [ Heq | Hin2 ] ].
    + exfalso. assert (Hin : In (Spec.settled w
                                  (j, Spec.pending_of cfg w (n + j) (fst c') (snd c')))
                               l1).
      { rewrite <- Hl1. now apply in_map. }
      destruct (Hok _ Hin) as (v & Hv). unfold Spec.settled in Hv. simpl in Hv.
      congruence.
    + inversion Heq; subst. apply Nat.le_refl.
    + apply (sorted_after w _ _ _ _ Hsorted) in Hin2.
      unfold Spec.settles_le in Hin2. exact Hin2.
  - intros i c Hc.
    pose proof (first_rejection_none _ Hfirst) as Hall.
    specialize (Hmember i c Hc).
    destruct (Hall (Spec.settled w
                      (i, Spec.pending_of cfg w (n + i) (fst c) (snd c))))
      as (v & Hv); [ now apply in_map | ].
    exists v. exact Hv.
Qed.

End FanOut.

Section Links.
Context `{Platform}.
Variable cfg : Config.
Variable w : World.
Hypothesis loaded : config_loaded cfg.

(** C6, as amended.  When the labels were fetched and the fields updated
    successfully, an update with a non-empty [linkedIssues] list sends
    exactly one [issueLink] POST per element, in list order, each
    carrying the element's type, its [fromIssueKey] as [outwardIssue] and
    its [toIssueKey] as [inwardIssue].  The requests are awaited together:
    if one of them is rejected, the update returns the single failure
    built from the rejection that settles first, whatever the other
    requests did; otherwise every one of them succeeded and the update
    goes on. *)
Theorem links_fan_out
  (params : Ops.UpdateJiraIssueRequest) (link : Ops.LinkedIssue)
  (links : list Ops.LinkedIssue) (st st1 st2 : State)
  (currentIssue response : JSON) (existing : list JSON) :
  Ops.u_linkedIssues params = Some (link :: links) ->
  Utils.jiraRequest cfg w (fst (Spec.labels_call (Ops.u_issueIdOrKey params)))
    (snd (Spec.labels_call (Ops.u_issueIdOrKey params))) st
  = (Ok currentIssue, st1) ->
  Ops.existingLabelNames_of currentIssue = Ok existing ->
  Utils.jiraRequest cfg w (fst (Spec.put_call params existing))
    (snd (Spec.put_call params existing)) st1 = (Ok response, st2) ->
  let n := List.length (requests st2) in
  let outcome (i : nat) (l : Ops.LinkedIssue) :=
    Spec.outcome_of w
      (Spec.pending_of cfg w (n + i) (fst (Ops.linkCall l)) (snd (Ops.linkCall l))) in
  exists res st3,
    Utils.jiraRequest_all cfg w (map Ops.linkCall (link :: links)) st2 = (res, st3)
    /\ requests st3
       = (requests st2
          ++ map (fun l => Spec.request_of_call cfg (Ops.linkCall l))
                 (link :: links))%list
    /\ (forall l,
          req_method (Spec.request_of_call cfg (Ops.linkCall l)) = "POST"
          /\ req_url (Spec.request_of_call cfg (Ops.linkCall l))
             = Utils.buildUrl cfg "issueLink" []
          /\ req_body (Spec.request_of_call cfg (Ops.linkCall l))
             = Some (JObj [("type", JObj [("name", JStr (Ops.link_type l))]);
                           ("outwardIssue",
                            JObj [("key", JStr (Ops.fromIssueKey l))]);
                           ("inwardIssue",
                            JObj [("key", JStr (Ops.toIssueKey l))])]))
    /\ match res with
       | Throw e =>
           Ops.updateJiraIssue cfg w params st
           = (Ok (Ops.formatResponse false
                    ("Error updating issue: " ++ err_message e) None), st3)
           /\ exists i l,
                nth_error (link :: links) i = Some l
                /\ outcome i l = Throw e
                /\ forall j l' e',
                     nth_error (link :: links) j = Some l' ->
                     outcome j l' = Throw e' ->
                     (settles w (n + i) <= settles w (n + j))%nat
       | Ok _ =>
           (forall i l, nth_error (link :: links) i = Some l ->
                        exists v, outcome i l = Ok v)
           /\ Ops.updateJiraIssue cfg w params st
              = try_catch (Spec.status_phase cfg w params) Spec.update_failed st3
       end.
Proof.
  intros Hlinks Hget Hnames Hput n outcome.
  destruct (jiraRequest_all_run cfg w loaded (map Ops.linkCall (link :: links)) st2)
    as (res & st3 & Hall & Hreqs & Hres).
  exists res, st3. split; [ exact Hall | ].
  split; [ rewrite Hreqs, map_map; reflexivity | ].
  split; [ intros l; repeat split | ].
  pose proof (update_after_put cfg w params st st1 st2 currentIssue response
                existing Hget Hnames Hput) as Hupdate.
  unfold Spec.link_phase in Hupdate. rewrite Hlinks in Hupdate.
  unfold try_catch, bind in Hupdate. rewrite Hall in Hupdate.
  pose proof (first_rejection_is_earliest cfg w
                (map Ops.linkCall (link :: links)) n) as Hfirst.
  fold n in Hres.
  destruct (Utils.first_rejection _) as [ e | ].
  - subst res. split; [ exact Hupdate | ].
    destruct Hfirst as (i & c & Hc & Hout & Hmin).
    rewrite nth_error_map in Hc.
    destruct (nth_error (link :: links) i) as [ l | ] eqn:Hl; [ | discriminate ].
    injection Hc as <-.
    exists i, l. split; [ exact Hl | ]. split; [ exact Hout | ].
    intros j l' e' Hj Hout'. apply (Hmin j (Ops.linkCall l') e').
    + rewrite nth_error_map, Hj. reflexivity.
    + exact Hout'.
  - destruct Hres as (values & ->). split.
    + intros i l Hl. apply (Hfirst i (Ops.linkCall l)).
      rewrite nth_error_map, Hl. reflexivity.
    + rewrite Hupdate. unfold try_catch, ret. reflexivity.
Qed.

End Links.

Section LinksRuns.
#[local] Existing Instance Sample.platform.

(** A run of the theorem.  Both links are refused; the second one, a
    500, settles first, and the update reports that one alone. *)
Lemma links_fan_out_witness :
  config_loaded Sample.cfg
  /\ Ops.u_linkedIssues Sample.update_with_links
     = Some [Ops.mkLinkedIssue "A-1" "B-2" "Blocks";
             Ops.mkLinkedIssue "A-1" "C-3" "Relates"]
  /\ Utils.jiraRequest Sample.cfg Sample.links_refused
       (fst (Spec.labels_call (Ops.u_issueIdOrKey Sample.update_with_links)))
       (snd (Spec.labels_call (Ops.u_issueIdOrKey Sample.update_with_links)))
       initial
     = (Ok Sample.issue_with_labels, Sample.after_get)
  /\ Ops.existingLabelNames_of Sample.issue_with_labels
     = Ok [JStr "backend"; JStr "urgent"]
  /\ Utils.jiraRequest Sample.cfg Sample.links_refused
       (fst (Spec.put_call Sample.update_with_links
               [JStr "backend"; JStr "urgent"]))
       (snd (Spec.put_call Sample.update_with_links
               [JStr "backend"; JStr "urgent"]))
       Sample.after_get
     = (Ok (JObj []), Sample.after_put)
  /\ exists res st3,
       Utils.jiraRequest_all Sample.cfg Sample.links_refused
         (map Ops.linkCall
            [Ops.mkLinkedIssue "A-1" "B-2" "Blocks";
             Ops.mkLinkedIssue "A-1" "C-3" "Relates"])
         Sample.after_put
       = (res, st3)
       /\ requests st3
          = (requests Sample.after_put
             ++ map (fun l => Spec.request_of_call Sample.cfg (Ops.linkCall l))
                    [Ops.mkLinkedIssue "A-1" "B-2" "Blocks";
                     Ops.mkLinkedIssue "A-1" "C-3" "Relates"])%list.
Proof.
  assert (Hcfg : config_loaded Sample.cfg) by (split; discriminate).
  assert (Hget :
    Utils.jiraRequest Sample.cfg Sample.links_refused
      (fst (Spec.labels_call (Ops.u_issueIdOrKey Sample.update_with_links)))
      (snd (Spec.labels_call (Ops.u_issueIdOrKey Sample.update_with_links)))
      initial
    = (Ok Sample.issue_with_labels, Sample.after_get))
    by (vm_compute; reflexivity).
  assert (Hput :
    Utils.jiraRequest Sample.cfg Sample.links_refused
      (fst (Spec.put_call Sample.update_with_links
              [JStr "backend"; JStr "urgent"]))
      (snd (Spec.put_call Sample.update_with_links
              [JStr "backend"; JStr "urgent"]))
      Sample.after_get
    = (Ok (JObj []), Sample.after_put))
    by (vm_compute; reflexivity).
  split; [ exact Hcfg | ]. split; [ reflexivity | ].
  split; [ exact Hget | ]. split; [ reflexivity | ]. split; [ exact Hput | ].
  destruct (links_fan_out Sample.cfg Sample.links_refused Hcfg
              Sample.update_with_links
              (Ops.mkLinkedIssue "A-1" "B-2" "Blocks")
              [Ops.mkLinkedIssue "A-1" "C-3" "Relates"]
              initial Sample.after_get Sample.after_put
              Sample.issue_with_labels (JObj [])
              [JStr "backend"; JStr "urgent"]
              eq_refl Hget eq_refl Hput)
    as (res & st3 & Hall & Hreqs & _).
  exists res, st3. split; [ exact Hall | exact Hreqs ].
Defined.

Example links_first_rejection_wins :
  fst (Ops.updateJiraIssue Sample.cfg Sample.links_refused
         Sample.update_with_links initial)
  = Ok (Ops.formatResponse false "Error updating issue: Issue does not exist" None)
  /\ map req_method
       (requests (snd (Ops.updateJiraIssue Sample.cfg Sample.links_refused
                         Sample.update_with_links initial)))
     = ["GET"; "PUT"; "POST"; "POST"].
Proof. split; reflexivity. Qed.

(** C6 fails as stated: the list of links is not empty, the fetch of the
    labels is refused, and no [issueLink] request is made. *)
Lemma links_not_sent_counterexample :
  Ops.u_linkedIssues Sample.update_with_links
  = Some [Ops.mkLinkedIssue "A-1" "B-2" "Blocks";
          Ops.mkLinkedIssue "A-1" "C-3" "Relates"]
  /\ map req_url
       (requests (snd (Ops.updateJiraIssue Sample.cfg Sample.all_failing
                         Sample.update_with_links initial)))
     = ["https://jira.example.com/rest/api/2/issue/AIF-17?fields=labels"]
  /\ filter (Spec.is_issueLink Sample.cfg)
       (requests (snd (Ops.updateJiraIssue Sample.cfg Sample.all_failing
                         Sample.update_with_links initial)))
     = [].
Proof. repeat split. Qed.

End LinksRuns.

(* ===================================================================== *)
(** * Further properties of the code                                     *)
(* ===================================================================== *)

(** ** Entry lists *)

Section Entries.

Lemma lookup_set_other {A : Type} (k k' : string) (v : A) (l : list (string * A)) :
  String.eqb k k' = false -> Js.lookup k (Js.set k' v l) = Js.lookup k l.
Proof.
  intros Hne. induction l as [ | [k0 v0] l IH ]; simpl.
  - now rewrite Hne.
  - destruct (String.eqb k' k0) eqn:E0; simpl.
    + apply String.eqb_eq in E0. subst k0. now rewrite Hne.
    + now rewrite IH.
Qed.

Lemma lookup_absent {A : Type} (k : string) (l : list (string * A)) :
  existsb (fun e => String.eqb k (fst e)) l = false -> Js.lookup k l = None.
Proof.
  induction l as [ | [k0 v0] l IH ]; simpl; [ reflexivity | ].
  intros Hex. apply orb_false_elim in Hex. destruct Hex as [ -> Hrest ].
  now apply IH.
Qed.

(** In [{ ...a, ...b }] a key of [b] has the value [b] gives it, any
    other key the value it has in [a]. *)
Lemma lookup_spread {A : Type} (k : string) (b a : list (string * A)) :
  MoreSpec.unique_keys b = true ->
  Js.lookup k (Js.spread a b)
  = match Js.lookup k b with
    | Some v => Some v
    | None => Js.lookup k a
    end.
Proof.
  unfold Js.spread. revert a.
  induction b as [ | [k0 v0] b IH ]; intros a Hu; simpl; [ reflexivity | ].
  simpl in Hu. apply andb_prop in Hu. destruct Hu as [ Hfresh Hu ].
  apply negb_true_iff in Hfresh. cbn [fst] in Hfresh.
  rewrite (IH _ Hu).
  destruct (String.eqb k k0) eqn:E0.
  - apply String.eqb_eq in E0. subst k0.
    rewrite (lookup_absent _ _ Hfresh). apply lookup_set_same.
  - rewrite (lookup_set_other _ _ _ _ E0). reflexivity.
Qed.

Lemma lookup_app {A : Type} (k : string) (a b : list (string * A)) :
  Js.lookup k (a ++ b)%list
  = match Js.lookup k a with
    | Some v => Some v
    | None => Js.lookup k b
    end.
Proof.
  induction a as [ | [k0 v0] a IH ]; simpl; [ reflexivity | ].
  destruct (String.eqb k k0); [ reflexivity | exact IH ].
Qed.

End Entries.

(** ** utils.ts: the Authorization header *)

Section Base64.

Lemma sextet_char_digit (n : nat) :
  (n < 64)%nat ->
  Buffer.unbase64 (Buffer.sextet_char n) = Some n
  /\ Ascii.eqb (Buffer.sextet_char n) "="%char = false.
Proof.
  intros Hn.
  do 64 (destruct n as [ | n ]; [ split; vm_compute; reflexivity | ]).
  lia.
Qed.

Lemma sextets_cons (n : nat) (rest : list ascii) :
  (n < 64)%nat ->
  Buffer.sextets (Buffer.sextet_char n :: rest) = n :: Buffer.sextets rest.
Proof.
  intros Hn. destruct (sextet_char_digit n Hn) as [ Hv Hne ].
  cbn [Buffer.sextets]. now rewrite Hne, Hv.
Qed.

Lemma sextets_padding (rest : list ascii) :
  Buffer.sextets ("="%char :: rest) = [].
Proof. reflexivity. Qed.

#[local] Ltac Zify.zify_post_hook ::= Z.to_euclidean_division_equations.

Lemma quad_decodes (a b c : nat) :
  (a < 256)%nat -> (b < 256)%nat -> (c < 256)%nat ->
  (a / 4 < 64 /\ (a mod 4) * 16 + b / 16 < 64
   /\ (b mod 16) * 4 + c / 64 < 64 /\ c mod 64 < 64
   /\ (a mod 4) * 16 < 64 /\ (b mod 16) * 4 < 64
   /\ a / 4 * 4 + ((a mod 4) * 16 + b / 16) / 16 = a
   /\ (((a mod 4) * 16 + b / 16) mod 16) * 16 + ((b mod 16) * 4 + c / 64) / 4 = b
   /\ (((b mod 16) * 4 + c / 64) mod 4) * 64 + c mod 64 = c
   /\ a / 4 * 4 + ((a mod 4) * 16) / 16 = a
   /\ (((a mod 4) * 16 + b / 16) mod 16) * 16 + ((b mod 16) * 4) / 4 = b)%nat.
Proof. intros Ha Hb Hc. repeat split; lia. Qed.

Lemma decode_encode (n : nat) :
  forall bs : list nat,
    (List.length bs <= n)%nat ->
    Forall (fun b => (b < 256)%nat) bs ->
    Buffer.decode_sextets (Buffer.sextets (Buffer.encode_bytes bs)) = bs.
Proof.
  induction n as [ | n IH ]; intros bs Hlen Hbs.
  - destruct bs; [ reflexivity | simpl in Hlen; lia ].
  - destruct bs as [ | a [ | b [ | c rest ] ] ]; [ reflexivity | | | ].
    + inversion Hbs as [ | ? ? Ha _ ]; subst.
      destruct (quad_decodes a 0 0 Ha) as (H1 & _ & _ & _ & H5 & _ & _ & _ & _ & E1 & _);
        try lia.
      cbn [Buffer.encode_bytes].
      rewrite !sextets_cons, sextets_padding by assumption.
      cbn [Buffer.decode_sextets]. now rewrite E1.
    + inversion Hbs as [ | ? ? Ha Hbs' ]; subst.
      inversion Hbs' as [ | ? ? Hb _ ]; subst.
      destruct (quad_decodes a b 0 Ha Hb)
        as (H1 & H2 & _ & _ & _ & H6 & E1 & _ & _ & _ & E2); try lia.
      cbn [Buffer.encode_bytes].
      rewrite !sextets_cons, sextets_padding by assumption.
      cbn [Buffer.decode_sextets]. now rewrite E1, E2.
    + inversion Hbs as [ | ? ? Ha Hbs' ]; subst.
      inversion Hbs' as [ | ? ? Hb Hbs'' ]; subst.
      inversion Hbs'' as [ | ? ? Hc Hrest ]; subst.
      destruct (quad_decodes a b c Ha Hb Hc)
        as (H1 & H2 & H3 & H4 & _ & _ & E1 & E2 & E3 & _ & _).
      cbn [Buffer.encode_bytes].
      rewrite !sextets_cons by assumption.
      cbn [Buffer.decode_sextets].
      rewrite E1, E2, E3, IH; [ reflexivity | | assumption ].
      simpl in Hlen. lia.
Qed.

Lemma chars_of_chars (l : list ascii) : Str.chars (Str.of_chars l) = l.
Proof. induction l as [ | c l IH ]; simpl; [ reflexivity | now rewrite IH ]. Qed.

Lemma of_chars_chars (s : string) : Str.of_chars (Str.chars s) = s.
Proof. induction s as [ | c s IH ]; simpl; [ reflexivity | now rewrite IH ]. Qed.

(** Decoding what [toString('base64')] produced gives the bytes back. *)
Lemma fromBase64_toBase64 (s : string) :
  Buffer.fromBase64 (Buffer.toBase64 s) = s.
Proof.
  unfold Buffer.fromBase64, Buffer.toBase64.
  rewrite chars_of_chars.
  rewrite (decode_encode _ _ (le_n _)).
  - rewrite map_map.
    rewrite (map_ext _ (fun c => c) ascii_nat_embedding), map_id.
    apply of_chars_chars.
  - apply Forall_forall. intros b Hb. apply in_map_iff in Hb.
    destruct Hb as (c & <- & _). apply nat_ascii_bounded.
Qed.

Lemma includes_append (a b p : string) :
  String.prefix p b = true -> Str.includes (a ++ b) p = true.
Proof.
  intros Hp. induction a as [ | c a IH ].
  - change (EmptyString ++ b) with b.
    destruct b; cbn [Str.includes]; rewrite Hp; reflexivity.
  - change (String c a ++ b) with (String c (a ++ b)).
    cbn [Str.includes]. rewrite IH. apply orb_true_r.
Qed.

Lemma prefix_colon (t : string) : String.prefix ":" (":" ++ t) = true.
Proof. cbn. destruct t; reflexivity. Qed.

(** X1.  A token that is the base64 encoding of some [e:t] is taken to be
    already encoded: whatever the configured e-mail, [constructAuthHeader]
    returns [Basic] followed by the token itself.  In particular the
    header it builds from an e-mail and a raw token is accepted unchanged
    when it is configured as the token. *)
Theorem constructAuthHeader_keeps_encoded_pair
  (email e t : string) (st : State) :
  Utils.constructAuthHeader email (Buffer.toBase64 (e ++ ":" ++ t)) st
  = (Ok ("Basic " ++ Buffer.toBase64 (e ++ ":" ++ t)),
     mkState (requests st) (logged st ++ [Line "Using pre-encoded token"])%list).
Proof.
  unfold Utils.constructAuthHeader.
  rewrite fromBase64_toBase64, includes_append by apply prefix_colon.
  reflexivity.
Qed.

End Base64.

(** ** utils.ts: the request helper *)

Section RequestHelper.
Context `{Platform}.
Variable cfg : Config.
Variable w : World.

(** X2.  Without an e-mail or without a token [jiraRequest] throws before it
    does anything else: no request is made and nothing is logged. *)
Theorem jiraRequest_requires_credentials
  (path : string) (options : Utils.RequestOptions) (st : State) :
  auth_email cfg = EmptyString \/ auth_token cfg = EmptyString ->
  Utils.jiraRequest cfg w path options st
  = (Throw (plainError NError "Email and token are required for authentication"),
     st).
Proof.
  intros Hmissing. unfold Utils.jiraRequest, bind, Utils.jiraRequest_begin.
  destruct Hmissing as [ -> | -> ]; cbn [Str.nonempty negb orb].
  - reflexivity.
  - rewrite orb_true_r. reflexivity.
Qed.

Hypothesis loaded : config_loaded cfg.

(** X3.  When the fetch itself is rejected (a network failure), [jiraRequest]
    rethrows that very error, having made the one request and logged
    [Request failed:] with its message as the last line; it does not try
    again. *)
Theorem jiraRequest_rethrows_rejection
  (path : string) (options : Utils.RequestOptions) (st : State) (e : JsError) :
  fetch w (List.length (requests st)) (Spec.request_of cfg path options)
  = Rejects e ->
  Utils.jiraRequest cfg w path options st
  = (Throw e,
     mkState (requests st ++ [Spec.request_of cfg path options])%list
             (logged st ++ Spec.begin_lines cfg path options
              ++ [Line ("Request failed: " ++ err_message e)])%list).
Proof.
  intros Hfetch. rewrite (Run.jiraRequest_run cfg w _ _ st loaded).
  unfold Spec.outcome_of, Spec.settle_lines, Spec.pending_of,
    Utils.jiraRequest_settle, try_catch.
  cbn [Utils.pend_outcome]. rewrite Hfetch. reflexivity.
Qed.

Lemma response_ok_204 (r : Response) :
  Z.eqb (resp_status r) 204 = true -> Utils.response_ok r = true.
Proof.
  intros E. apply Z.eqb_eq in E. unfold Utils.response_ok. now rewrite E.
Qed.

Lemma parseResponseBody_returns (r : Response) :
  Z.eqb (resp_status r) 204 = false ->
  (exists v, fst (Utils.parseResponseBody r initial) = Ok v)
  <-> (Utils.contentType_includes r "application/json" = true
       \/ Utils.contentType_includes r "application/xml" = false).
Proof.
  intros E. unfold Utils.parseResponseBody. rewrite E.
  destruct (Utils.contentType_includes r "application/json").
  - split; [ intros _; now left | intros _ ].
    destruct (negb (Str.nonempty (resp_text r))); [ now eexists | ].
    destruct (JSON_parse (resp_text r)); now eexists.
  - destruct (Utils.contentType_includes r "application/xml").
    + split; [ intros (v & Hv); discriminate Hv | ].
      intros [ Habs | Habs ]; discriminate Habs.
    + split; [ intros _; now right | intros _; now eexists ].
Qed.

(** X4.  Once the fetch has answered, [jiraRequest] returns a value exactly
    when the status is in the 2xx range and the body can be read: the
    status is 204, or the content type announces JSON, or it does not
    announce XML.  In every other case it throws. *)
Theorem jiraRequest_returns_iff
  (path : string) (options : Utils.RequestOptions) (st : State) (r : Response) :
  fetch w (List.length (requests st)) (Spec.request_of cfg path options)
  = Responds r ->
  (exists v, fst (Utils.jiraRequest cfg w path options st) = Ok v)
  <-> (Utils.response_ok r = true
       /\ (resp_status r = 204%Z
           \/ Utils.contentType_includes r "application/json" = true
           \/ Utils.contentType_includes r "application/xml" = false)).
Proof.
  intros Hfetch. rewrite (Run.jiraRequest_run cfg w _ _ st loaded).
  cbn [fst]. unfold Spec.pending_of. rewrite Hfetch, outcome_responds.
  destruct (Z.eqb (resp_status r) 204) eqn:E204.
  - split; [ intros _ | intros _; now eexists ].
    split; [ now apply response_ok_204 | left; now apply Z.eqb_eq ].
  - pose proof (parseResponseBody_returns r E204) as Hparse.
    apply Z.eqb_neq in E204.
    destruct (fst (Utils.parseResponseBody r initial)) as [ body | e ].
    + assert (Hread : Utils.contentType_includes r "application/json" = true
                      \/ Utils.contentType_includes r "application/xml" = false)
        by (apply Hparse; now eexists).
      destruct (Utils.response_ok r).
      * split; [ intros _; split; [ reflexivity | now right ]
               | intros _; now eexists ].
      * split; [ | intros [ Habs _ ]; discriminate Habs ].
        destruct (Errors.createJiraError _ _ _); intros (v & Hv); discriminate Hv.
    + split; [ intros (v & Hv); discriminate Hv | ].
      intros [ _ [ H204 | Hread ] ]; [ contradiction | ].
      apply Hparse in Hread. destruct Hread as (v & Hv). discriminate Hv.
Qed.

(** X5.  The headers of the request: [Authorization] is always the one built
    from the configuration, even when the caller supplies one; any other
    header has the caller's value if the caller gives it and the default
    value otherwise. *)
Theorem jiraRequest_headers
  (path : string) (options : Utils.RequestOptions) (st : State) :
  MoreSpec.unique_keys (Utils.opt_headers options) = true ->
  exists req,
    requests (snd (Utils.jiraRequest cfg w path options st))
    = (requests st ++ [req])%list
    /\ Js.lookup "Authorization" (req_headers req) = Some (Spec.authorization cfg)
    /\ forall k,
         String.eqb k "Authorization" = false ->
         Js.lookup k (req_headers req)
         = match Js.lookup k (Utils.opt_headers options) with
           | Some v => Some v
           | None => Js.lookup k Utils.defaultHeaders
           end.
Proof.
  intros Hu. exists (Spec.request_of cfg path options).
  rewrite (Run.jiraRequest_run cfg w _ _ st loaded). cbn [snd].
  rewrite requests_mkState. split; [ reflexivity | ].
  unfold Spec.request_of. cbn [req_headers].
  split; [ apply lookup_set_same | ].
  intros k Hk. rewrite (lookup_set_other _ _ _ _ Hk).
  unfold Spec.plain_headers. now apply lookup_spread.
Qed.

End RequestHelper.

Section RequestHelperRuns.
#[local] Existing Instance Sample.platform.

Lemma jiraRequest_requires_credentials_witness :
  (auth_email (mkConfig "https://jira.example.com/rest/api/2" "/tmp/jira-api.log"
                 "ada@example.com" EmptyString) = EmptyString
   \/ auth_token (mkConfig "https://jira.example.com/rest/api/2" "/tmp/jira-api.log"
                    "ada@example.com" EmptyString) = EmptyString)
  /\ Utils.jiraRequest
       (mkConfig "https://jira.example.com/rest/api/2" "/tmp/jira-api.log"
          "ada@example.com" EmptyString)
       Sample.all_ok "myself" Utils.noOptions initial
     = (Throw (plainError NError "Email and token are required for authentication"),
        initial).
Proof.
  split; [ right; reflexivity | ].
  apply jiraRequest_requires_credentials. right. reflexivity.
Defined.

Lemma jiraRequest_rethrows_rejection_witness :
  config_loaded Sample.cfg
  /\ fetch MoreSample.offline 0
       (Spec.request_of Sample.cfg "myself" Utils.noOptions)
     = Rejects (plainError NTypeError "fetch failed")
  /\ fst (Utils.jiraRequest Sample.cfg MoreSample.offline "myself"
            Utils.noOptions initial)
     = Throw (plainError NTypeError "fetch failed")
  /\ map req_url
         (requests (snd (Utils.jiraRequest Sample.cfg MoreSample.offline "myself"
                           Utils.noOptions initial)))
     = ["https://jira.example.com/rest/api/2/myself"].
Proof.
  assert (Hcfg : config_loaded Sample.cfg) by (split; discriminate).
  split; [ exact Hcfg | ]. split; [ reflexivity | ].
  rewrite (jiraRequest_rethrows_rejection Sample.cfg MoreSample.offline Hcfg
             "myself" Utils.noOptions initial
             (plainError NTypeError "fetch failed") eq_refl).
  split; reflexivity.
Defined.

Lemma jiraRequest_returns_iff_witness :
  config_loaded Sample.cfg
  /\ fetch Sample.all_ok 0 (Spec.request_of Sample.cfg "myself" Utils.noOptions)
     = Sample.ok_with (JObj [])
  /\ exists v,
       fst (Utils.jiraRequest Sample.cfg Sample.all_ok "myself" Utils.noOptions
              initial) = Ok v.
Proof.
  assert (Hcfg : config_loaded Sample.cfg) by (split; discriminate).
  split; [ exact Hcfg | ]. split; [ reflexivity | ].
  apply (proj2 (jiraRequest_returns_iff Sample.cfg Sample.all_ok Hcfg "myself"
                  Utils.noOptions initial _ eq_refl)).
  split; [ reflexivity | right; left; reflexivity ].
Defined.

Lemma jiraRequest_headers_witness :
  config_loaded Sample.cfg
  /\ MoreSpec.unique_keys (Utils.opt_headers MoreSample.plain_text) = true
  /\ exists req,
       requests (snd (Utils.jiraRequest Sample.cfg Sample.all_ok "myself"
                        MoreSample.plain_text initial)) = [req]
       /\ Js.lookup "Authorization" (req_headers req)
          = Some (Spec.authorization Sample.cfg)
       /\ Js.lookup "Accept" (req_headers req) = Some "text/plain"
       /\ Js.lookup "Content-Type" (req_headers req) = Some "application/json".
Proof.
  assert (Hcfg : config_loaded Sample.cfg) by (split; discriminate).
  split; [ exact Hcfg | ]. split; [ reflexivity | ].
  destruct (jiraRequest_headers Sample.cfg Sample.all_ok Hcfg "myself"
              MoreSample.plain_text initial eq_refl)
    as (req & Hreqs & Hauth & Hother).
  exists req. split; [ exact Hreqs | ]. split; [ exact Hauth | ].
  split; [ exact (Hother "Accept" eq_refl) | exact (Hother "Content-Type" eq_refl) ].
Defined.

End RequestHelperRuns.

(** ** errors.ts: what [createJiraError] returns *)

Section ErrorStatus.
Context `{Platform}.

(** X6.  Whatever the status and the body, an error that [createJiraError]
    returns is a [JiraError] whose [status] is the HTTP status it was
    given; when it throws instead (a malformed [errorMessages] or reset
    date), what it throws is not a [JiraError]. *)
Theorem createJiraError_carries_status (now status : Z) (response : JSON) :
  match Errors.createJiraError now status response with
  | Ok e => Errors.isJiraError e = true /\ err_status e = Some status
  | Throw e => Errors.isJiraError e = false
  end.
Proof.
  destruct (Errors.createJiraError now status response) as [ e | e ] eqn:E;
    [ | exact (createJiraError_throws_plain _ _ _ _ E) ].
  unfold Errors.createJiraError in E.
  destruct (Js.truthy response && Js.typeof_object response);
    [ | injection E as <-; split; reflexivity ].
  destruct (Errors.deriveMessage response) as [ message | e' ];
    [ | discriminate E ].
  destruct (Z.eqb status 401) eqn:E401;
    [ apply Z.eqb_eq in E401; subst status; injection E as <-;
      split; reflexivity | ].
  destruct (Z.eqb status 403) eqn:E403;
    [ apply Z.eqb_eq in E403; subst status; injection E as <-;
      split; reflexivity | ].
  destruct (Z.eqb status 404) eqn:E404;
    [ apply Z.eqb_eq in E404; subst status; injection E as <-;
      split; reflexivity | ].
  destruct (Z.eqb status 409) eqn:E409;
    [ apply Z.eqb_eq in E409; subst status; injection E as <-;
      split; reflexivity | ].
  destruct (Z.eqb status 400 || Z.eqb status 422);
    [ injection E as <-; split; reflexivity | ].
  destruct (Z.eqb status 429) eqn:E429;
    [ | injection E as <-; split; reflexivity ].
  apply Z.eqb_eq in E429. subst status.
  unfold Errors.JiraRateLimitError in E.
  destruct (match Js.prop response "resetAt" with
            | Some v => _
            | None => _
            end) as [ t | ]; [ | discriminate E ].
  injection E as <-. split; reflexivity.
Qed.

End ErrorStatus.

(** ** utils.ts: the logged response body *)

Section PlainBodies.
Context `{Platform}.

Lemma uint_digits (d : Decimal.uint) :
  Str.all_chars Str.is_digit (NilEmpty.string_of_uint d) = true.
Proof. induction d; simpl; try reflexivity; exact IHd. Qed.

Lemma of_nat_digits (i : nat) : Str.all_chars Str.is_digit (Str.of_nat i) = true.
Proof.
  unfold Str.of_nat, Str.of_Z.
  destruct (Z.of_nat i) as [ | p | p ] eqn:E.
  - reflexivity.
  - apply uint_digits.
  - pose proof (Nat2Z.is_nonneg i) as Hi. rewrite E in Hi. now destruct Hi.
Qed.

Lemma digits_ascii (s : string) :
  Str.all_chars Str.is_digit s = true -> Str.is_ascii s = true.
Proof.
  unfold Str.is_ascii. induction s as [ | c s IH ]; [ reflexivity | ].
  cbn [Str.all_chars]. intros Hs. apply andb_prop in Hs.
  destruct Hs as [ Hc Hs ]. rewrite (IH Hs), andb_true_r.
  destruct c as [ [] [] [] [] [] [] [] [] ]; try discriminate Hc; reflexivity.
Qed.

(** The index of an array element names no secret. *)
Lemma digits_not_secret (s : string) :
  Str.all_chars Str.is_digit s = true -> Spec.names_secret s = false.
Proof.
  intros Hs. unfold Spec.names_secret, toLowerCase.
  rewrite (digits_ascii _ Hs).
  destruct s as [ | c s ]; [ reflexivity | ].
  cbn [Str.all_chars] in Hs. apply andb_prop in Hs. destruct Hs as [ Hc _ ].
  destruct c as [ [] [] [] [] [] [] [] [] ];
    try discriminate Hc; reflexivity.
Qed.

Lemma index_not_secret (i : nat) : Spec.names_secret (Str.of_nat i) = false.
Proof. apply digits_not_secret, of_nat_digits. Qed.

(** X7.  A response body none of whose objects has a property whose key
    is token, password or secret in some letter case is logged as it is:
    the replacer changes nothing. *)
Theorem sanitize_keeps_plain_bodies (value : JSON) :
  forall key,
    Spec.names_secret key = false ->
    MoreSpec.has_sensitive value = false ->
    Utils.sanitize key value = value.
Proof.
  induction value as [ | b | n | s | items IH | es IH ] using JSON_nested_ind;
    intros key Hkey Hplain; cbn [Utils.sanitize];
    rewrite <- names_secret_sensitive, Hkey; try reflexivity.
  - f_equal. cbn [MoreSpec.has_sensitive] in Hplain.
    generalize 0%nat as i.
    induction IH as [ | x items Hx _ IHitems ]; intros i; [ reflexivity | ].
    cbn [existsb] in Hplain. apply orb_false_elim in Hplain.
    destruct Hplain as [ Hhead Hrest ].
    rewrite (Hx _ (index_not_secret i) Hhead), (IHitems Hrest).
    reflexivity.
  - f_equal. cbn [MoreSpec.has_sensitive] in Hplain.
    induction IH as [ | [k x] es Hx _ IHes ]; [ reflexivity | ].
    cbn [existsb fst snd] in Hplain. apply orb_false_elim in Hplain.
    destruct Hplain as [ Hhead Hrest ].
    apply orb_false_elim in Hhead. destruct Hhead as [ Hk Hvalue ].
    cbn [snd] in Hx. cbn [map fst snd].
    rewrite (Hx _ Hk Hvalue), (IHes Hrest). reflexivity.
Qed.

End PlainBodies.

Section PlainBodiesRuns.
#[local] Existing Instance Sample.platform.

Lemma sanitize_keeps_plain_bodies_witness :
  Spec.names_secret EmptyString = false
  /\ MoreSpec.has_sensitive Sample.issue_with_labels = false
  /\ Utils.loggedBody Sample.issue_with_labels
     = LineJSON "Response body: " Sample.issue_with_labels.
Proof.
  split; [ reflexivity | ]. split; [ reflexivity | ].
  unfold Utils.loggedBody. cbn [Js.typeof_object Sample.issue_with_labels].
  rewrite (sanitize_keeps_plain_bodies Sample.issue_with_labels EmptyString
             eq_refl eq_refl).
  reflexivity.
Defined.

(** A key that is [token] once lower-cased is redacted, also when the
    capital letter is not an ASCII one (here the Kelvin sign). *)
Example kelvin_key_redacted :
  @Utils.sanitize MoreSample.latin EmptyString
    (JObj [(MoreSample.token_with_kelvin, JStr "abc123"); ("ttl", JNum 60)])
  = JObj [(MoreSample.token_with_kelvin, JStr "[REDACTED]"); ("ttl", JNum 60)].
Proof. vm_compute. reflexivity. Qed.

End PlainBodiesRuns.

(** ** status.ts: finding and applying a transition *)

Section Transitions.
Context `{Platform}.
Variable cfg : Config.
Variable w : World.

Lemma leads_to_elsewhere (target : string) (t : JSON) :
  MoreSpec.leads_elsewhere target t = true -> Ops.leads_to target t = Ok false.
Proof.
  unfold MoreSpec.leads_elsewhere, MoreSpec.named_target, Ops.leads_to, Ops.to_name.
  destruct t as [ | | | | | es ]; try discriminate. cbn [Js.prop].
  destruct (Js.lookup "to" es) as [ target' | ]; [ | discriminate ].
  destruct target' as [ | | | | | es' ]; try discriminate. cbn [Js.prop].
  destruct (Js.lookup "name" es') as [ [ | | | name | | ] | ]; try discriminate.
  unfold MoreSpec.same_name. intros Hne. apply negb_true_iff in Hne.
  now rewrite Hne.
Qed.

Lemma leads_to_named (target name : string) (t : JSON) :
  MoreSpec.named_target t = Some name ->
  Ops.leads_to target t = Ok (MoreSpec.same_name name target).
Proof.
  unfold MoreSpec.named_target, Ops.leads_to, Ops.to_name.
  destruct t as [ | | | | | es ]; try discriminate. cbn [Js.prop].
  destruct (Js.lookup "to" es) as [ target' | ]; [ | discriminate ].
  destruct target' as [ | | | | | es' ]; try discriminate. cbn [Js.prop].
  destruct (Js.lookup "name" es') as [ [ | | | name' | | ] | ]; try discriminate.
  intros E. injection E as ->. reflexivity.
Qed.

Lemma find_transition_skips (target : string) (before rest : list JSON) :
  forallb (MoreSpec.leads_elsewhere target) before = true ->
  Ops.find_transition target (before ++ rest)%list = Ops.find_transition target rest.
Proof.
  induction before as [ | t before IH ]; intros Hall; [ reflexivity | ].
  cbn [forallb] in Hall. apply andb_prop in Hall. destruct Hall as [ Ht Hall ].
  cbn [app Ops.find_transition]. rewrite (leads_to_elsewhere _ _ Ht).
  now apply IH.
Qed.

Lemma lower_ascii_is_ascii (c : ascii) :
  Nat.ltb (nat_of_ascii (Str.lower_ascii c)) 128 = Nat.ltb (nat_of_ascii c) 128.
Proof. destruct c as [ [] [] [] [] [] [] [] [] ]; reflexivity. Qed.

Lemma lowerASCII_is_ascii (s : string) :
  Str.is_ascii (Str.lowerASCII s) = Str.is_ascii s.
Proof.
  unfold Str.is_ascii. induction s as [ | c s IH ]; [ reflexivity | ].
  cbn [Str.lowerASCII Str.all_chars]. now rewrite IH, lower_ascii_is_ascii.
Qed.

(** Two strings that differ only in the case of the letters A to Z have
    the same lower-case form. *)
Lemma toLowerCase_of_lowerASCII (a b : string) :
  Str.lowerASCII a = Str.lowerASCII b -> toLowerCase a = toLowerCase b.
Proof.
  intros Hab. unfold toLowerCase.
  rewrite <- (lowerASCII_is_ascii a), <- (lowerASCII_is_ascii b), Hab.
  reflexivity.
Qed.

(** X8.  The search compares names without regard to letter case: two target
    names that differ only in case select the same transition. *)
Theorem findTransitionIdByStatusName_ignores_case
  (transitions : list JSON) (a b : string) :
  Str.lowerASCII a = Str.lowerASCII b \/ toLowerCase a = toLowerCase b ->
  Ops.findTransitionIdByStatusName transitions a
  = Ops.findTransitionIdByStatusName transitions b.
Proof.
  intros Hcase.
  assert (Hlower : toLowerCase a = toLowerCase b)
    by (destruct Hcase as [ Hascii | Hcase ];
        [ now apply toLowerCase_of_lowerASCII | exact Hcase ]).
  clear Hcase. rename Hlower into Hcase.
  unfold Ops.findTransitionIdByStatusName.
  assert (Hfind : Ops.find_transition a transitions
                  = Ops.find_transition b transitions).
  { induction transitions as [ | t transitions IH ]; [ reflexivity | ].
    cbn [Ops.find_transition].
    assert (Hleads : Ops.leads_to a t = Ops.leads_to b t)
      by (unfold Ops.leads_to; now rewrite Hcase).
    rewrite Hleads, IH. reflexivity. }
  now rewrite Hfind.
Qed.

(** X9.  Among transitions whose targets are named, the result is the [id]
    of the first one that leads to the status asked for, whatever comes
    after it. *)
Theorem findTransitionIdByStatusName_first_match
  (before after : list JSON) (t : JSON) (target name : string) :
  forallb (MoreSpec.leads_elsewhere target) before = true ->
  MoreSpec.named_target t = Some name ->
  MoreSpec.same_name name target = true ->
  Ops.findTransitionIdByStatusName (before ++ t :: after)%list target
  = Ok (Js.prop t "id").
Proof.
  intros Hbefore Hname Hsame. unfold Ops.findTransitionIdByStatusName.
  rewrite (find_transition_skips _ _ _ Hbefore).
  cbn [Ops.find_transition]. rewrite (leads_to_named target _ _ Hname), Hsame.
  reflexivity.
Qed.

Lemma find_transition_none (target : string) (transitions : list JSON) :
  forallb (MoreSpec.leads_elsewhere target) transitions = true ->
  Ops.findTransitionIdByStatusName transitions target = Ok (Some JNull).
Proof.
  intros Hall. unfold Ops.findTransitionIdByStatusName.
  rewrite <- (app_nil_r transitions), (find_transition_skips _ _ _ Hall).
  reflexivity.
Qed.

Lemma target_names_named (target : string) (transitions : list JSON) :
  forallb (MoreSpec.leads_elsewhere target) transitions = true ->
  Ops.target_names transitions = Ok (map MoreSpec.target_name transitions).
Proof.
  induction transitions as [ | t transitions IH ]; intros Hall; [ reflexivity | ].
  cbn [forallb] in Hall. apply andb_prop in Hall. destruct Hall as [ Ht Hall ].
  cbn [Ops.target_names map]. rewrite (IH Hall).
  unfold MoreSpec.leads_elsewhere in Ht.
  unfold MoreSpec.target_name, Ops.to_name.
  unfold MoreSpec.named_target in *.
  destruct t as [ | | | | | es ]; try discriminate. cbn [Js.prop] in *.
  destruct (Js.lookup "to" es) as [ target' | ]; [ | discriminate ].
  destruct target' as [ | | | | | es' ]; try discriminate. cbn [Js.prop] in *.
  destruct (Js.lookup "name" es') as [ [ | | | name | | ] | ]; try discriminate.
  reflexivity.
Qed.

Lemma transitions_of_array (response : JSON) (transitions : list JSON) :
  Js.prop response "transitions" = Some (JArr transitions) ->
  Ops.transitions_of response = Ok transitions.
Proof.
  intros Hts. unfold Ops.transitions_of. rewrite Hts.
  destruct response; try reflexivity. discriminate Hts.
Qed.

(** X10.  When no available transition leads to the status asked for,
    [transitionJiraStatusByName] stops after the GET of the transitions:
    it sends no POST and returns a failure payload whose message lists
    the names of the statuses that can be reached. *)
Theorem transitionJiraStatusByName_unknown_status
  (issueIdOrKey statusName : string) (comment resolution : option string)
  (additionalFields : option (list (string * JSON)))
  (st st1 : State) (response : JSON) (transitions : list JSON) :
  Utils.jiraRequest cfg w ("issue/" ++ issueIdOrKey ++ "/transitions")
    Utils.noOptions st = (Ok response, st1) ->
  Js.prop response "transitions" = Some (JArr transitions) ->
  forallb (MoreSpec.leads_elsewhere statusName) transitions = true ->
  Ops.transitionJiraStatusByName cfg w issueIdOrKey statusName comment resolution
    additionalFields st
  = (Ok (Ops.formatResponse false
           ("Could not find a transition to status " ++ Str.dquote ++ statusName
            ++ Str.dquote ++ ". Available transitions are: "
            ++ Str.join ", " (map MoreSpec.target_name transitions))
           None),
     st1).
Proof.
  intros Hget Hts Hall.
  unfold Ops.transitionJiraStatusByName, try_catch, bind, lift.
  rewrite Hget, (transitions_of_array _ _ Hts), (find_transition_none _ _ Hall).
  cbn [Js.truthy_opt Js.truthy negb].
  rewrite (target_names_named _ _ Hall). reflexivity.
Qed.

Lemma transitionJiraStatus_returns (params : Ops.TransitionJiraStatusRequest)
  (st : State) :
  exists result st', Ops.transitionJiraStatus cfg w params st = (Ok result, st').
Proof. unfold Ops.transitionJiraStatus. apply try_catch_returns. Qed.

(** X11.  When a transition leads to the status asked for and has a usable
    [id], [transitionJiraStatusByName] does, from the state the GET left,
    exactly what [transitionJiraStatus] does with the [id] of the first
    such transition. *)
Theorem transitionJiraStatusByName_applies_first_match
  (issueIdOrKey statusName : string) (comment resolution : option string)
  (additionalFields : option (list (string * JSON)))
  (st st1 : State) (response t id : JSON) (before after : list JSON)
  (name : string) :
  Utils.jiraRequest cfg w ("issue/" ++ issueIdOrKey ++ "/transitions")
    Utils.noOptions st = (Ok response, st1) ->
  Js.prop response "transitions" = Some (JArr (before ++ t :: after)%list) ->
  forallb (MoreSpec.leads_elsewhere statusName) before = true ->
  MoreSpec.named_target t = Some name ->
  MoreSpec.same_name name statusName = true ->
  Js.prop t "id" = Some id ->
  Js.truthy id = true ->
  Ops.transitionJiraStatusByName cfg w issueIdOrKey statusName comment resolution
    additionalFields st
  = Ops.transitionJiraStatus cfg w
      (Ops.mkTransitionRequest issueIdOrKey id comment resolution additionalFields)
      st1.
Proof.
  intros Hget Hts Hbefore Hname Hsame Hid Htruthy.
  unfold Ops.transitionJiraStatusByName, try_catch at 1, bind at 1.
  rewrite Hget. unfold bind at 1, lift at 1.
  rewrite (transitions_of_array _ _ Hts).
  unfold bind at 1, lift at 1.
  unfold Ops.findTransitionIdByStatusName.
  rewrite (find_transition_skips _ _ _ Hbefore).
  cbn [Ops.find_transition]. rewrite (leads_to_named statusName _ _ Hname), Hsame.
  rewrite Hid. cbn [Js.truthy_opt negb]. rewrite Htruthy. cbn [negb].
  destruct (transitionJiraStatus_returns
              (Ops.mkTransitionRequest issueIdOrKey id comment resolution
                 additionalFields) st1) as (result & st2 & Hrun).
  rewrite Hrun. reflexivity.
Qed.

(** The [fields] of a transition body hold the additional fields, which
    win over the resolution when they name one, and the resolution
    otherwise. *)
Theorem createTransitionRequestBody_fields
  (transitionId : JSON) (resolution : option string)
  (additionalFields : list (string * JSON)) :
  MoreSpec.unique_keys additionalFields = true ->
  exists fields,
    Ops.createTransitionRequestBody transitionId resolution (Some additionalFields)
    = JObj [("transition", JObj [("id", transitionId)]); ("fields", JObj fields)]
    /\ forall k,
         Js.lookup k fields
         = match Js.lookup k additionalFields with
           | Some v => Some v
           | None =>
               match resolution with
               | Some r => if String.eqb k "resolution"
                           then Some (Ops.json_of_resolution r) else None
               | None => None
               end
           end.
Proof.
  intros Hu. unfold Ops.createTransitionRequestBody.
  destruct resolution as [ r | ]; cbn.
  - eexists. split; [ reflexivity | ]. intros k.
    rewrite (lookup_spread _ _ _ Hu). reflexivity.
  - eexists. split; [ reflexivity | ]. intros k.
    rewrite (lookup_spread _ _ _ Hu). reflexivity.
Qed.

End Transitions.

Section TransitionsRuns.
#[local] Existing Instance MoreSample.platform.

Lemma findTransitionIdByStatusName_ignores_case_witness :
  Str.lowerASCII "done" = Str.lowerASCII "DONE"
  /\ Ops.findTransitionIdByStatusName
       [MoreSample.start_transition; MoreSample.finish_transition] "done"
     = Ok (Some (JStr "31"))
  /\ Ops.findTransitionIdByStatusName
       [MoreSample.start_transition; MoreSample.finish_transition] "DONE"
     = Ok (Some (JStr "31")).
Proof.
  split; [ reflexivity | ]. split; [ reflexivity | ].
  rewrite <- (findTransitionIdByStatusName_ignores_case
                [MoreSample.start_transition; MoreSample.finish_transition]
                "done" "DONE" (or_introl eq_refl)).
  reflexivity.
Defined.

Lemma findTransitionIdByStatusName_first_match_witness :
  forallb (MoreSpec.leads_elsewhere "done") [MoreSample.start_transition] = true
  /\ MoreSpec.named_target MoreSample.finish_transition = Some "Done"
  /\ MoreSpec.same_name "Done" "done" = true
  /\ Ops.findTransitionIdByStatusName
       [MoreSample.start_transition; MoreSample.finish_transition;
        MoreSample.finish_transition] "done"
     = Ok (Some (JStr "31")).
Proof.
  split; [ reflexivity | ]. split; [ reflexivity | ]. split; [ reflexivity | ].
  exact (findTransitionIdByStatusName_first_match [MoreSample.start_transition]
           [MoreSample.finish_transition] MoreSample.finish_transition
           "done" "Done" eq_refl eq_refl eq_refl).
Defined.

Lemma transitionJiraStatusByName_unknown_status_witness :
  Utils.jiraRequest Sample.cfg (MoreSample.answers MoreSample.transitions_body)
    "issue/AIF-17/transitions" Utils.noOptions initial
  = (Ok MoreSample.transitions_body, MoreSample.after_transitions)
  /\ forallb (MoreSpec.leads_elsewhere "Closed")
       [MoreSample.start_transition; MoreSample.finish_transition] = true
  /\ exists result,
       Ops.transitionJiraStatusByName Sample.cfg
         (MoreSample.answers MoreSample.transitions_body) "AIF-17" "Closed"
         (Some "closing") None None initial
       = (Ok result, MoreSample.after_transitions)
       /\ Ops.op_success result = false
       /\ map req_method (requests MoreSample.after_transitions) = ["GET"].
Proof.
  assert (Hget : Utils.jiraRequest Sample.cfg
                   (MoreSample.answers MoreSample.transitions_body)
                   "issue/AIF-17/transitions" Utils.noOptions initial
                 = (Ok MoreSample.transitions_body, MoreSample.after_transitions))
    by (vm_compute; reflexivity).
  split; [ exact Hget | ]. split; [ reflexivity | ].
  eexists. split.
  - exact (transitionJiraStatusByName_unknown_status Sample.cfg
             (MoreSample.answers MoreSample.transitions_body) "AIF-17" "Closed"
             (Some "closing") None None initial MoreSample.after_transitions
             MoreSample.transitions_body
             [MoreSample.start_transition; MoreSample.finish_transition]
             Hget eq_refl eq_refl).
  - split; reflexivity.
Defined.

Lemma transitionJiraStatusByName_applies_first_match_witness :
  Utils.jiraRequest Sample.cfg (MoreSample.answers MoreSample.transitions_body)
    "issue/AIF-17/transitions" Utils.noOptions initial
  = (Ok MoreSample.transitions_body, MoreSample.after_transitions)
  /\ forallb (MoreSpec.leads_elsewhere "done") [MoreSample.start_transition] = true
  /\ MoreSpec.named_target MoreSample.finish_transition = Some "Done"
  /\ MoreSpec.same_name "Done" "done" = true
  /\ Js.prop MoreSample.finish_transition "id" = Some (JStr "31")
  /\ Ops.transitionJiraStatusByName Sample.cfg
       (MoreSample.answers MoreSample.transitions_body) "AIF-17" "done"
       None None None initial
     = Ops.transitionJiraStatus Sample.cfg
         (MoreSample.answers MoreSample.transitions_body)
         (Ops.mkTransitionRequest "AIF-17" (JStr "31") None None None)
         MoreSample.after_transitions.
Proof.
  assert (Hget : Utils.jiraRequest Sample.cfg
                   (MoreSample.answers MoreSample.transitions_body)
                   "issue/AIF-17/transitions" Utils.noOptions initial
                 = (Ok MoreSample.transitions_body, MoreSample.after_transitions))
    by (vm_compute; reflexivity).
  split; [ exact Hget | ]. do 4 (split; [ reflexivity | ]).
  exact (transitionJiraStatusByName_applies_first_match Sample.cfg
           (MoreSample.answers MoreSample.transitions_body) "AIF-17" "done"
           None None None initial MoreSample.after_transitions
           MoreSample.transitions_body MoreSample.finish_transition (JStr "31")
           [MoreSample.start_transition] [] "Done"
           Hget eq_refl eq_refl eq_refl eq_refl eq_refl eq_refl).
Defined.

Lemma createTransitionRequestBody_fields_witness :
  MoreSpec.unique_keys
    [("resolution", Ops.json_of_resolution "Duplicate"); ("priority", JStr "Low")]
  = true
  /\ exists fields,
       Ops.createTransitionRequestBody (JStr "31") (Some "Fixed")
         (Some [("resolution", Ops.json_of_resolution "Duplicate");
                ("priority", JStr "Low")])
       = JObj [("transition", JObj [("id", JStr "31")]); ("fields", JObj fields)]
       /\ Js.lookup "resolution" fields = Some (Ops.json_of_resolution "Duplicate")
       /\ Js.lookup "priority" fields = Some (JStr "Low").
Proof.
  split; [ reflexivity | ].
  destruct (createTransitionRequestBody_fields (JStr "31") (Some "Fixed")
              [("resolution", Ops.json_of_resolution "Duplicate");
               ("priority", JStr "Low")] eq_refl)
    as (fields & Hbody & Hfields).
  exists fields. split; [ exact Hbody | ].
  split; [ exact (Hfields "resolution") | exact (Hfields "priority") ].
Defined.

(** Letters outside ASCII count as well: on a platform that lowers the
    capital E with acute accent, the status asked for in small letters
    is found under its name in capitals, and the first match wins. *)
Example accented_status_found :
  @Ops.findTransitionIdByStatusName MoreSample.latin
    [JObj [("id", JStr "41"); ("to", JObj [("name", JStr MoreSample.TERMINE)])];
     JObj [("id", JStr "42"); ("to", JObj [("name", JStr MoreSample.termine)])]]
    MoreSample.termine
  = Ok (Some (JStr "41")).
Proof. vm_compute. reflexivity. Qed.

End TransitionsRuns.

(** ** getProjectComponents.ts *)

Section Components.
Context `{Platform}.
Variable cfg : Config.
Variable w : World.

Lemma transformComponents_keeps_active (items : list JSON) :
  forallb (fun c => negb (MoreSpec.is_null c)) items = true ->
  Ops.transformComponents items
  = Ok (map MoreSpec.to_component (filter MoreSpec.not_archived items)).
Proof.
  induction items as [ | c items IH ]; intros Hall; [ reflexivity | ].
  cbn [forallb] in Hall. apply andb_prop in Hall. destruct Hall as [ Hc Hall ].
  cbn [Ops.transformComponents filter]. rewrite (IH Hall).
  unfold MoreSpec.not_archived.
  destruct c; try discriminate Hc;
    destruct (Js.prop _ "archived") as [ [ | [ | ] | | | | ] | ]; reflexivity.
Qed.

(** X12.  When the components request returns an array (without [null]
    elements), the result holds exactly the components whose [archived]
    is [false], in the order received, each reduced to its id, name and
    owner; [count] is their number, and one line is logged. *)
Theorem getProjectComponents_keeps_active
  (projectIdOrKey : string) (st st1 : State) (items : list JSON) :
  Utils.jiraRequest cfg w ("project/" ++ projectIdOrKey ++ "/components")
    (Utils.mkOptions None None [("Accept", "application/json")]) st
  = (Ok (JArr items), st1) ->
  forallb (fun c => negb (MoreSpec.is_null c)) items = true ->
  let kept := map MoreSpec.to_component (filter MoreSpec.not_archived items) in
  Ops.getProjectComponents cfg w projectIdOrKey st
  = (Ok (Ops.mkComponents true projectIdOrKey kept (List.length kept)),
     mkState (requests st1)
       (logged st1
        ++ [LineJSON "getProjectComponents: "
              (JArr (map Ops.json_of_component kept))])%list).
Proof.
  intros Hget Hitems kept.
  unfold Ops.getProjectComponents, try_catch, bind, lift.
  rewrite Hget, (transformComponents_keeps_active _ Hitems). reflexivity.
Qed.

(** A body that is not an array yields a successful result with no
    component at all. *)
Theorem getProjectComponents_without_array
  (projectIdOrKey : string) (st st1 : State) (body : JSON) :
  Utils.jiraRequest cfg w ("project/" ++ projectIdOrKey ++ "/components")
    (Utils.mkOptions None None [("Accept", "application/json")]) st
  = (Ok body, st1) ->
  MoreSpec.is_array body = false ->
  Ops.getProjectComponents cfg w projectIdOrKey st
  = (Ok (Ops.mkComponents true projectIdOrKey [] 0),
     mkState (requests st1)
       (logged st1 ++ [LineJSON "getProjectComponents: " (JArr [])])%list).
Proof.
  intros Hget Hshape.
  unfold Ops.getProjectComponents, try_catch, bind, lift.
  rewrite Hget. destruct body as [ | | | | items | ]; try reflexivity.
  discriminate Hshape.
Qed.

End Components.

(** ** update.ts *)

Section Update.
Context `{Platform}.
Variable cfg : Config.
Variable w : World.
Hypothesis loaded : config_loaded cfg.

Lemma lookup_delete_same {A : Type} (k : string) (l : list (string * A)) :
  Js.lookup k (Js.delete k l) = None.
Proof.
  unfold Js.delete. induction l as [ | [k0 v0] l IH ]; simpl; [ reflexivity | ].
  destruct (String.eqb k k0) eqn:E0; simpl; [ exact IH | ].
  now rewrite E0.
Qed.

Lemma lookup_entry_other {A : Type} (k key : string) (to_json : A -> JSON)
  (o : option A) :
  String.eqb k key = false -> Js.lookup k (Ops.entry key to_json o) = None.
Proof. intros Hne. destruct o; simpl; [ now rewrite Hne | reflexivity ]. Qed.

Lemma no_status_entry (f : Ops.UpdateFields) :
  Ops.status f = None -> Js.lookup "status" (Ops.entries_of_fields f) = None.
Proof.
  intros Hstatus. unfold Ops.entries_of_fields. rewrite Hstatus.
  change (Ops.entry "status" Ops.json_of_status None) with (@nil (string * JSON)).
  rewrite !lookup_app, !lookup_entry_other by reflexivity.
  reflexivity.
Qed.

(** X13.  The [fields] object that is sent never has a [status] property, and
    every property of the caller's fields other than [labels] and
    [status] is in it with the caller's value. *)
Theorem fieldsWithoutStatus_passes_fields
  (fields : option Ops.UpdateFields) (existingLabelNames : list JSON) :
  Js.lookup "status" (Ops.fieldsWithoutStatus_of fields existingLabelNames) = None
  /\ forall k,
       String.eqb k "labels" = false ->
       String.eqb k "status" = false ->
       Js.lookup k (Ops.fieldsWithoutStatus_of fields existingLabelNames)
       = Js.lookup k (MoreSpec.given_fields fields).
Proof.
  unfold Ops.fieldsWithoutStatus_of, MoreSpec.given_fields. split.
  - destruct (Ops.statusField_of fields) eqn:Hstatus;
      [ apply lookup_delete_same | ].
    rewrite lookup_set_other by reflexivity.
    destruct fields as [ f | ]; [ | reflexivity ].
    now apply no_status_entry.
  - intros k Hlabels Hstatus.
    destruct (Ops.statusField_of fields).
    + rewrite lookup_delete_other by (now rewrite String.eqb_sym).
      now apply lookup_set_other.
    + now apply lookup_set_other.
Qed.

(** *** The requests of an update *)

Lemma update_reaches_put (params : Ops.UpdateJiraIssueRequest) (st : State)
  (currentIssue : JSON) (existing : list JSON) :
  Spec.outcome_of w
    (Spec.pending_of cfg w (List.length (requests st))
       (fst (Spec.labels_call (Ops.u_issueIdOrKey params)))
       (snd (Spec.labels_call (Ops.u_issueIdOrKey params)))) = Ok currentIssue ->
  Ops.existingLabelNames_of currentIssue = Ok existing ->
  exists st1 st2,
    Utils.jiraRequest cfg w (fst (Spec.labels_call (Ops.u_issueIdOrKey params)))
      (snd (Spec.labels_call (Ops.u_issueIdOrKey params))) st
    = (Ok currentIssue, st1)
    /\ Utils.jiraRequest cfg w (fst (Spec.put_call params existing))
         (snd (Spec.put_call params existing)) st1
       = (Spec.outcome_of w
            (Spec.pending_of cfg w (S (List.length (requests st)))
               (fst (Spec.put_call params existing))
               (snd (Spec.put_call params existing))), st2)
    /\ requests st2
       = (requests st
          ++ [Spec.request_of_call cfg (Spec.labels_call (Ops.u_issueIdOrKey params));
              Spec.request_of_call cfg (Spec.put_call params existing)])%list.
Proof.
  intros Hissue Hnames.
  pose proof (Run.jiraRequest_run cfg w
                (fst (Spec.labels_call (Ops.u_issueIdOrKey params)))
                (snd (Spec.labels_call (Ops.u_issueIdOrKey params))) st loaded)
    as Hget.
  rewrite Hissue in Hget.
  match type of Hget with _ = (_, ?s) => set (st1 := s) in * end.
  pose proof (Run.jiraRequest_run cfg w (fst (Spec.put_call params existing))
                (snd (Spec.put_call params existing)) st1 loaded) as Hput.
  match type of Hput with _ = (_, ?s) => set (st2 := s) in * end.
  exists st1, st2. split; [ exact Hget | ].
  assert (Hlen : List.length (requests st1) = S (List.length (requests st))).
  { unfold st1. rewrite requests_mkState, length_app. cbn [List.length]. lia. }
  rewrite Hlen in Hput. split; [ exact Hput | ].
  unfold st2, st1. rewrite !requests_mkState, <- app_assoc. reflexivity.
Qed.

(** X14.  When the PUT of the fields fails, the update ends there: the
    requests made are the GET of the labels and the PUT, no issue link
    is created and no transition is looked up, and the result is the
    failure payload of that error. *)
Theorem update_stops_at_failed_put
  (params : Ops.UpdateJiraIssueRequest) (st : State)
  (currentIssue : JSON) (existing : list JSON) (e : JsError) :
  Spec.outcome_of w
    (Spec.pending_of cfg w (List.length (requests st))
       (fst (Spec.labels_call (Ops.u_issueIdOrKey params)))
       (snd (Spec.labels_call (Ops.u_issueIdOrKey params)))) = Ok currentIssue ->
  Ops.existingLabelNames_of currentIssue = Ok existing ->
  Spec.outcome_of w
    (Spec.pending_of cfg w (S (List.length (requests st)))
       (fst (Spec.put_call params existing))
       (snd (Spec.put_call params existing))) = Throw e ->
  exists st',
    Ops.updateJiraIssue cfg w params st
    = (Ok (Ops.handleOperationError e "updating issue"), st')
    /\ requests st'
       = (requests st
          ++ [Spec.request_of_call cfg (Spec.labels_call (Ops.u_issueIdOrKey params));
              Spec.request_of_call cfg (Spec.put_call params existing)])%list.
Proof.
  intros Hissue Hnames Hfail.
  destruct (update_reaches_put params st _ _ Hissue Hnames)
    as (st1 & st2 & Hget & Hput & Hreqs).
  rewrite Hfail in Hput. exists st2. split; [ | exact Hreqs ].
  exact (update_put_fails cfg w params st st1 st2 _ _ _ Hget Hnames Hput).
Qed.

(** X15.  An update that asks for no status and no issue link makes exactly
    two requests when both succeed, the GET of the labels and the PUT,
    and reports success.  The PUT is made even when the caller gives
    neither fields nor update operations, since the merged labels are
    always written. *)
Theorem update_without_status_or_links
  (params : Ops.UpdateJiraIssueRequest) (st : State)
  (currentIssue response : JSON) (existing : list JSON) :
  Ops.statusField_of (Ops.u_fields params) = None ->
  MoreSpec.no_links params = true ->
  Spec.outcome_of w
    (Spec.pending_of cfg w (List.length (requests st))
       (fst (Spec.labels_call (Ops.u_issueIdOrKey params)))
       (snd (Spec.labels_call (Ops.u_issueIdOrKey params)))) = Ok currentIssue ->
  Ops.existingLabelNames_of currentIssue = Ok existing ->
  Spec.outcome_of w
    (Spec.pending_of cfg w (S (List.length (requests st)))
       (fst (Spec.put_call params existing))
       (snd (Spec.put_call params existing))) = Ok response ->
  exists st',
    Ops.updateJiraIssue cfg w params st
    = (Ok (Ops.formatResponse true
             ("Successfully updated issue " ++ Ops.u_issueIdOrKey params) None),
       st')
    /\ requests st'
       = (requests st
          ++ [Spec.request_of_call cfg (Spec.labels_call (Ops.u_issueIdOrKey params));
              Spec.request_of_call cfg (Spec.put_call params existing)])%list.
Proof.
  intros Hstatus Hlinks Hissue Hnames Hok.
  destruct (update_reaches_put params st _ _ Hissue Hnames)
    as (st1 & st2 & Hget & Hput & Hreqs).
  rewrite Hok in Hput. exists st2. split; [ | exact Hreqs ].
  rewrite (update_after_put cfg w params st st1 st2 _ _ _ Hget Hnames Hput).
  unfold try_catch, bind, Spec.link_phase, Spec.status_phase.
  rewrite Hstatus. unfold MoreSpec.no_links in Hlinks.
  destruct (Ops.u_linkedIssues params) as [ [ | link links ] | ];
    try discriminate Hlinks; reflexivity.
Qed.

End Update.

(** ** search.ts *)

Section SearchByJql.
Context `{Platform}.
Variable cfg : Config.
Variable w : World.
Hypothesis loaded : config_loaded cfg.

Lemma searchUrl_query (params : Ops.JiraSearchRequest) :
  Ops.searchUrl cfg params
  = URL_href (apiBaseUrl cfg ++ "/search") (MoreSpec.search_query params).
Proof.
  unfold Ops.searchUrl, Utils.buildUrl, Utils.new_URL. rewrite append_params.
  unfold Utils.URL_toString, MoreSpec.search_query.
  cbn [Utils.url_input Utils.url_appended Str.stripLeadingSlash app].
  f_equal.
  destruct params as [ q [ s | ] [ m | ] [ f | ] [ e | ] [ p | ] [ b | ] ];
    reflexivity.
Qed.

(** X16.  A [jql] that does not have the shape of an issue key is searched for
    with a single request.  Its address is the [search] endpoint with
    the [jql] followed by those of [startAt], [maxResults], [fields],
    [expand], [properties] and [fieldsByKeys] that were given, in this
    order, lists joined by commas; the outcome of that request is the
    result. *)
Theorem search_by_jql (params : Ops.JiraSearchRequest) (st : State) :
  Ops.looksLikeIssueKey (Ops.jql params) = false ->
  Ops.searchUrl cfg params
  = URL_href (apiBaseUrl cfg ++ "/search") (MoreSpec.search_query params)
  /\ exists st',
       Ops.searchJiraIssues cfg w params st
       = (Spec.outcome_of w
            (Spec.pending_of cfg w (List.length (requests st))
               (Ops.searchUrl cfg params) Utils.noOptions), st')
       /\ requests st'
          = (requests st
             ++ [Spec.request_of cfg (Ops.searchUrl cfg params) Utils.noOptions])%list.
Proof.
  intros Hshape. split; [ apply searchUrl_query | ].
  unfold Ops.searchJiraIssues. rewrite Hshape.
  rewrite (Run.jiraRequest_run cfg w _ _ st loaded).
  eexists. split; [ reflexivity | ]. apply requests_mkState.
Qed.

End SearchByJql.

Section OperationsRuns.
#[local] Existing Instance MoreSample.platform.

Lemma getProjectComponents_keeps_active_witness :
  Utils.jiraRequest Sample.cfg (MoreSample.answers MoreSample.components_body)
    "project/AIF/components"
    (Utils.mkOptions None None [("Accept", "application/json")]) initial
  = (Ok MoreSample.components_body,
     MoreSample.after_components MoreSample.components_body)
  /\ exists st',
       Ops.getProjectComponents Sample.cfg
         (MoreSample.answers MoreSample.components_body) "AIF" initial
       = (Ok (Ops.mkComponents true "AIF"
                [Ops.mkComponent (Some (JStr "1")) (Some (JStr "api")) (JStr "ada");
                 Ops.mkComponent (Some (JStr "3")) (Some (JStr "ui"))
                   (JStr "unassigned")]
                2),
          st').
Proof.
  assert (Hget : Utils.jiraRequest Sample.cfg
                   (MoreSample.answers MoreSample.components_body)
                   "project/AIF/components"
                   (Utils.mkOptions None None [("Accept", "application/json")])
                   initial
                 = (Ok MoreSample.components_body,
                    MoreSample.after_components MoreSample.components_body))
    by (vm_compute; reflexivity).
  split; [ exact Hget | ]. eexists.
  exact (getProjectComponents_keeps_active Sample.cfg
           (MoreSample.answers MoreSample.components_body) "AIF" initial _ _
           Hget eq_refl).
Defined.

Lemma getProjectComponents_without_array_witness :
  Utils.jiraRequest Sample.cfg (MoreSample.answers (JObj []))
    "project/AIF/components"
    (Utils.mkOptions None None [("Accept", "application/json")]) initial
  = (Ok (JObj []), MoreSample.after_components (JObj []))
  /\ MoreSpec.is_array (JObj []) = false
  /\ exists st',
       Ops.getProjectComponents Sample.cfg (MoreSample.answers (JObj [])) "AIF"
         initial
       = (Ok (Ops.mkComponents true "AIF" [] 0), st').
Proof.
  assert (Hget : Utils.jiraRequest Sample.cfg (MoreSample.answers (JObj []))
                   "project/AIF/components"
                   (Utils.mkOptions None None [("Accept", "application/json")])
                   initial
                 = (Ok (JObj []), MoreSample.after_components (JObj [])))
    by (vm_compute; reflexivity).
  split; [ exact Hget | ]. split; [ reflexivity | ]. eexists.
  exact (getProjectComponents_without_array Sample.cfg
           (MoreSample.answers (JObj [])) "AIF" initial _ _ Hget eq_refl).
Defined.

Lemma update_stops_at_failed_put_witness :
  config_loaded Sample.cfg
  /\ exists st',
       Ops.updateJiraIssue Sample.cfg MoreSample.put_refused
         MoreSample.linked_update initial
       = (Ok (Ops.mkOpResult false "Error updating issue: Issue does not exist"
                None), st')
       /\ map req_method (requests st') = ["GET"; "PUT"].
Proof.
  assert (Hcfg : config_loaded Sample.cfg) by (split; discriminate).
  split; [ exact Hcfg | ].
  destruct (update_stops_at_failed_put Sample.cfg MoreSample.put_refused Hcfg
              MoreSample.linked_update initial Sample.issue_with_labels
              [JStr "backend"; JStr "urgent"]
              (mkJsError NJiraError "Issue does not exist" (Some 500%Z)
                 (Some Sample.error_body) None))
    as (st' & Hrun & Hreqs); try (vm_compute; reflexivity).
  exists st'. split; [ exact Hrun | ]. rewrite Hreqs. reflexivity.
Defined.

Lemma update_without_status_or_links_witness :
  config_loaded Sample.cfg
  /\ Ops.statusField_of (Ops.u_fields MoreSample.empty_update) = None
  /\ MoreSpec.no_links MoreSample.empty_update = true
  /\ exists st',
       Ops.updateJiraIssue Sample.cfg Sample.labelled_issue
         MoreSample.empty_update initial
       = (Ok (Ops.mkOpResult true "Successfully updated issue AIF-17" None), st')
       /\ map req_method (requests st') = ["GET"; "PUT"]
       /\ map (Spec.labels_sent) (requests st')
          = [None; Some (JArr [JStr "backend"; JStr "urgent"])].
Proof.
  assert (Hcfg : config_loaded Sample.cfg) by (split; discriminate).
  split; [ exact Hcfg | ]. split; [ reflexivity | ]. split; [ reflexivity | ].
  destruct (update_without_status_or_links Sample.cfg Sample.labelled_issue Hcfg
              MoreSample.empty_update initial Sample.issue_with_labels (JObj [])
              [JStr "backend"; JStr "urgent"] eq_refl eq_refl)
    as (st' & Hrun & Hreqs); try (vm_compute; reflexivity).
  exists st'. split; [ exact Hrun | ]. rewrite Hreqs. split; reflexivity.
Defined.

Lemma search_by_jql_witness :
  config_loaded Sample.cfg
  /\ Ops.looksLikeIssueKey "assignee=ada" = false
  /\ exists st',
       Ops.searchJiraIssues Sample.cfg Sample.all_ok
         (Ops.mkSearch "assignee=ada" None (Some 5%Z) (Some ["summary"; "labels"])
            None None None) initial
       = (Ok (JObj []), st')
       /\ List.length (requests st') = 1%nat.
Proof.
  assert (Hcfg : config_loaded Sample.cfg) by (split; discriminate).
  split; [ exact Hcfg | ]. split; [ reflexivity | ].
  destruct (proj2 (search_by_jql Sample.cfg Sample.all_ok Hcfg
                     (Ops.mkSearch "assignee=ada" None (Some 5%Z)
                        (Some ["summary"; "labels"]) None None None)
                     initial eq_refl))
    as (st' & Hrun & Hreqs).
  exists st'. split; [ exact Hrun | ]. rewrite Hreqs. reflexivity.
Defined.

End OperationsRuns.

(** ** auth.ts *)

Section Auth.
Context `{Platform}.
Variable cfg : Config.
Variable w : World.
Hypothesis loaded : config_loaded cfg.

(** X17.  [testAuth] never throws.  It logs that it verifies the
    authentication, makes one GET of [myself], and reports success with
    the user the server returned, or failure with the message of the
    error. *)
Theorem testAuth_reports (st : State) :
  exists result st',
    MoreOps.testAuth cfg w st = (Ok result, st')
    /\ requests st'
       = (requests st ++ [Spec.request_of cfg "myself" Utils.noOptions])%list
    /\ nth_error (logged st') (List.length (logged st))
       = Some (Line "Verifying Jira authentication...")
    /\ match Spec.outcome_of w
               (Spec.pending_of cfg w (List.length (requests st)) "myself"
                  Utils.noOptions) with
       | Ok user =>
           MoreOps.auth_success result = true
           /\ MoreOps.auth_user result = Some user
           /\ MoreOps.auth_error result = None
       | Throw e =>
           MoreOps.auth_success result = false
           /\ MoreOps.auth_message result = err_message e
           /\ MoreOps.auth_user result = None
           /\ MoreOps.auth_error result = Some e
       end.
Proof.
  unfold MoreOps.testAuth, MoreOps.verifyAuthentication, try_catch, bind,
    Utils.logToFile.
  rewrite (Run.jiraRequest_run cfg w _ _ _ loaded).
  rewrite !requests_mkState.
  destruct (Spec.outcome_of w _) as [ user | e ].
  - eexists. eexists. split; [ reflexivity | ].
    split; [ apply requests_mkState | ]. split; [ | repeat split ].
    cbn [logged]. rewrite <- app_assoc.
    rewrite nth_error_app2 by apply le_n. now rewrite Nat.sub_diag.
  - eexists. eexists. split; [ reflexivity | ].
    split; [ apply requests_mkState | ]. split; [ | repeat split ].
    cbn [logged]. rewrite <- app_assoc.
    rewrite nth_error_app2 by apply le_n. now rewrite Nat.sub_diag.
Qed.

End Auth.

Section AuthRuns.
#[local] Existing Instance Sample.platform.

Lemma testAuth_reports_witness :
  config_loaded Sample.cfg
  /\ exists result st',
       MoreOps.testAuth Sample.cfg Sample.all_failing initial = (Ok result, st')
       /\ MoreOps.auth_success result = false
       /\ MoreOps.auth_message result = "Issue does not exist"
       /\ map req_url (requests st')
          = ["https://jira.example.com/rest/api/2/myself"].
Proof.
  assert (Hcfg : config_loaded Sample.cfg) by (split; discriminate).
  split; [ exact Hcfg | ].
  destruct (testAuth_reports Sample.cfg Sample.all_failing Hcfg initial)
    as (result & st' & Hrun & Hreqs & _ & Hout).
  exists result, st'. split; [ exact Hrun | ].
  vm_compute in Hout. destruct Hout as (Hsuccess & Hmessage & _).
  split; [ exact Hsuccess | ]. split; [ exact Hmessage | ].
  rewrite Hreqs. reflexivity.
Defined.

End AuthRuns.

(** ** getIssueTypeMetadata.ts: the minimised output *)

Section Minimize.

Lemma existsb_free (k : string) (es : list (string * JSON)) :
  Forall (MoreSpec.free_of k) es ->
  existsb (fun e => String.eqb (fst e) k || MoreSpec.has_key k (snd e)) es = false.
Proof.
  induction 1 as [ | e es He _ IH ]; [ reflexivity | ].
  cbn [existsb]. unfold MoreSpec.free_of in He. now rewrite He, IH.
Qed.

Lemma set_free (k key : string) (value : JSON) (es : list (string * JSON)) :
  MoreSpec.free_of k (key, value) -> Forall (MoreSpec.free_of k) es ->
  Forall (MoreSpec.free_of k) (Js.set key value es).
Proof.
  intros Hnew. induction 1 as [ | [k0 v0] es He Hes IH ]; simpl.
  - repeat constructor. exact Hnew.
  - destruct (String.eqb key k0) eqn:E0.
    + apply String.eqb_eq in E0. subst k0. constructor; assumption.
    + constructor; assumption.
Qed.

Lemma assigned_free (k : string) (es acc : list (string * JSON)) :
  Forall (MoreSpec.free_of k) es -> Forall (MoreSpec.free_of k) acc ->
  Forall (MoreSpec.free_of k)
    (fold_left (fun result e => MoreOps.assign (fst e) (snd e) result) es acc).
Proof.
  intros Hes. revert acc.
  induction Hes as [ | [k0 v0] es He _ IH ]; intros acc Hacc; [ exact Hacc | ].
  cbn [fold_left fst snd]. apply IH. unfold MoreOps.assign.
  destruct (String.eqb k0 "__proto__"); [ exact Hacc | ].
  now apply set_free.
Qed.

(** The copy made by [removeSelfKeys] has no [self] property in any of
    its objects, at any depth. *)
Lemma removeSelfKeys_removes_self (obj : JSON) :
  MoreSpec.has_key "self" (MoreOps.removeSelfKeys obj) = false.
Proof.
  induction obj as [ | b | n | s | items IH | es IH ] using JSON_nested_ind;
    try reflexivity.
  - cbn [MoreOps.removeSelfKeys MoreSpec.has_key].
    induction IH as [ | x items Hx _ IHitems ]; [ reflexivity | ].
    cbn [map existsb]. now rewrite Hx, IHitems.
  - cbn [MoreOps.removeSelfKeys MoreSpec.has_key].
    apply existsb_free. unfold MoreOps.assigned.
    apply assigned_free; [ | constructor ].
    induction IH as [ | [k x] es Hx _ IHes ]; [ constructor | ].
    cbn [flat_map fst snd]. cbn [snd] in Hx.
    destruct (String.eqb k "self") eqn:Ek; cbn [negb app]; [ exact IHes | ].
    constructor; [ | exact IHes ].
    unfold MoreSpec.free_of. cbn [fst snd]. now rewrite Ek, Hx.
Qed.

Lemma set_new {A : Type} (k : string) (v : A) (acc : list (string * A)) :
  existsb (fun a => String.eqb k (fst a)) acc = false ->
  Js.set k v acc = (acc ++ [(k, v)])%list.
Proof.
  induction acc as [ | [k0 v0] acc IH ]; simpl; [ reflexivity | ].
  intros Hnew. apply orb_false_elim in Hnew. destruct Hnew as [ -> Hrest ].
  now rewrite IH.
Qed.

Lemma existsb_app_key {A : Type} (k : string) (a b : list (string * A)) :
  existsb (fun e => String.eqb k (fst e)) (a ++ b)%list
  = existsb (fun e => String.eqb k (fst e)) a
    || existsb (fun e => String.eqb k (fst e)) b.
Proof. apply existsb_app. Qed.

Lemma assigned_appends (es acc : list (string * JSON)) :
  MoreSpec.unique_keys es = true ->
  forallb (fun e => negb (String.eqb (fst e) "__proto__")) es = true ->
  forallb (fun e => negb (existsb (fun a => String.eqb (fst e) (fst a)) acc)) es
  = true ->
  fold_left (fun result e => MoreOps.assign (fst e) (snd e) result) es acc
  = (acc ++ es)%list.
Proof.
  revert acc. induction es as [ | [k v] es IH ]; intros acc Hu Hproto Hnew.
  - now rewrite app_nil_r.
  - cbn [MoreSpec.unique_keys forallb fst snd] in *.
    apply andb_prop in Hu. destruct Hu as [ Hk Hu ].
    apply andb_prop in Hproto. destruct Hproto as [ Hkp Hproto ].
    apply andb_prop in Hnew. destruct Hnew as [ Hkn Hnew ].
    apply negb_true_iff in Hk, Hkp, Hkn.
    cbn [fold_left fst snd]. unfold MoreOps.assign at 2. rewrite Hkp.
    rewrite (set_new _ _ _ Hkn), IH; [ now rewrite <- app_assoc | exact Hu
                                     | exact Hproto | ].
    clear IH Hu Hproto.
    induction es as [ | [k' v'] es IHes ]; [ reflexivity | ].
    cbn [forallb existsb fst] in *.
    apply andb_prop in Hnew. destruct Hnew as [ Hk' Hnew ].
    apply orb_false_elim in Hk. destruct Hk as [ Hkk' Hk ].
    rewrite (IHes Hk Hnew), andb_true_r.
    apply negb_true_iff in Hk'. apply negb_true_iff.
    rewrite existsb_app_key, Hk'. cbn [existsb fst orb].
    rewrite String.eqb_sym, Hkk'. reflexivity.
Qed.

(** X18.  On a value that has no [self] property anywhere (and whose objects
    have pairwise different keys, none of them [__proto__]),
    [removeSelfKeys] changes nothing. *)
Theorem removeSelfKeys_keeps_plain_values (obj : JSON) :
  MoreSpec.has_key "self" obj = false ->
  MoreSpec.has_key "__proto__" obj = false ->
  MoreSpec.well_keyed obj = true ->
  MoreOps.removeSelfKeys obj = obj.
Proof.
  induction obj as [ | b | n | s | items IH | es IH ] using JSON_nested_ind;
    intros Hself Hproto Hkeys; try reflexivity.
  - cbn [MoreOps.removeSelfKeys]. f_equal.
    cbn [MoreSpec.has_key MoreSpec.well_keyed] in *.
    induction IH as [ | x items Hx _ IHitems ]; [ reflexivity | ].
    cbn [existsb forallb] in *.
    apply orb_false_elim in Hself. destruct Hself as [ Hs1 Hs2 ].
    apply orb_false_elim in Hproto. destruct Hproto as [ Hp1 Hp2 ].
    apply andb_prop in Hkeys. destruct Hkeys as [ Hk1 Hk2 ].
    cbn [map]. now rewrite Hx, IHitems.
  - cbn [MoreOps.removeSelfKeys]. f_equal.
    cbn [MoreSpec.has_key MoreSpec.well_keyed] in *.
    apply andb_prop in Hkeys. destruct Hkeys as [ Hu Hkeys ].
    assert (Hcopy : flat_map
                      (fun e => if negb (String.eqb (fst e) "self")
                                then [(fst e, MoreOps.removeSelfKeys (snd e))]
                                else [])
                      es = es).
    { clear Hu. induction IH as [ | [k x] es Hx _ IHes ]; [ reflexivity | ].
      cbn [existsb forallb fst snd] in *.
      apply orb_false_elim in Hself. destruct Hself as [ Hs1 Hs2 ].
      apply orb_false_elim in Hs1. destruct Hs1 as [ Hk Hs1 ].
      apply orb_false_elim in Hproto. destruct Hproto as [ Hp1 Hp2 ].
      apply orb_false_elim in Hp1. destruct Hp1 as [ _ Hp1 ].
      apply andb_prop in Hkeys. destruct Hkeys as [ Hk1 Hk2 ].
      cbn [flat_map fst snd]. rewrite Hk. cbn [negb app].
      now rewrite Hx, IHes. }
    rewrite Hcopy. unfold MoreOps.assigned.
    rewrite assigned_appends; [ reflexivity | exact Hu | | ].
    + clear - Hproto. induction es as [ | [k x] es IHes ]; [ reflexivity | ].
      cbn [existsb forallb fst snd] in *.
      apply orb_false_elim in Hproto. destruct Hproto as [ Hp1 Hp2 ].
      apply orb_false_elim in Hp1. destruct Hp1 as [ Hk _ ].
      now rewrite Hk, IHes.
    + clear. induction es as [ | e es IHes ]; [ reflexivity | ].
      cbn [forallb existsb negb]. exact IHes.
Qed.

Lemma filterFields_keeps (values : list JSON) :
  forallb (fun v => negb (MoreSpec.is_null v)) values = true ->
  MoreOps.filterFields values = Ok (filter MoreOps.keeps values).
Proof.
  induction values as [ | v values IH ]; intros Hall; [ reflexivity | ].
  cbn [forallb] in Hall. apply andb_prop in Hall. destruct Hall as [ Hv Hall ].
  cbn [MoreOps.filterFields filter]. rewrite (IH Hall).
  destruct v; try discriminate Hv; reflexivity.
Qed.

(** X19.  [filterFieldsForMinimize] leaves a value that is not an array as it
    is.  Of an array (without [null] elements) it keeps, in order,
    exactly the elements whose [required] is not [false] and whose
    [hasDefaultValue] is not [true]; an element that has neither
    property is kept. *)
Theorem filterFieldsForMinimize_keeps_mandatory (values : JSON) :
  (MoreSpec.is_array values = false ->
   MoreOps.filterFieldsForMinimize values = Ok values)
  /\ (forall items,
        values = JArr items ->
        forallb (fun v => negb (MoreSpec.is_null v)) items = true ->
        exists kept,
          MoreOps.filterFieldsForMinimize values = Ok (JArr kept)
          /\ (forall v, In v kept
                        <-> In v items
                            /\ Js.prop v "required" <> Some (JBool false)
                            /\ Js.prop v "hasDefaultValue" <> Some (JBool true))
          /\ (forall v, In v items -> Js.prop v "required" = None ->
                        Js.prop v "hasDefaultValue" = None -> In v kept)).
Proof.
  split.
  - destruct values; try reflexivity. discriminate.
  - intros items -> Hitems. exists (filter MoreOps.keeps items).
    unfold MoreOps.filterFieldsForMinimize.
    rewrite (filterFields_keeps _ Hitems). split; [ reflexivity | ].
    assert (Hkeeps : forall v,
               MoreOps.keeps v = true
               <-> Js.prop v "required" <> Some (JBool false)
                   /\ Js.prop v "hasDefaultValue" <> Some (JBool true)).
    { intros v. unfold MoreOps.keeps.
      destruct (Js.prop v "required") as [ [ | [ | ] | | | | ] | ];
        destruct (Js.prop v "hasDefaultValue") as [ [ | [ | ] | | | | ] | ];
        split; try (intros [ Hr Hd ]); try intros Habs;
        try discriminate; try reflexivity; try (split; discriminate);
        try (now destruct Hr); try (now destruct Hd). }
    split.
    + intros v. rewrite filter_In, Hkeeps. reflexivity.
    + intros v Hin Hr Hd. apply filter_In. split; [ exact Hin | ].
      unfold MoreOps.keeps. now rewrite Hr, Hd.
Qed.

Lemma removeSelfKeys_keeps_plain_values_witness :
  MoreSpec.has_key "self" Sample.issue_with_labels = false
  /\ MoreSpec.has_key "__proto__" Sample.issue_with_labels = false
  /\ MoreSpec.well_keyed Sample.issue_with_labels = true
  /\ MoreOps.removeSelfKeys Sample.issue_with_labels = Sample.issue_with_labels.
Proof.
  do 3 (split; [ reflexivity | ]).
  exact (removeSelfKeys_keeps_plain_values Sample.issue_with_labels
           eq_refl eq_refl eq_refl).
Defined.

End Minimize.

(** ** getIssueTypeMetadata.ts: the request and the reply *)

Section Metadata.
Context `{Platform}.
Variable cfg : Config.
Variable w : World.

(** X20.  The page size sent to the server never exceeds 200: a [maxResults]
    other than 50 is sent as the smaller of itself and 200.  With
    [startAt] absent or 0 and [maxResults] absent or 50 no query
    parameter is sent at all. *)
Theorem metadataQuery_paging (params : MoreOps.GetJiraIssueTypeMetadataRequest) :
  (forall n, In ("maxResults", Utils.PNumber n) (MoreOps.metadataQuery params) ->
             (n <= 200)%Z)
  /\ (forall n, MoreOps.m_maxResults params = Some n -> n <> 50%Z ->
                In ("maxResults", Utils.PNumber (Z.min n 200))
                   (MoreOps.metadataQuery params))
  /\ ((MoreOps.m_startAt params = None \/ MoreOps.m_startAt params = Some 0%Z) ->
      (MoreOps.m_maxResults params = None \/ MoreOps.m_maxResults params = Some 50%Z) ->
      MoreOps.metadataQuery params = []).
Proof.
  unfold MoreOps.metadataQuery. split; [ | split ].
  - intros n Hin. apply in_app_or in Hin. destruct Hin as [ Hin | Hin ].
    + destruct (MoreOps.m_startAt params) as [ s | ]; [ | contradiction ].
      destruct (negb (Z.eqb s 0)); [ | contradiction ].
      destruct Hin as [ Habs | [] ]. discriminate Habs.
    + destruct (MoreOps.m_maxResults params) as [ m | ]; [ | contradiction ].
      destruct (negb (Z.eqb m 50)); [ | contradiction ].
      destruct Hin as [ E | [] ]. injection E as <-. apply Z.le_min_r.
  - intros n -> Hn. apply in_or_app. right.
    apply Z.eqb_neq in Hn. rewrite Hn. now left.
  - intros [ -> | -> ] [ -> | -> ]; reflexivity.
Qed.

Hypothesis loaded : config_loaded cfg.

(** X21.  [getJiraIssueTypeMetadata] never throws and makes exactly one
    request, a GET.  When the request fails the reply is a failure
    payload with the message of the error.  When it succeeds and no
    minimisation is asked for, the data of the reply is the response
    itself; every successful reply reports the page the caller asked
    for (0 and 50 when absent or zero), not the capped page size. *)
Theorem getJiraIssueTypeMetadata_reply
  (params : MoreOps.GetJiraIssueTypeMetadataRequest) (st : State) :
  exists result st',
    MoreOps.getJiraIssueTypeMetadata cfg w params st = (Ok result, st')
    /\ requests st'
       = (requests st
          ++ [Spec.request_of cfg (MoreOps.metadataUrl cfg params)
                (Utils.mkOptions (Some "GET") None [])])%list
    /\ match Spec.outcome_of w
               (Spec.pending_of cfg w (List.length (requests st))
                  (MoreOps.metadataUrl cfg params)
                  (Utils.mkOptions (Some "GET") None [])) with
       | Throw e =>
           MoreOps.mr_success result = false
           /\ MoreOps.mr_message result = Some (err_message e)
           /\ MoreOps.mr_data result = None
       | Ok response =>
           MoreOps.m_minimizeOutput params = false ->
           MoreOps.mr_success result = true
           /\ MoreOps.mr_data result = Some response
       end
    /\ (MoreOps.mr_success result = true ->
        MoreOps.mr_pagination result
        = Some (MoreOps.number_or (MoreOps.m_startAt params) 0,
                MoreOps.number_or (MoreOps.m_maxResults params) 50)).
Proof.
  unfold MoreOps.getJiraIssueTypeMetadata, try_catch, bind.
  rewrite (Run.jiraRequest_run cfg w _ _ st loaded).
  destruct (Spec.outcome_of w _) as [ response | e ].
  - destruct (MoreOps.m_minimizeOutput params).
    + unfold lift. destruct (MoreOps.minimize response) as [ data | e ];
        (eexists; eexists; split; [ reflexivity | ]);
        (split; [ apply requests_mkState | ]);
        (split; [ discriminate | ]); cbn; intros; congruence.
    + eexists. eexists. split; [ reflexivity | ].
      split; [ apply requests_mkState | ].
      split; [ intros _; split; reflexivity | reflexivity ].
  - eexists. eexists. split; [ reflexivity | ].
    split; [ apply requests_mkState | ].
    split; [ repeat split | discriminate ].
Qed.

End Metadata.

Section MinimizedData.

Lemma filterFields_result (values kept : list JSON) :
  MoreOps.filterFields values = Ok kept -> kept = filter MoreOps.keeps values.
Proof.
  revert kept. induction values as [ | v values IH ]; intros kept Hrun.
  - injection Hrun as <-. reflexivity.
  - cbn [MoreOps.filterFields filter] in *.
    destruct (MoreOps.filterFields values) as [ rest | e ].
    + specialize (IH rest eq_refl). subst rest.
      destruct v; try discriminate Hrun; injection Hrun as <-; reflexivity.
    + destruct v; discriminate Hrun.
Qed.

Lemma has_key_filter (k : string) (p : JSON -> bool) (items : list JSON) :
  existsb (MoreSpec.has_key k) items = false ->
  existsb (MoreSpec.has_key k) (filter p items) = false.
Proof.
  induction items as [ | x items IH ]; [ reflexivity | ].
  cbn [existsb filter]. intros Hno. apply orb_false_elim in Hno.
  destruct Hno as [ Hx Hitems ].
  destruct (p x); cbn [existsb]; [ rewrite Hx | ]; now apply IH.
Qed.

Lemma free_entries (k : string) (es : list (string * JSON)) :
  existsb (fun e => String.eqb (fst e) k || MoreSpec.has_key k (snd e)) es = false ->
  Forall (MoreSpec.free_of k) es.
Proof.
  induction es as [ | e es IH ]; [ constructor | ].
  cbn [existsb]. intros Hno. apply orb_false_elim in Hno.
  destruct Hno as [ He Hes ]. constructor; [ exact He | now apply IH ].
Qed.

Lemma lookup_free (k key : string) (v : JSON) (es : list (string * JSON)) :
  Forall (MoreSpec.free_of k) es -> Js.lookup key es = Some v ->
  MoreSpec.has_key k v = false.
Proof.
  induction 1 as [ | [k0 v0] es He _ IH ]; simpl; [ discriminate | ].
  destruct (String.eqb key k0).
  - intros E. injection E as <-. unfold MoreSpec.free_of in He.
    apply orb_false_elim in He. now destruct He.
  - exact IH.
Qed.

(** X22.  With [minimizeOutput], the data of a successful reply (for a
    response without [__proto__] entries) has no [self] property at any
    depth; and when its [values] is an array, every element of it has a
    [required] that is not [false] and a [hasDefaultValue] that is not
    [true]. *)
Theorem minimize_strips_and_filters (response data : JSON) :
  MoreSpec.has_key "__proto__" response = false ->
  MoreOps.minimize response = Ok data ->
  MoreSpec.has_key "self" data = false
  /\ forall kept,
       Js.prop data "values" = Some (JArr kept) ->
       forallb MoreOps.keeps kept = true.
Proof.
  intros _ Hrun. unfold MoreOps.minimize in Hrun.
  pose proof (removeSelfKeys_removes_self response) as Hself.
  destruct (MoreOps.removeSelfKeys response) as [ | | | | items | es ];
    try (injection Hrun as <-; split; [ exact Hself | intros kept; discriminate ]).
  destruct (Js.lookup "values" es) as [ values | ] eqn:Hvalues.
  2: { injection Hrun as <-. split; [ exact Hself | ].
       intros kept Hkept. cbn [Js.prop] in Hkept. congruence. }
  cbn [MoreSpec.has_key] in Hself. apply free_entries in Hself.
  pose proof (lookup_free _ _ _ _ Hself Hvalues) as Hvalues_free.
  unfold MoreOps.filterFieldsForMinimize in Hrun.
  assert (Hset : forall filtered,
             MoreSpec.has_key "self" filtered = false ->
             MoreSpec.has_key "self" (JObj (Js.set "values" filtered es)) = false).
  { intros filtered Hfiltered. cbn [MoreSpec.has_key]. apply existsb_free.
    apply set_free; [ | exact Hself ].
    unfold MoreSpec.free_of. cbn [fst snd]. now rewrite Hfiltered. }
  destruct values as [ | | | | items | ];
    try (injection Hrun as <-; split; [ now apply Hset | ];
         intros kept Hkept; cbn [Js.prop] in Hkept;
         rewrite lookup_set_same in Hkept; discriminate Hkept).
  destruct (MoreOps.filterFields items) as [ filtered | e ] eqn:Hfilter;
    [ | discriminate Hrun ].
  injection Hrun as <-. apply filterFields_result in Hfilter. subst filtered.
  split.
  - apply Hset. cbn [MoreSpec.has_key] in *. now apply has_key_filter.
  - intros kept Hkept. cbn [Js.prop] in Hkept.
    rewrite lookup_set_same in Hkept. injection Hkept as <-.
    apply forallb_forall. intros v Hv. apply filter_In in Hv. now destruct Hv.
Qed.

End MinimizedData.

Section MetadataRuns.
#[local] Existing Instance MoreSample.platform.

Lemma getJiraIssueTypeMetadata_reply_witness :
  config_loaded Sample.cfg
  /\ exists result st',
       MoreOps.getJiraIssueTypeMetadata Sample.cfg
         (MoreSample.answers MoreSample.metadata_body)
         MoreSample.metadata_request initial = (Ok result, st')
       /\ map req_url (requests st')
          = ["https://jira.example.com/rest/api/2/issue/createmeta/AIF/issuetypes/10001?maxResults=200"]
       /\ map req_method (requests st') = ["GET"].
Proof.
  assert (Hcfg : config_loaded Sample.cfg) by (split; discriminate).
  split; [ exact Hcfg | ].
  destruct (getJiraIssueTypeMetadata_reply Sample.cfg
              (MoreSample.answers MoreSample.metadata_body) Hcfg
              MoreSample.metadata_request initial)
    as (result & st' & Hrun & Hreqs & _).
  exists result, st'. split; [ exact Hrun | ]. rewrite Hreqs.
  split; reflexivity.
Defined.

(** The reply to that request: the [self] links and the two optional
    fields are gone, and the page reported is the one asked for. *)
Example metadata_minimized :
  fst (MoreOps.getJiraIssueTypeMetadata Sample.cfg
         (MoreSample.answers MoreSample.metadata_body)
         MoreSample.metadata_request initial)
  = Ok (MoreOps.mkMetadataResult true (Some MoreSample.minimized_metadata) None
          "AIF" "10001" true (Some (0%Z, 500%Z)) None).
Proof. vm_compute. reflexivity. Qed.

Lemma minimize_strips_and_filters_witness :
  MoreSpec.has_key "__proto__" MoreSample.metadata_body = false
  /\ MoreOps.minimize MoreSample.metadata_body = Ok MoreSample.minimized_metadata
  /\ MoreSpec.has_key "self" MoreSample.minimized_metadata = false.
Proof.
  split; [ reflexivity | ]. split; [ reflexivity | ].
  exact (proj1 (minimize_strips_and_filters MoreSample.metadata_body
                  MoreSample.minimized_metadata eq_refl eq_refl)).
Defined.

End MetadataRuns.

(** ** getIssueTypes.ts *)

Section IssueTypes.
Context `{Platform}.
Variable cfg : Config.
Variable w : World.

Lemma cleanIssueTypes_length (raw : list JSON) (cleaned : list MoreOps.IssueType) :
  MoreOps.cleanIssueTypes raw = Ok cleaned -> List.length cleaned = List.length raw.
Proof.
  revert cleaned. induction raw as [ | x raw IH ]; intros cleaned Hrun.
  - injection Hrun as <-. reflexivity.
  - cbn [MoreOps.cleanIssueTypes] in Hrun.
    destruct (MoreOps.cleanIssueType x) as [ c | e ]; [ | discriminate Hrun ].
    destruct (MoreOps.cleanIssueTypes raw) as [ rest | e ]; [ | discriminate Hrun ].
    injection Hrun as <-. cbn [List.length]. now rewrite (IH rest eq_refl).
Qed.

Lemma readIssueTypes_by_shape (params : MoreOps.GetIssueTypesRequest)
  (response : JSON) :
  MoreOps.readIssueTypes params response
  = let startAt := JNum (MoreOps.it_startAt params) in
    let maxResults := JNum (MoreOps.it_maxResults params) in
    match MoreSpec.shape_of response with
    | MoreSpec.OfProjects project =>
        match project with
        | JNull =>
            Throw (Ops.typeError
                     "Cannot read properties of null (reading 'issuetypes')")
        | _ =>
            Ok (MoreSpec.issuetypes_of project, startAt, maxResults,
                MoreOps.count (MoreSpec.issuetypes_of project))
        end
    | MoreSpec.PlainList items =>
        Ok (items, startAt, maxResults, MoreOps.count items)
    | MoreSpec.Page values =>
        Ok (values,
            MoreOps.nullish_or (Js.prop response "startAt") startAt,
            MoreOps.nullish_or (Js.prop response "maxResults") maxResults,
            MoreOps.nullish_or (Js.prop response "total") (MoreOps.count values))
    | MoreSpec.Unexpected =>
        Throw (plainError NError "Unexpected response structure from Jira API")
    end.
Proof.
  unfold MoreOps.readIssueTypes, MoreSpec.shape_of, MoreOps.or_undefined.
  assert (Hrest :
            match response with
            | JArr items =>
                Ok (items, JNum (MoreOps.it_startAt params),
                    JNum (MoreOps.it_maxResults params), MoreOps.count items)
            | _ =>
                match Js.prop response "values" with
                | Some (JArr values) =>
                    Ok (values,
                        MoreOps.nullish_or (Js.prop response "startAt")
                          (JNum (MoreOps.it_startAt params)),
                        MoreOps.nullish_or (Js.prop response "maxResults")
                          (JNum (MoreOps.it_maxResults params)),
                        MoreOps.nullish_or (Js.prop response "total")
                          (MoreOps.count values))
                | _ =>
                    Throw (plainError NError
                             "Unexpected response structure from Jira API")
                end
            end
            = match
                match response with
                | JArr items => MoreSpec.PlainList items
                | _ =>
                    match Js.prop response "values" with
                    | Some (JArr values) => MoreSpec.Page values
                    | _ => MoreSpec.Unexpected
                    end
                end
              with
              | MoreSpec.OfProjects project =>
                  match project with
                  | JNull =>
                      Throw (Ops.typeError
                               "Cannot read properties of null (reading 'issuetypes')")
                  | _ =>
                      Ok (MoreSpec.issuetypes_of project,
                          JNum (MoreOps.it_startAt params),
                          JNum (MoreOps.it_maxResults params),
                          MoreOps.count (MoreSpec.issuetypes_of project))
                  end
              | MoreSpec.PlainList items =>
                  Ok (items, JNum (MoreOps.it_startAt params),
                      JNum (MoreOps.it_maxResults params), MoreOps.count items)
              | MoreSpec.Page values =>
                  Ok (values,
                      MoreOps.nullish_or (Js.prop response "startAt")
                        (JNum (MoreOps.it_startAt params)),
                      MoreOps.nullish_or (Js.prop response "maxResults")
                        (JNum (MoreOps.it_maxResults params)),
                      MoreOps.nullish_or (Js.prop response "total")
                        (MoreOps.count values))
              | MoreSpec.Unexpected =>
                  Throw (plainError NError
                           "Unexpected response structure from Jira API")
              end).
  { destruct response as [ | | | | items | es ]; try reflexivity.
    cbn [Js.prop].
    destruct (Js.lookup "values" es) as [ [ | | | | values | ] | ];
      reflexivity. }
  destruct (Js.prop response "projects")
    as [ [ | [ | ] | n | s | [ | project others ] | es ] | ];
    cbn [Js.truthy]; try exact Hrest.
  - destruct (negb (Z.eqb n 0)); exact Hrest.
  - destruct (Str.nonempty s); exact Hrest.
  - unfold MoreSpec.issuetypes_of.
    destruct project; try reflexivity;
      destruct (Js.prop _ "issuetypes") as [ [ | | | | issuetypes | ] | ];
      reflexivity.
Qed.

Hypothesis loaded : config_loaded cfg.

(** X23.  [getIssueTypes] never throws and makes exactly one request, the GET
    of [issue/createmeta/<project>/issuetypes]: the [startAt] and
    [maxResults] of the caller are not sent.  When the request fails the
    reply is a failure payload with the message of the error and the
    project.  Of a response with a non-empty [projects] list the issue
    types of the first project are returned, and of a response that is
    itself a list its elements: in both cases with the [startAt] and
    [maxResults] of the caller and with [total] the number of issue
    types returned, whatever the response says.  Of a response with a
    [values] list the values are returned, with the [startAt],
    [maxResults] and [total] of the response where it has them, and
    those of the caller and the number of values where it has not.  Any
    other response gives a failure payload. *)
Theorem getIssueTypes_reply (params : MoreOps.GetIssueTypesRequest) (st : State) :
  let endpoint :=
    "issue/createmeta/" ++ MoreOps.it_projectIdOrKey params ++ "/issuetypes" in
  let startAt := JNum (MoreOps.it_startAt params) in
  let maxResults := JNum (MoreOps.it_maxResults params) in
  let number (types : list MoreOps.IssueType) :=
    JNum (Z.of_nat (List.length types)) in
  exists result st',
    MoreOps.getIssueTypes cfg w params st = (Ok result, st')
    /\ requests st'
       = (requests st ++ [Spec.request_of cfg endpoint Utils.noOptions])%list
    /\ match Spec.outcome_of w
               (Spec.pending_of cfg w (List.length (requests st)) endpoint
                  Utils.noOptions) with
       | Throw e =>
           MoreOps.itr_success result = false
           /\ MoreOps.itr_error result = Some (err_message e)
           /\ MoreOps.itr_projectIdOrKey result
              = Some (MoreOps.it_projectIdOrKey params)
           /\ MoreOps.itr_issueTypes result = None
       | Ok response =>
           if Js.truthy response && Js.typeof_object response then
             match MoreSpec.shape_of response with
             | MoreSpec.OfProjects project =>
                 if MoreSpec.is_null project
                 then MoreOps.itr_success result = false
                 else
                   forall types,
                     MoreOps.cleanIssueTypes (MoreSpec.issuetypes_of project)
                     = Ok types ->
                     result
                     = MoreSpec.issue_types types startAt maxResults (number types)
             | MoreSpec.PlainList items =>
                 forall types,
                   MoreOps.cleanIssueTypes items = Ok types ->
                   result
                   = MoreSpec.issue_types types startAt maxResults (number types)
             | MoreSpec.Page values =>
                 forall types,
                   MoreOps.cleanIssueTypes values = Ok types ->
                   result
                   = MoreSpec.issue_types types
                       (MoreOps.nullish_or (Js.prop response "startAt") startAt)
                       (MoreOps.nullish_or (Js.prop response "maxResults")
                          maxResults)
                       (MoreOps.nullish_or (Js.prop response "total")
                          (number types))
             | MoreSpec.Unexpected =>
                 MoreOps.itr_success result = false
                 /\ MoreOps.itr_error result
                    = Some "Unexpected response structure from Jira API"
             end
           else MoreOps.itr_success result = false
       end.
Proof.
  intros endpoint startAt maxResults number.
  unfold MoreOps.getIssueTypes, try_catch.
  unfold bind at 1. fold endpoint.
  rewrite (Run.jiraRequest_run cfg w _ _ st loaded).
  destruct (Spec.outcome_of w _) as [ response | e ].
  2: { eexists. eexists. split; [ reflexivity | ].
       split; [ apply requests_mkState | repeat split ]. }
  unfold bind, lift, throw, ret. rewrite <- negb_andb.
  destruct (Js.truthy response && Js.typeof_object response); cbn [negb].
  2: { eexists. eexists. split; [ reflexivity | ].
       split; [ apply requests_mkState | reflexivity ]. }
  rewrite readIssueTypes_by_shape. cbv zeta.
  destruct (MoreSpec.shape_of response) as [ project | items | values | ].
  - destruct project; cbn [MoreSpec.is_null];
      try (eexists; eexists; split; [ reflexivity | ];
           split; [ apply requests_mkState | reflexivity ]);
      match goal with
      | |- context [MoreOps.cleanIssueTypes ?raw] =>
          destruct (MoreOps.cleanIssueTypes raw) as [ cleaned | e ] eqn:Hclean
      end;
      eexists; eexists; (split; [ reflexivity | ]);
      (split; [ apply requests_mkState | ]);
      intros types E; try discriminate E; injection E as <-;
      unfold MoreSpec.issue_types, MoreOps.count, number;
      now rewrite (cleanIssueTypes_length _ _ Hclean).
  - destruct (MoreOps.cleanIssueTypes items) as [ cleaned | e ] eqn:Hclean;
      eexists; eexists; (split; [ reflexivity | ]);
      (split; [ apply requests_mkState | ]);
      intros types E; try discriminate E; injection E as <-;
      unfold MoreSpec.issue_types, MoreOps.count, number;
      now rewrite (cleanIssueTypes_length _ _ Hclean).
  - destruct (MoreOps.cleanIssueTypes values) as [ cleaned | e ] eqn:Hclean;
      eexists; eexists; (split; [ reflexivity | ]);
      (split; [ apply requests_mkState | ]);
      intros types E; try discriminate E; injection E as <-;
      unfold MoreSpec.issue_types, MoreOps.count, number;
      now rewrite (cleanIssueTypes_length _ _ Hclean).
  - eexists. eexists. split; [ reflexivity | ].
    split; [ apply requests_mkState | split; reflexivity ].
Qed.

(** Of a create-metadata response only the first project is read: the
    issue types of any further project are ignored. *)
Theorem readIssueTypes_first_project
  (params : MoreOps.GetIssueTypesRequest) (response project : JSON)
  (others : list JSON) :
  Js.prop response "projects" = Some (JArr (project :: others)) ->
  MoreOps.readIssueTypes params response
  = MoreOps.readIssueTypes params (JObj [("projects", JArr [project])]).
Proof.
  intros Hprojects. unfold MoreOps.readIssueTypes. rewrite Hprojects.
  reflexivity.
Qed.

End IssueTypes.

Section IssueTypesRuns.
#[local] Existing Instance MoreSample.platform.

(** A page that has a [total] of its own, and a list that cannot have
    one. *)
Lemma getIssueTypes_reply_witness :
  config_loaded Sample.cfg
  /\ (exists st',
        MoreOps.getIssueTypes Sample.cfg
          (MoreSample.answers MoreSample.createmeta_body)
          (MoreOps.mkIssueTypesRequest "AIF" 10 25) initial
        = (Ok (MoreSpec.issue_types
                 [MoreOps.mkIssueType (Some (JStr "1")) (Some (JStr "Bug")) None
                    None false None None None;
                  MoreOps.mkIssueType (Some (JStr "5")) (Some (JStr "Sub-task"))
                    None None true None None None]
                 (JNum 10) (JNum 25) (JNum 2)),
           st')
        /\ map req_url (requests st')
           = ["https://jira.example.com/rest/api/2/issue/createmeta/AIF/issuetypes"])
  /\ exists st',
       MoreOps.getIssueTypes Sample.cfg
         (MoreSample.answers MoreSample.issue_types_page)
         (MoreOps.mkIssueTypesRequest "AIF" 10 25) initial
       = (Ok (MoreSpec.issue_types
                [MoreOps.mkIssueType (Some (JStr "1")) (Some (JStr "Bug")) None
                   None false None None None]
                (JNum 10) (JNum 1) (JNum 7)),
          st').
Proof.
  assert (Hcfg : config_loaded Sample.cfg) by (split; discriminate).
  split; [ exact Hcfg | ]. split.
  - destruct (getIssueTypes_reply Sample.cfg
                (MoreSample.answers MoreSample.createmeta_body) Hcfg
                (MoreOps.mkIssueTypesRequest "AIF" 10 25) initial)
      as (result & st' & Hrun & Hreqs & Hreply).
    exists st'. rewrite Hrun, Hreqs.
    rewrite (Hreply _ eq_refl). split; reflexivity.
  - destruct (getIssueTypes_reply Sample.cfg
                (MoreSample.answers MoreSample.issue_types_page) Hcfg
                (MoreOps.mkIssueTypesRequest "AIF" 10 25) initial)
      as (result & st' & Hrun & _ & Hreply).
    exists st'. rewrite Hrun. rewrite (Hreply _ eq_refl). reflexivity.
Defined.

(** The reply to that request: the two issue types of the first
    project, with the paging the caller gave. *)
Example issue_types_of_first_project :
  fst (MoreOps.getIssueTypes Sample.cfg
         (MoreSample.answers MoreSample.createmeta_body)
         (MoreOps.mkIssueTypesRequest "AIF" 10 25) initial)
  = Ok (MoreOps.mkIssueTypesResult true
          (Some [MoreOps.mkIssueType (Some (JStr "1")) (Some (JStr "Bug")) None None
                   false None None None;
                 MoreOps.mkIssueType (Some (JStr "5")) (Some (JStr "Sub-task")) None
                   None true None None None])
          (Some (JNum 10)) (Some (JNum 25)) (Some (JNum 2)) None None).
Proof. vm_compute. reflexivity. Qed.

Lemma readIssueTypes_first_project_witness :
  MoreOps.readIssueTypes (MoreOps.mkIssueTypesRequest "AIF" 0 50)
    MoreSample.createmeta_body
  = MoreOps.readIssueTypes (MoreOps.mkIssueTypesRequest "AIF" 0 50)
      (JObj [("projects",
              JArr [JObj [("key", JStr "AIF");
                          ("issuetypes",
                           JArr [JObj [("id", JStr "1"); ("name", JStr "Bug");
                                       ("subtask", JBool false);
                                       ("description", JStr EmptyString)];
                                 JObj [("id", JStr "5"); ("name", JStr "Sub-task");
                                       ("subtask", JBool true)]])]])]).
Proof.
  exact (readIssueTypes_first_project (MoreOps.mkIssueTypesRequest "AIF" 0 50)
           MoreSample.createmeta_body _ _ eq_refl).
Defined.

End IssueTypesRuns.

(** ** config.ts *)

Section Configuration.
Variable homedir : string.
Variable path_resolve : string -> string.
Variable parseInt : string -> option Z.
Variable URL_valid : string -> bool.
Variable defaultLogFile : string.

Lemma env_or_empty (value : option string) :
  ConfigFile.env_or value EmptyString = EmptyString
  \/ value = Some (ConfigFile.env_or value EmptyString)
     /\ ConfigFile.env_or value EmptyString <> EmptyString.
Proof.
  destruct value as [ [ | c s ] | ]; cbn; auto.
  right. split; [ reflexivity | discriminate ].
Qed.

Lemma env_or_twice (value : option string) (d : string) :
  ConfigFile.env_or value (ConfigFile.env_or value d) = ConfigFile.env_or value d.
Proof. destruct value as [ [ | c s ] | ]; reflexivity. Qed.

(** X24.  [createConfig] returns a configuration exactly when the environment
    gives a non-empty e-mail and a non-empty token, which are then the
    credentials of the configuration: every configuration the request
    helper runs under is loaded.  Otherwise it throws the error that
    names the two variables. *)
Theorem createConfig_requires_credentials (env : ConfigFile.Env) :
  match ConfigFile.createConfig homedir path_resolve parseInt URL_valid
          defaultLogFile env with
  | Ok c =>
      config_loaded (ConfigFile.helper_config c)
      /\ env "JIRA_EMAIL" = Some (ConfigFile.jc_email c)
      /\ env "JIRA_PERSONAL_ACCESS_TOKEN" = Some (ConfigFile.jc_token c)
  | Throw e =>
      e = plainError NError
            "JIRA_EMAIL and JIRA_PERSONAL_ACCESS_TOKEN environment variables are required"
      /\ (ConfigFile.env_or (env "JIRA_EMAIL") EmptyString = EmptyString
          \/ ConfigFile.env_or (env "JIRA_PERSONAL_ACCESS_TOKEN") EmptyString
             = EmptyString)
  end.
Proof.
  unfold ConfigFile.createConfig, ConfigFile.defaults.
  cbn [ConfigFile.jc_email ConfigFile.jc_token]. rewrite !env_or_twice.
  destruct (env_or_empty (env "JIRA_EMAIL")) as [ He | [ He Hne ] ].
  { rewrite He. cbn [Str.nonempty negb orb]. split; [ reflexivity | now left ]. }
  destruct (env_or_empty (env "JIRA_PERSONAL_ACCESS_TOKEN")) as [ Ht | [ Ht Hnt ] ].
  { rewrite Ht. cbn [Str.nonempty negb]. rewrite orb_true_r.
    split; [ reflexivity | now right ]. }
  destruct (ConfigFile.env_or (env "JIRA_EMAIL") EmptyString) as [ | c s ];
    [ now destruct Hne | ].
  destruct (ConfigFile.env_or (env "JIRA_PERSONAL_ACCESS_TOKEN") EmptyString)
    as [ | c' s' ]; [ now destruct Hnt | ].
  cbn [Str.nonempty negb orb]. cbn.
  split; [ split; discriminate | ]. split; assumption.
Qed.

Lemma substitution_plain (matched before after replacement : string) :
  ConfigFile.dollar_free replacement = true ->
  ConfigFile.substitution matched before after replacement = replacement.
Proof.
  unfold ConfigFile.dollar_free.
  induction replacement as [ | c replacement IH ]; [ reflexivity | ].
  cbn [Str.all_chars]. intros Hfree. apply andb_prop in Hfree.
  destruct Hfree as [ Hc Hfree ]. specialize (IH Hfree).
  destruct c as [ [] [] [] [] [] [] [] [] ];
    try discriminate Hc; cbn [ConfigFile.substitution]; now rewrite IH.
Qed.

Lemma resolvePath_tilde (path : string) :
  ConfigFile.dollar_free homedir = true ->
  ConfigFile.resolvePath homedir path_resolve ("~/" ++ path)
  = homedir ++ "/" ++ path.
Proof.
  intros Hfree. cbn [append ConfigFile.resolvePath].
  now rewrite substitution_plain.
Qed.

Lemma resolvePath_other (path : string) :
  Str.startsWith path "~/" = false ->
  ConfigFile.resolvePath homedir path_resolve path = path_resolve path.
Proof.
  unfold Str.startsWith. intros Hstart.
  destruct path as [ | c [ | c' rest ] ]; try reflexivity.
  - destruct c as [ [] [] [] [] [] [] [] [] ]; reflexivity.
  - destruct (Ascii.eqb_spec c "~"%char) as [ -> | Hc ].
    + destruct (Ascii.eqb_spec c' "/"%char) as [ -> | Hc' ].
      * cbn in Hstart. destruct rest; discriminate Hstart.
      * destruct c' as [ [] [] [] [] [] [] [] [] ];
          try reflexivity. now destruct Hc'.
    + destruct c as [ [] [] [] [] [] [] [] [] ];
        try reflexivity. now destruct Hc.
Qed.

Lemma env_or_set (s d : string) :
  s <> EmptyString -> ConfigFile.env_or (Some s) d = s.
Proof. destruct s; [ now intros Hne | reflexivity ]. Qed.

(** X25.  The settings of a configuration that [createConfig] returns.  The
    API address is [JIRA_API_BASE_URL] when that is set, not empty and a
    valid URL, and the built-in address in every other case.  Certificate
    checking is off exactly when [JIRA_STRICT_SSL] is the string [false].
    The default project is the variable as it is.  A [JIRA_LOG_FILE] that
    starts with [~/] has its tilde replaced by the home directory (whose
    name is taken to have no dollar sign), and any other one that is not
    empty goes through [path.resolve].  [JIRA_MAX_RESULTS] and
    [JIRA_TIMEOUT], when set and not empty, are read by [parseInt]. *)
Theorem createConfig_settings (env : ConfigFile.Env) (c : ConfigFile.JiraConfig) :
  ConfigFile.createConfig homedir path_resolve parseInt URL_valid defaultLogFile
    env = Ok c ->
  ConfigFile.jc_apiBaseUrl c
  = match env "JIRA_API_BASE_URL" with
    | Some url =>
        if Str.nonempty url && URL_valid url then url
        else "https://jira.corp.adobe.com/rest/api/2"
    | None => "https://jira.corp.adobe.com/rest/api/2"
    end
  /\ (ConfigFile.jc_strictSSL c = false <-> env "JIRA_STRICT_SSL" = Some "false")
  /\ ConfigFile.jc_defaultProject c = env "JIRA_DEFAULT_PROJECT"
  /\ (forall rest,
        env "JIRA_LOG_FILE" = Some ("~/" ++ rest) ->
        ConfigFile.dollar_free homedir = true ->
        ConfigFile.jc_logFile c = homedir ++ "/" ++ rest)
  /\ (forall path,
        env "JIRA_LOG_FILE" = Some path ->
        path <> EmptyString ->
        Str.startsWith path "~/" = false ->
        ConfigFile.jc_logFile c = path_resolve path)
  /\ (forall s,
        env "JIRA_MAX_RESULTS" = Some s -> s <> EmptyString ->
        ConfigFile.jc_maxResults c = parseInt s)
  /\ (forall s,
        env "JIRA_TIMEOUT" = Some s -> s <> EmptyString ->
        ConfigFile.jc_timeout c = parseInt s).
Proof.
  unfold ConfigFile.createConfig, ConfigFile.defaults.
  cbn [ConfigFile.jc_email ConfigFile.jc_token ConfigFile.jc_apiBaseUrl
       ConfigFile.jc_logFile ConfigFile.jc_defaultProject ConfigFile.jc_strictSSL
       ConfigFile.jc_maxResults ConfigFile.jc_timeout].
  destruct (negb _ || negb _); [ discriminate | ].
  intros E. injection E as <-.
  cbn [ConfigFile.jc_apiBaseUrl ConfigFile.jc_logFile ConfigFile.jc_defaultProject
       ConfigFile.jc_strictSSL ConfigFile.jc_maxResults ConfigFile.jc_timeout].
  split; [ | split; [ | split; [ | split; [ | split; [ | split ] ] ] ] ].
  - destruct (env "JIRA_API_BASE_URL") as [ [ | ch s ] | ];
      cbn [ConfigFile.env_or Str.nonempty andb];
      try reflexivity;
      destruct (URL_valid "https://jira.corp.adobe.com/rest/api/2");
      reflexivity.
  - unfold ConfigFile.not_false.
    destruct (env "JIRA_STRICT_SSL") as [ s | ].
    + destruct (String.eqb_spec s "false") as [ -> | Hne ]; cbn [negb].
      * split; reflexivity.
      * split; [ discriminate | ]. intros E. injection E as E. contradiction.
    + split; discriminate.
  - destruct (env "JIRA_DEFAULT_PROJECT") as [ [ | ch s ] | ]; reflexivity.
  - intros rest Hlog Hfree. rewrite Hlog.
    rewrite env_or_set by discriminate. now apply resolvePath_tilde.
  - intros path Hlog Hne Hstart. rewrite Hlog, (env_or_set _ _ Hne).
    now apply resolvePath_other.
  - intros s Hset Hne. now rewrite Hset, (env_or_set _ _ Hne).
  - intros s Hset Hne. now rewrite Hset, (env_or_set _ _ Hne).
Qed.

(** X26.  [resolvePath] replaces the tilde of a path that starts with [~/] by
    the home directory, provided the name of the home directory has no
    dollar sign (in a replacement text [$&], [$'] and the like stand for
    parts of the path); any other path goes to [path.resolve]. *)
Theorem resolvePath_expands_tilde (path : string) :
  (ConfigFile.dollar_free homedir = true ->
   ConfigFile.resolvePath homedir path_resolve ("~/" ++ path)
   = homedir ++ "/" ++ path)
  /\ (Str.startsWith path "~/" = false ->
      ConfigFile.resolvePath homedir path_resolve path = path_resolve path).
Proof.
  split; [ apply resolvePath_tilde | apply resolvePath_other ].
Qed.

End Configuration.

Section ConfigurationRuns.

Lemma createConfig_settings_witness :
  exists c,
    ConfigFile.createConfig MoreSample.homedir MoreSample.path_resolve
      MoreSample.parseInt MoreSample.URL_valid MoreSample.defaultLogFile
      MoreSample.env = Ok c
    /\ ConfigFile.jc_apiBaseUrl c = "https://jira.example.com/rest/api/2"
    /\ ConfigFile.jc_strictSSL c = false
    /\ ConfigFile.jc_logFile c = "/home/ada/logs/jira.log"
    /\ ConfigFile.jc_maxResults c = Some 50%Z.
Proof.
  eexists. split; [ reflexivity | ].
  pose proof (createConfig_settings MoreSample.homedir MoreSample.path_resolve
                MoreSample.parseInt MoreSample.URL_valid MoreSample.defaultLogFile
                MoreSample.env _ eq_refl) as (Hurl & Hssl & _ & Hlog & _).
  split; [ rewrite Hurl; reflexivity | ].
  split; [ apply (proj2 Hssl); reflexivity | ].
  split; [ rewrite (Hlog "logs/jira.log" eq_refl eq_refl); reflexivity
         | reflexivity ].
Defined.

(** An address that is no URL is replaced by the built-in one. *)
Example createConfig_rejects_address :
  option_map ConfigFile.jc_apiBaseUrl
    (match ConfigFile.createConfig MoreSample.homedir MoreSample.path_resolve
             MoreSample.parseInt MoreSample.URL_valid MoreSample.defaultLogFile
             (fun name => if String.eqb name "JIRA_API_BASE_URL"
                          then Some "jira.example.com"
                          else MoreSample.env name) with
     | Ok c => Some c
     | Throw _ => None
     end)
  = Some "https://jira.corp.adobe.com/rest/api/2".
Proof. reflexivity. Qed.

(** Why the home directory must have no dollar sign: [$&] in it is
    read as the text that was matched, the tilde. *)
Example resolvePath_reads_dollar_patterns :
  ConfigFile.resolvePath "/home/a$&b" MoreSample.path_resolve "~/logs/jira.log"
  = "/home/a~b/logs/jira.log".
Proof. reflexivity. Qed.

End ConfigurationRuns.

(** ** create.ts *)

Section Create.
Context `{Platform}.
Variable cfg : Config.
Variable w : World.
Hypothesis loaded : config_loaded cfg.


End Create.

Section CreateRuns.
#[local] Existing Instance MoreSample.platform.


(** A refused creation: the message of the error, then what the
    response of the server says. *)
Example creation_refused :
  match fst (MoreOps.createJiraIssue Sample.cfg Sample.all_failing
               MoreSample.new_issue initial) with
  | Ok result =>
      MoreOps.c_message result
      = "Issue does not exist" ++ MoreOps.newline ++ MoreOps.newline
        ++ "Field Errors:" ++ MoreOps.newline ++ MoreOps.newline ++ MoreOps.newline
        ++ "Additional Details:" ++ MoreOps.newline
        ++ MoreOps.bullet ++ " Issue does not exist"
  | Throw _ => False
  end.
Proof. vm_compute. reflexivity. Qed.

End CreateRuns.

(** ** index.ts: the handler of tool calls *)

Section ToolCalls.
Context `{Platform}.
Variable cfg : Config.
Variable w : World.

(** The test that follows a handler throws nothing but the [Error] with
    its fixed text. *)
Lemma checked_runs {A : Type} (handler : M A) (succeeded : A -> bool)
  (failure : string) (content : A -> Server.ToolResult) (st st' : State)
  (result : A) :
  handler st = (Ok result, st') ->
  Server.checked handler succeeded failure content st
  = if succeeded result then (Ok (content result), st')
    else (Throw (plainError NError failure), st').
Proof.
  intros Hrun. unfold Server.checked, bind. rewrite Hrun.
  destruct (succeeded result); reflexivity.
Qed.

Lemma returning_payload {A : Type} (handler : M A)
  (content : A -> Server.ToolResult) (st st' : State) (result : A) :
  handler st = (Ok result, st') ->
  bind handler (fun result => ret (content result)) st = (Ok (content result), st').
Proof. intros Hrun. unfold bind. now rewrite Hrun. Qed.

(** The handlers that build a payload in their [catch]. *)
Lemma payload_returns (call : Server.ToolCall) (st : State) :
  MoreSpec.lets_failures_through (Server.Call call) = false ->
  exists shown st',
    MoreSpec.payload cfg w call st = (Ok shown, st')
    /\ Server.run cfg w call st
       = match MoreSpec.failure_text call, MoreSpec.success_of shown with
         | Some text, Some false => (Throw (plainError NError text), st')
         | _, _ => (Ok shown, st')
         end.
Proof.
  intros Hcall.
  assert (Hhandler :
            forall {A : Type} (m : M A) (f : JsError -> A)
                   (succeeded : A -> bool) (failure : string)
                   (content : A -> Server.ToolResult),
              exists shown st',
                bind (try_catch m (fun e => ret (f e)))
                     (fun result => ret (content result)) st = (Ok shown, st')
                /\ exists result,
                     shown = content result
                     /\ Server.checked (try_catch m (fun e => ret (f e)))
                          succeeded failure content st
                        = if succeeded result then (Ok shown, st')
                          else (Throw (plainError NError failure), st')).
  { intros A m f succeeded failure content.
    destruct (try_catch_returns m f st) as (result & st' & Hrun).
    exists (content result), st'.
    split; [ now apply returning_payload | ].
    exists result. split; [ reflexivity | now apply checked_runs ]. }
  destruct call; try discriminate Hcall;
    cbn [MoreSpec.payload Server.run MoreSpec.failure_text].
  - unfold MoreOps.testAuth.
    destruct (Hhandler _ (bind (MoreOps.verifyAuthentication cfg w)
                            (fun response =>
                               ret (MoreOps.mkAuthResult true
                                      "Successfully authenticated with Jira API"
                                      (Some response) None)))
                (fun error =>
                   MoreOps.mkAuthResult false (Ops.message_of error) None
                     (Some error))
                (fun _ => true) EmptyString Server.AuthContent)
      as (shown & st' & Hrun & _).
    exists shown, st'. split; exact Hrun.
  - unfold MoreOps.createJiraIssue.
    match goal with
    | |- context [try_catch ?m (fun e => ret (@?f e))] =>
        destruct (Hhandler _ m f (fun _ => true) EmptyString Server.CreateContent)
          as (shown & st' & Hrun & _)
    end.
    exists shown, st'. split; exact Hrun.
  - unfold Ops.updateJiraIssue.
    match goal with
    | |- context [Server.checked (try_catch ?m (fun e => ret (@?f e))) ?s ?t ?c] =>
        destruct (Hhandler _ m f s t c)
          as (shown & st' & Hrun & result & -> & Hchecked)
    end.
    eexists. exists st'. split; [ exact Hrun | ].
    rewrite Hchecked. cbn [MoreSpec.success_of].
    destruct (Ops.op_success result); reflexivity.
  - unfold Ops.getJiraComments.
    match goal with
    | |- context [Server.checked (try_catch ?m (fun e => ret (@?f e))) ?s ?t ?c] =>
        destruct (Hhandler _ m f s t c)
          as (shown & st' & Hrun & result & -> & Hchecked)
    end.
    eexists. exists st'. split; [ exact Hrun | ].
    rewrite Hchecked. cbn [MoreSpec.success_of].
    destruct (Ops.success result); reflexivity.
  - unfold Ops.addJiraComment.
    match goal with
    | |- context [Server.checked (try_catch ?m (fun e => ret (@?f e))) ?s ?t ?c] =>
        destruct (Hhandler _ m f s t c)
          as (shown & st' & Hrun & result & -> & Hchecked)
    end.
    eexists. exists st'. split; [ exact Hrun | ].
    rewrite Hchecked. cbn [MoreSpec.success_of].
    destruct (Ops.success result); reflexivity.
  - unfold Ops.transitionJiraStatus.
    match goal with
    | |- context [Server.checked (try_catch ?m (fun e => ret (@?f e))) ?s ?t ?c] =>
        destruct (Hhandler _ m f s t c)
          as (shown & st' & Hrun & result & -> & Hchecked)
    end.
    eexists. exists st'. split; [ exact Hrun | ].
    rewrite Hchecked. cbn [MoreSpec.success_of].
    destruct (Ops.op_success result); reflexivity.
  - unfold Ops.transitionJiraStatusByName.
    match goal with
    | |- context [Server.checked (try_catch ?m (fun e => ret (@?f e))) ?s ?t ?c] =>
        destruct (Hhandler _ m f s t c)
          as (shown & st' & Hrun & result & -> & Hchecked)
    end.
    eexists. exists st'. split; [ exact Hrun | ].
    rewrite Hchecked. cbn [MoreSpec.success_of].
    destruct (Ops.op_success result); reflexivity.
  - unfold Ops.getJiraTransitions.
    match goal with
    | |- context [Server.checked (try_catch ?m (fun e => ret (@?f e))) ?s ?t ?c] =>
        destruct (Hhandler _ m f s t c)
          as (shown & st' & Hrun & result & -> & Hchecked)
    end.
    eexists. exists st'. split; [ exact Hrun | ].
    rewrite Hchecked. cbn [MoreSpec.success_of].
    destruct (Ops.op_success result); reflexivity.
  - unfold MoreOps.getProjectConfig.
    match goal with
    | |- context [Server.checked (try_catch ?m (fun e => ret (@?f e))) ?s ?t ?c] =>
        destruct (Hhandler _ m f s t c)
          as (shown & st' & Hrun & result & -> & Hchecked)
    end.
    eexists. exists st'. split; [ exact Hrun | ].
    rewrite Hchecked. cbn [MoreSpec.success_of].
    destruct (MoreOps.pcr_success result); reflexivity.
  - unfold MoreOps.getJiraIssueTypeMetadata.
    match goal with
    | |- context [Server.checked (try_catch ?m (fun e => ret (@?f e))) ?s ?t ?c] =>
        destruct (Hhandler _ m f s t c)
          as (shown & st' & Hrun & result & -> & Hchecked)
    end.
    eexists. exists st'. split; [ exact Hrun | ].
    rewrite Hchecked. cbn [MoreSpec.success_of].
    destruct (MoreOps.mr_success result); reflexivity.
  - unfold MoreOps.getIssueTypes.
    match goal with
    | |- context [Server.checked (try_catch ?m (fun e => ret (@?f e))) ?s ?t ?c] =>
        destruct (Hhandler _ m f s t c)
          as (shown & st' & Hrun & result & -> & Hchecked)
    end.
    eexists. exists st'. split; [ exact Hrun | ].
    rewrite Hchecked. cbn [MoreSpec.success_of].
    destruct (MoreOps.itr_success result); reflexivity.
Qed.

(** What the body of the [try] throws for a request that is no call of a
    tool, and for a tool whose handler builds its own failure payloads,
    is no [JiraError]. *)
Lemma attempt_throws_plain (request : Server.CallToolRequest) (st st' : State)
  (e : JsError) :
  MoreSpec.lets_failures_through request = false ->
  Server.attempt cfg w request st = (Throw e, st') ->
  Errors.isJiraError e = false.
Proof.
  intros Hrequest Hrun.
  destruct request as [ name | name | issues | call ];
    try (injection Hrun as <- _; reflexivity).
  cbn [Server.attempt] in Hrun.
  destruct (payload_returns call st Hrequest) as (shown & st1 & _ & Hcall).
  rewrite Hcall in Hrun.
  destruct (MoreSpec.failure_text call) as [ text | ]; [ | discriminate Hrun ].
  destruct (MoreSpec.success_of shown) as [ [ | ] | ]; try discriminate Hrun.
  injection Hrun as <- _. reflexivity.
Qed.

Lemma jiraMessage_begins (e : JsError) :
  String.prefix ("Jira API error: " ++ err_message e) (Server.jiraMessage e) = true.
Proof.
  unfold Server.jiraMessage.
  rewrite <- (append_assoc "Jira API error: " (err_message e)).
  apply prefix_append.
Qed.

Lemma jiraMessage_status (e : JsError) (status : Z) :
  err_status e = Some status -> status <> 0%Z ->
  Str.includes (Server.jiraMessage e) (" (Status: " ++ Str.of_Z status ++ ")")
  = true.
Proof.
  intros Hstatus Hne. unfold Server.jiraMessage. rewrite Hstatus.
  destruct (Z.eqb_spec status 0) as [ E | _ ]; [ contradiction | ].
  rewrite <- (append_assoc "Jira API error: " (err_message e)).
  apply includes_append, prefix_append.
Qed.


(** X29.  For the tools whose handlers report a failure in their payload and
    have it tested by the server ([update_jira_issue], the two comment
    tools, the three transition tools, the project configuration, the
    issue type metadata and the issue types), the handler of the tool
    returns a payload, and the handler of tool calls returns that payload
    when it shows a success and throws an [Error] with the fixed text of
    the tool when it shows [success: false]: the message of the failure
    does not reach the caller. *)
Theorem callTool_replaces_failures (call : Server.ToolCall) (text : string)
  (st : State) :
  MoreSpec.failure_text call = Some text ->
  exists shown st',
    MoreSpec.payload cfg w call st = (Ok shown, st')
    /\ Server.callTool cfg w (Server.Call call) st
       = match MoreSpec.success_of shown with
         | Some false => (Throw (plainError NError text), st')
         | _ => (Ok shown, st')
         end.
Proof.
  intros Htext.
  assert (Hcall : MoreSpec.lets_failures_through (Server.Call call) = false)
    by (destruct call; try discriminate Htext; reflexivity).
  destruct (payload_returns call st Hcall) as (shown & st' & Hpayload & Hrun).
  exists shown, st'. split; [ exact Hpayload | ].
  unfold Server.callTool, try_catch. cbn [Server.attempt].
  rewrite Hrun, Htext.
  destruct (MoreSpec.success_of shown) as [ [ | ] | ]; reflexivity.
Qed.

(** [test_jira_auth] and [create_jira_issue] always return a content,
    also when Jira refuses: the failure is then in the payload. *)
Theorem callTool_returns_payloads (st : State) :
  (exists result st',
      Server.callTool cfg w (Server.Call Server.TestAuth) st
      = (Ok (Server.AuthContent result), st')
      /\ MoreOps.testAuth cfg w st = (Ok result, st'))
  /\ forall args,
       exists result st',
         Server.callTool cfg w (Server.Call (Server.CreateIssue args)) st
         = (Ok (Server.CreateContent result), st')
         /\ MoreOps.createJiraIssue cfg w args st = (Ok result, st').
Proof.
  split; [ | intros args ].
  - assert (Hreturns : exists result st',
               MoreOps.testAuth cfg w st = (Ok result, st'))
      by (unfold MoreOps.testAuth; apply try_catch_returns).
    destruct Hreturns as (result & st' & Hrun).
    exists result, st'.
    unfold Server.callTool, Server.attempt, Server.run, try_catch, bind.
    rewrite Hrun. split; reflexivity.
  - assert (Hreturns : exists result st',
               MoreOps.createJiraIssue cfg w args st = (Ok result, st'))
      by (unfold MoreOps.createJiraIssue; apply try_catch_returns).
    destruct Hreturns as (result & st' & Hrun).
    exists result, st'.
    unfold Server.callTool, Server.attempt, Server.run, try_catch, bind.
    rewrite Hrun. split; reflexivity.
Qed.

End ToolCalls.

Section ToolCallsRuns.
#[local] Existing Instance MoreSample.platform.

Lemma callTool_replaces_failures_witness :
  MoreSpec.failure_text (Server.GetComments "AIF-17")
  = Some "Failed to get issue comments"
  /\ option_map MoreSpec.success_of
       (match fst (MoreSpec.payload Sample.cfg Sample.all_failing
                     (Server.GetComments "AIF-17") initial) with
        | Ok shown => Some shown
        | Throw _ => None
        end)
     = Some (Some false)
  /\ fst (Server.callTool Sample.cfg Sample.all_failing
            (Server.Call (Server.GetComments "AIF-17")) initial)
     = Throw (plainError NError "Failed to get issue comments").
Proof.
  split; [ reflexivity | ].
  destruct (callTool_replaces_failures Sample.cfg Sample.all_failing
              (Server.GetComments "AIF-17") "Failed to get issue comments"
              initial eq_refl) as (shown & st' & Hpayload & Hrun).
  rewrite Hrun, Hpayload. cbn [fst option_map].
  assert (Hshown : MoreSpec.success_of shown = Some false).
  { apply (f_equal fst) in Hpayload. vm_compute in Hpayload.
    injection Hpayload as <-. reflexivity. }
  rewrite Hshown. split; reflexivity.
Defined.

(** The reply of [getProjectConfig] for a project with its metadata: the
    statuses are listed once each, by their [id], and so are the custom
    fields; and the reply when the request for the statuses is refused. *)
Example project_config_shown :
  fst (MoreOps.getProjectConfig Sample.cfg MoreSample.project_world
         (MoreOps.mkProjectConfigRequest "AIF" true) initial)
  = Ok (MoreOps.mkProjectConfigResult true (Some MoreSample.project_shown)
          (Some MoreSample.metadata_shown) None None None).
Proof. vm_compute. reflexivity. Qed.

Example project_config_without_statuses :
  match fst (MoreOps.getProjectConfig Sample.cfg MoreSample.statuses_refused
               (MoreOps.mkProjectConfigRequest "AIF" true) initial) with
  | Ok result =>
      MoreOps.pcr_success result = true
      /\ option_map (fun metadata => map fst (Js.entries metadata))
           (MoreOps.pcr_metadata result)
         = Some ["issueTypes"; "components"; "versions"; "priorities";
                 "customFields"]
  | Throw _ => False
  end.
Proof. vm_compute. split; reflexivity. Qed.

(** A refused search reaches the caller as an [Error] that gives the
    message and the status. *)
Example search_refused :
  fst (Server.callTool Sample.cfg Sample.all_failing
         (Server.Call (Server.SearchIssues
                         (Ops.mkSearch "assignee=ada" None None None None None None)))
         initial)
  = Throw (plainError NError
             ("Jira API error: Issue does not exist (Status: 500)"
              ++ MoreOps.newline ++ MoreOps.newline ++ "Field Errors:" ++ MoreOps.newline
              ++ MoreOps.newline ++ MoreOps.newline ++ "Additional Details:"
              ++ MoreOps.newline ++ MoreOps.bullet ++ " Issue does not exist")).
Proof. vm_compute. reflexivity. Qed.

End ToolCallsRuns.

(** ** update.ts: the order of the merged labels *)

Section LabelOrder.

Lemma uniq_acc_app (a b seen : list JSON) :
  Js.uniq_acc seen (a ++ b)%list
  = (Js.uniq_acc seen a
     ++ Js.uniq_acc (rev (Js.uniq_acc seen a) ++ seen)%list b)%list.
Proof.
  revert seen. induction a as [ | x a IH ]; intros seen; [ reflexivity | ].
  cbn [app Js.uniq_acc].
  destruct (existsb (Js.sameValueZero x) seen); [ apply IH | ].
  rewrite IH. cbn [app rev]. now rewrite <- app_assoc.
Qed.

Lemma existsb_none (x : JSON) (seen : list JSON) :
  (forall s, In s seen -> Js.sameValueZero x s = false) ->
  existsb (Js.sameValueZero x) seen = false.
Proof.
  induction seen as [ | s seen IH ]; intros Hfresh; [ reflexivity | ].
  cbn [existsb]. rewrite (Hfresh s (or_introl eq_refl)).
  apply IH. intros s' Hs'. apply Hfresh. now right.
Qed.

Lemma uniq_acc_distinct_same (xs seen : list JSON) :
  Spec.distinct xs ->
  (forall x s, In x xs -> In s seen -> Js.sameValueZero x s = false) ->
  Js.uniq_acc seen xs = xs.
Proof.
  intros Hdistinct. revert seen.
  induction Hdistinct as [ | x xs Hx _ IH ]; intros seen Hfresh; [ reflexivity | ].
  cbn [Js.uniq_acc].
  rewrite existsb_none by (intros s Hs; apply Hfresh; [ now left | exact Hs ]).
  f_equal. apply IH. intros y s Hy [ <- | Hs ].
  - rewrite sameValueZero_sym. rewrite Forall_forall in Hx. now apply Hx.
  - apply Hfresh; [ now right | exact Hs ].
Qed.

(** X30.  When the labels of the issue are pairwise different, the labels
    that are sent are those labels, in their order, followed by the
    labels of the caller that are not among them: an update adds labels
    and never removes or reorders the ones the issue has. *)
Theorem merged_labels_keep_existing
  (fields : option Ops.UpdateFields) (existingLabelNames : list JSON) :
  Spec.distinct existingLabelNames ->
  exists added,
    Js.lookup "labels" (Ops.fieldsWithoutStatus_of fields existingLabelNames)
    = Some (JArr (existingLabelNames ++ added)%list)
    /\ (forall x, In x added -> In x (Ops.newLabels_of fields))
    /\ (forall x s, In x added -> In s existingLabelNames ->
                    Js.sameValueZero x s = false)
    /\ (Ops.newLabels_of fields = [] -> added = []).
Proof.
  intros Hdistinct.
  exists (Js.uniq_acc (rev existingLabelNames ++ [])%list (Ops.newLabels_of fields)).
  rewrite fieldsWithoutStatus_labels. unfold Js.setOf. rewrite uniq_acc_app.
  rewrite (uniq_acc_distinct_same _ [] Hdistinct) by (intros x s _ []).
  split; [ reflexivity | ]. split; [ | split ].
  - intros x. apply uniq_acc_subset.
  - intros x s Hx Hs. apply (uniq_acc_fresh _ _ _ _ Hx).
    apply in_or_app. left. now apply in_rev in Hs.
  - intros ->. reflexivity.
Qed.

Lemma merged_labels_keep_existing_witness :
  Spec.distinct [JStr "backend"; JStr "urgent"]
  /\ exists added,
       Js.lookup "labels"
         (Ops.fieldsWithoutStatus_of
            (Some (Ops.mkUpdateFields None None None None (Some ["urgent"; "new"])
                     None None None None None))
            [JStr "backend"; JStr "urgent"])
       = Some (JArr ([JStr "backend"; JStr "urgent"] ++ added)%list)
       /\ (forall x, In x added -> In x [JStr "urgent"; JStr "new"]).
Proof.
  assert (Hdistinct : Spec.distinct [JStr "backend"; JStr "urgent"])
    by (repeat constructor).
  split; [ exact Hdistinct | ].
  destruct (merged_labels_keep_existing
              (Some (Ops.mkUpdateFields None None None None (Some ["urgent"; "new"])
                       None None None None None))
              [JStr "backend"; JStr "urgent"] Hdistinct)
    as (added & Hlabels & Hadded & _).
  exists added. split; [ exact Hlabels | exact Hadded ].
Defined.

Example labels_merged_in_order :
  Js.lookup "labels"
    (Ops.fieldsWithoutStatus_of
       (Some (Ops.mkUpdateFields None None None None (Some ["urgent"; "new"])
                None None None None None))
       [JStr "backend"; JStr "urgent"])
  = Some (JArr [JStr "backend"; JStr "urgent"; JStr "new"]).
Proof. reflexivity. Qed.

End LabelOrder.
